(** * The CUA action-execution loop of web-eval-agent

    A shallow embedding of the two Computer-Using-Agent controllers of the
    repository,

    - [cua_integration.py]: [CUAConfig], [CUAState], [OpenAICUA] with
      [initialize_browser], [capture_screenshot], [execute_action] and
      [run_task] (module [Integration] below);
    - [openai_cua.py]: [OpenAICUA] with its device methods,
      [handle_computer_action], [run_task], and [run_openai_cua_task]
      (module [Standalone] below);

    and of the log plumbing of [browser_utils_cua.py]: the network filter,
    the console and network handlers with their bounded storages, and the
    URL that [run_browser_task] takes from the task (module [BrowserUtils]
    below); together with the properties of the loop that the specification
    states and further properties read off the code.

    Python objects are mutated in place and exceptions unwind the stack: both
    are written out with a state-and-exception monad over the controller
    object and the trace of its interactions with the outside world (browser
    page, reasoning service, dashboard log, clock).  The outside world is a
    record of oracles [Env] which answer each call from the trace so far. *)

From Stdlib Require Import ZArith String Ascii DecimalString List Lia Bool.
From stdpp Require Import base option list strings.

Open Scope string_scope.
Open Scope Z_scope.
Open Scope list_scope.

(** ** Python strings

    A [string] is read as ASCII text, one [ascii] per character. *)

Module PyStr.

(** [str(n)] for an [int]. *)
Definition str_int (n : Z) : string := NilZero.string_of_int (Z.to_int n).

(** [str(x)] for an optional string: [None] prints as [None]. *)
Definition str_opt (o : option string) : string :=
  match o with Some s => s | None => "None" end.

(** [s[:n]] *)
Definition take (n : nat) (s : string) : string := substring 0 n s.

Definition upper_char (c : ascii) : ascii :=
  let n := nat_of_ascii c in
  if (97 <=? n)%nat && (n <=? 122)%nat then ascii_of_nat (n - 32) else c.

(** [s.upper()] *)
Fixpoint upper (s : string) : string :=
  match s with
  | EmptyString => EmptyString
  | String c r => String (upper_char c) (upper r)
  end.

(** [sep.join(l)] *)
Definition join (sep : string) (l : list string) : string := String.concat sep l.

(** [needle in hay] *)
Fixpoint contains (needle hay : string) : bool :=
  String.prefix needle hay ||
  match hay with
  | EmptyString => false
  | String _ r => contains needle r
  end.

Definition snoc (s : string) (c : ascii) : string := s +:+ String c EmptyString.

(** [s.split(sep)] for a non-empty [sep]: [cur] is the piece being read and
    [skip] the number of characters of a matched separator still to drop. *)
Fixpoint split_go (sep : string) (s : string) (cur : string) (skip : nat) : list string :=
  match s with
  | EmptyString => [cur]
  | String c r =>
      match skip with
      | S k => split_go sep r cur k
      | O =>
          if String.prefix sep s
          then cur :: split_go sep r EmptyString (String.length sep - 1)
          else split_go sep r (snoc cur c) O
      end
  end.

Definition split (sep s : string) : list string := split_go sep s EmptyString O.

(** [c.isspace()] *)
Definition is_space (c : ascii) : bool :=
  let n := nat_of_ascii c in
  ((9 <=? n)%nat && (n <=? 13)%nat) || ((28 <=? n)%nat && (n <=? 32)%nat).

Fixpoint lstrip (s : string) : string :=
  match s with
  | EmptyString => EmptyString
  | String c r => if is_space c then lstrip r else s
  end.

Fixpoint rstrip (s : string) : string :=
  match s with
  | EmptyString => EmptyString
  | String c r =>
      match rstrip r with
      | EmptyString => if is_space c then EmptyString else String c EmptyString
      | r' => String c r'
      end
  end.

(** [s.strip()] *)
Definition strip (s : string) : string := rstrip (lstrip s).

(** Truth value of a string: non-empty. *)
Definition truthy (s : string) : bool :=
  match s with EmptyString => false | _ => true end.

End PyStr.

(** ** The wire format

    JSON objects are records whose optional keys are [option] fields, so that
    [d.get(k)] is the field and [d.get(k, v)] is [default v] of it.  The keys
    are those that the two controllers read or write. *)

(** A point of a drag path, [{"x": .., "y": ..}]. *)
Record Point := { point_x : Z; point_y : Z }.

(** An action descriptor, the [action] object of a [computer_call] item. *)
Record Action := {
  action_type : option string;
  action_x : option Z;
  action_y : option Z;
  action_button : option string;
  action_text : option string;
  action_keys : option (list string);
  action_scrollX : option Z;
  action_scrollY : option Z;
  action_scroll_x : option Z;
  action_scroll_y : option Z;
  action_ms : option Z;
  action_path : option (list Point);
}.

(** The empty object [{}]. *)
Definition empty_action : Action :=
  {| action_type := None; action_x := None; action_y := None;
     action_button := None; action_text := None; action_keys := None;
     action_scrollX := None; action_scrollY := None;
     action_scroll_x := None; action_scroll_y := None;
     action_ms := None; action_path := None |}.

(** [k in d]: the key is present. *)
Definition present {A} (o : option A) : bool :=
  match o with Some _ => true | None => false end.

(** Truth value of an action object: a [dict] is true when it has a key. *)
Definition action_truthy (a : Action) : bool :=
  present a.(action_type) || present a.(action_x) || present a.(action_y)
  || present a.(action_button) || present a.(action_text)
  || present a.(action_keys) || present a.(action_scrollX)
  || present a.(action_scrollY) || present a.(action_scroll_x)
  || present a.(action_scroll_y) || present a.(action_ms)
  || present a.(action_path).

(** A pending safety check of a [computer_call] item. *)
Record SafetyCheck := {
  check_id : option string;
  check_code : option string;
  check_message : option string;
}.

(** An entry of the [summary] list of a [reasoning] item: an object, with or
    without a [text] key, or a value that is not an object. *)
Inductive SummaryItem :=
| SummaryObject (text : option string)
| SummaryOther.

(** An entry of the [content] list of a [message] item. *)
Record ContentPart := {
  part_type : option string;
  part_text : option string;
}.

(** An item of the [output] list of a response. *)
Record OutputItem := {
  item_type : option string;
  item_summary : option (list SummaryItem);
  item_text : option string;
  item_content : option (list ContentPart);
  item_call_id : option string;
  item_action : option Action;
  item_pending_safety_checks : option (list SafetyCheck);
}.

(** The response document of the reasoning service. *)
Record Response := {
  response_id : option string;
  response_output : option (list OutputItem);
}.

(** The [tools] entry of a request. *)
Record Tool := {
  tool_type : string;
  tool_display_width : Z;
  tool_display_height : Z;
  tool_environment : string;
}.

(** The single entry of the [input] list of a request: the first request
    carries the task and the initial screenshot, every later one the
    screenshot taken after a computer call. *)
Inductive InputItem :=
| UserMessage (input_text : string) (input_image_url : string)
| ComputerCallOutput
    (call_id : option string)
    (acknowledged_safety_checks : option (list SafetyCheck))
    (output_image_url : string)
    (current_url : option string).

(** The JSON body of a request.  [req_previous_response_id] is [None] when
    the key is absent and [Some v] when it is present with value [v]. *)
Record Request := {
  req_model : string;
  req_previous_response_id : option (option string);
  req_tools : list Tool;
  req_input : list InputItem;
  req_reasoning_summary : option string;
  req_truncation : string;
}.

(** ** Exceptions and outcomes *)

(** A raised exception, by its message [str(e)]. *)
Inductive exn := Exception (message : string).

Definition str_exn (e : exn) : string := let 'Exception m := e in m.

(** What a call yields: a value, an exception, or no answer within the
    number of loop iterations the model was given. *)
Inductive outcome (A : Type) :=
| Ok (a : A)
| Raise (e : exn)
| OutOfFuel.
Arguments Ok {A} a.
Arguments Raise {A} e.
Arguments OutOfFuel {A}.

(** An HTTP response as [httpx] hands it over: status line, body text and
    the result of decoding the body with [.json()]. *)
Record Reply := {
  reply_status_code : Z;
  reply_text : string;
  reply_json : exn + Response;
}.

(** ** The outside world *)

(** Operations of the browser automation library whose result is not
    inspected: they return, or they raise. *)
Inductive PageOp :=
| Goto (url : string)
| MouseClick (x y : Z) (button : string)
| MouseDblclick (x y : Z)
| MouseMove (x y : Z)
| MouseDown
| MouseUp
| KeyboardType (text : string)
| KeyboardPress (key : string)
| Evaluate (script : string)
| NewCdpSession
| PlaywrightStart
| ChromiumLaunch (headless : bool) (args : list string)
| NewContext
| NewPage
| SetViewportSize (width height : Z)
| PageClose
| BrowserClose
| PlaywrightStop.

(** One interaction with the outside world, with its result. *)
Inductive Event :=
| EvLog (message emoji log_type : string)
| EvSleep (milliseconds : Z)
| EvPage (op : PageOp) (raised : option exn)
| EvScreenshot (type : string) (quality : option Z) (result : exn + string)
| EvPost (url : string) (headers : list (string * string)) (json : Request)
         (result : exn + Reply).

Definition Trace := list Event.

(** The collaborators of the controllers.  Each oracle answers from the
    trace of everything that happened before the call. *)
Record Env := {
  (** the page: [None] when the operation returns, [Some e] when it raises *)
  env_page : Trace -> PageOp -> option exn;
  (** [page.screenshot(..)]: the image bytes, or an exception *)
  env_screenshot : Trace -> string -> option Z -> exn + string;
  (** [page.url] *)
  env_page_url : Trace -> string;
  (** [client.post(..)]: the reply, or a transport exception *)
  env_post : Trace -> string -> list (string * string) -> Request -> exn + Reply;
  (** [base64.b64encode(bytes).decode("utf-8")] *)
  env_b64encode : string -> string;
  (** the message of the [HTTPStatusError] of [raise_for_status] *)
  env_status_error : Reply -> string;
  (** [traceback.format_exc()] in a handler of the exception *)
  env_format_exc : exn -> string;
  (** [os.getenv] *)
  env_getenv : string -> option string;
  (** [asyncio.get_event_loop().time()], an opaque clock reading *)
  env_loop_time : Trace -> Z;
  (** [str] of an action object and of a list of key names *)
  env_str_action : Action -> string;
  env_str_keys : list string -> string;
}.

(** ** The monad: controller object, trace, exceptions *)

Record World (O : Type) := mkWorld { self : O; trace : Trace }.
Arguments mkWorld {O} self trace.
Arguments self {O} w.
Arguments trace {O} w.

Definition M (O A : Type) : Type := World O -> outcome A * World O.

Definition ret {O A} (a : A) : M O A := fun w => (Ok a, w).

Definition bind {O A B} (m : M O A) (k : A -> M O B) : M O B :=
  fun w =>
    match m w with
    | (Ok a, w') => k a w'
    | (Raise e, w') => (Raise e, w')
    | (OutOfFuel, w') => (OutOfFuel, w')
    end.

(** [raise e] *)
Definition raise {O A} (e : exn) : M O A := fun w => (Raise e, w).

(** [try: m  except Exception as e: h e] *)
Definition try_except {O A} (m : M O A) (h : exn -> M O A) : M O A :=
  fun w =>
    match m w with
    | (Raise e, w') => h e w'
    | r => r
    end.

Definition out_of_fuel {O A} : M O A := fun w => (OutOfFuel, w).

(** Reading and updating the controller object [self]. *)
Definition get {O} : M O O := fun w => (Ok (self w), w).
Definition modify {O} (f : O -> O) : M O unit :=
  fun w => (Ok tt, mkWorld (f (self w)) (trace w)).

Definition emit {O} (e : Event) : M O unit :=
  fun w => (Ok tt, mkWorld (self w) (trace w ++ [e])).

Declare Scope py_scope.
Delimit Scope py_scope with py.
Notation "x <- c1 ;; c2" := (bind c1 (fun x => c2))
  (at level 100, c1 at next level, right associativity) : py_scope.
Notation "c1 ;; c2" := (bind c1 (fun _ => c2))
  (at level 100, right associativity) : py_scope.
Open Scope py_scope.

(** [for x in l: body x] *)
Fixpoint for_each {O A} (l : list A) (body : A -> M O unit) : M O unit :=
  match l with
  | [] => ret tt
  | x :: r => body x ;; for_each r body
  end.

(** [if c: m] *)
Definition when {O} (c : bool) (m : M O unit) : M O unit :=
  if c then m else ret tt.

Section Collaborators.

Context (env : Env) {O : Type}.

(** [send_log(message, emoji, log_type=..)] of [log_server.py]: emits the
    entry on the dashboard channel and swallows every exception. *)
Definition send_log (message emoji log_type : string) : M O unit :=
  emit (EvLog message emoji log_type).

(** [await asyncio.sleep(..)] *)
Definition sleep (milliseconds : Z) : M O unit :=
  emit (EvSleep milliseconds).

(** A page operation without a result. *)
Definition page_do (op : PageOp) : M O unit :=
  fun w =>
    let r := env_page env (trace w) op in
    (match r with None => Ok tt | Some e => Raise e end,
     mkWorld (self w) (trace w ++ [EvPage op r])).

(** [await page.screenshot(type=.., quality=..)] *)
Definition page_screenshot (type : string) (quality : option Z) : M O string :=
  fun w =>
    let r := env_screenshot env (trace w) type quality in
    (match r with inr b => Ok b | inl e => Raise e end,
     mkWorld (self w) (trace w ++ [EvScreenshot type quality r])).

(** [page.url] *)
Definition page_url : M O string :=
  fun w => (Ok (env_page_url env (trace w)), w).

(** [await client.post(url, json=.., headers=..)] *)
Definition post (url : string) (headers : list (string * string))
    (json : Request) : M O Reply :=
  fun w =>
    let r := env_post env (trace w) url headers json in
    (match r with inr rp => Ok rp | inl e => Raise e end,
     mkWorld (self w) (trace w ++ [EvPost url headers json r])).

(** [resp.status_code] is a success code, 2xx. *)
Definition is_success (rp : Reply) : bool :=
  (200 <=? reply_status_code rp) && (reply_status_code rp <=? 299).

(** [resp.raise_for_status()] of [httpx]: raises [HTTPStatusError] unless
    the status code is 2xx. *)
Definition raise_for_status (rp : Reply) : M O unit :=
  if is_success rp then ret tt
  else raise (Exception (env_status_error env rp)).

(** [resp.json()] *)
Definition reply_decode (rp : Reply) : M O Response :=
  match reply_json rp with
  | inr r => ret r
  | inl e => raise e
  end.

(** [asyncio.get_event_loop().time()] *)
Definition loop_time : M O Z :=
  fun w => (Ok (env_loop_time env (trace w)), w).

End Collaborators.

(** [t == "name"] for the optional [type] of an object. *)
Definition type_is (t : option string) (name : string) : bool :=
  bool_decide (t = Some name).

(** The newline character of [\n]. *)
Definition newline : string := String (ascii_of_nat 10) EmptyString.

(** Decides the comparisons of a known action or item type. *)
Ltac decide_types :=
  repeat match goal with
  | |- context [type_is (Some ?s) ?n] =>
      let b := eval vm_compute in (type_is (Some s) n) in
      change (type_is (Some s) n) with b
  end.

(** ** Reading a trace *)

Definition is_post (ev : Event) : bool :=
  match ev with EvPost _ _ _ _ => true | _ => false end.

Definition is_capture (ev : Event) : bool :=
  match ev with EvScreenshot _ _ _ => true | _ => false end.

(** The settle delay [asyncio.sleep(1)] of [cua_integration.run_task]. *)
Definition is_settle (ev : Event) : bool :=
  match ev with EvSleep ms => ms =? 1000 | _ => false end.

Definition is_log (ev : Event) : bool :=
  match ev with EvLog _ _ _ => true | _ => false end.

(** The requests sent, in order, each with what came back. *)
Definition posts (tr : Trace) : list (Request * (exn + Reply)) :=
  flat_map (fun ev =>
    match ev with EvPost _ _ json r => [(json, r)] | _ => [] end) tr.

(** The screenshots attempted, in order, each with what came back. *)
Definition captures (tr : Trace) : list (exn + string) :=
  flat_map (fun ev =>
    match ev with EvScreenshot _ _ r => [r] | _ => [] end) tr.

(** The images of the screenshots that were taken, in order. *)
Definition images (tr : Trace) : list string :=
  flat_map (fun r => match r with inr b => [b] | inl _ => [] end) (captures tr).

Definition settle_delays (tr : Trace) : nat := length (List.filter is_settle tr).

(** The messages written to the dashboard log, in order. *)
Definition log_messages (tr : Trace) : list string :=
  flat_map (fun ev => match ev with EvLog m _ _ => [m] | _ => [] end) tr.

(** The calls to the page, in order, each with what it raised. *)
Definition page_calls (tr : Trace) : list (PageOp * option exn) :=
  flat_map (fun ev => match ev with EvPage op r => [(op, r)] | _ => [] end) tr.

(** The outcome of a call to the page. *)
Definition outcome_of_call (raised : option exn) : outcome unit :=
  match raised with None => Ok tt | Some e => Raise e end.

(** The [computer_call] items of a response. *)
Definition computer_calls_of (r : Response) : list OutputItem :=
  List.filter (fun item => type_is (item_type item) "computer_call")
    (default [] (response_output r)).

(** The observation that a follow-up request carries back. *)
Definition carried_image (rq : Request) : option string :=
  match req_input rq with
  | [ComputerCallOutput _ _ image _] => Some image
  | _ => None
  end.

(** The safety checks that a request acknowledges. *)
Definition acknowledged (rq : Request) : option (list SafetyCheck) :=
  match req_input rq with
  | [ComputerCallOutput _ acks _ _] => acks
  | _ => None
  end.

(** ** Reasoning about a computation

    [wp m w Q]: running [m] from the world [w] ends in an outcome and a world
    that satisfy [Q]. *)

Definition wp {O A} (m : M O A) (w : World O)
    (Q : outcome A -> World O -> Prop) : Prop :=
  Q (m w).1 (m w).2.

(** Events that are neither a request, nor a screenshot, nor the settle
    delay of the loop. *)
Definition quiet (evs : Trace) : Prop :=
  posts evs = [] /\ captures evs = [] /\ settle_delays evs = 0%nat.

(** A step that leaves the controller object alone and adds quiet events. *)
Definition silent {O} (w w' : World O) : Prop :=
  self w' = self w /\ exists evs, trace w' = trace w ++ evs /\ quiet evs.

(** The page raised [e] at one of the events. *)
Definition page_failure (e : exn) (evs : Trace) : Prop :=
  exists op, In (EvPage op (Some e)) evs.

(** A computation that ends, leaving the controller alone and the trace
    extended by quiet events; an exception it raises is one that the page
    raised. *)
Definition calm {O A} (w : World O) (o : outcome A) (w' : World O) : Prop :=
  o <> OutOfFuel /\ self w' = self w /\
  exists evs, trace w' = trace w ++ evs /\ quiet evs /\
    forall e, o = Raise e -> page_failure e evs.

(** A call to a collaborator that did not succeed: the page raised, the
    screenshot raised, or the request was not answered by a 2xx reply with
    a body that decodes. *)
Definition failed (ev : Event) : bool :=
  match ev with
  | EvPage _ (Some _) => true
  | EvScreenshot _ _ (inl _) => true
  | EvPost _ _ _ (inl _) => true
  | EvPost _ _ _ (inr rp) =>
      negb (is_success rp)
      || match reply_json rp with inl _ => true | inr _ => false end
  | _ => false
  end.

(** How sending a request fails: the transport raises, the status is not
    2xx, or the body does not decode. *)
Inductive post_failed (env : Env) : exn + Reply -> exn -> Prop :=
| transport_error e : post_failed env (inl e) e
| status_error rp :
    is_success rp = false ->
    post_failed env (inr rp) (Exception (env_status_error env rp))
| decode_error rp e :
    is_success rp = true -> reply_json rp = inl e ->
    post_failed env (inr rp) e.

(** A request that was answered with the response document [resp]. *)
Definition post_ok (r : exn + Reply) (resp : Response) : Prop :=
  exists rp, r = inr rp /\ is_success rp = true /\ reply_json rp = inr resp.

(** The service never puts more than one [computer_call] in a response. *)
Definition single_call (env : Env) : Prop :=
  forall tr url headers rq rp resp,
    env_post env tr url headers rq = inr rp ->
    reply_json rp = inr resp ->
    (length (computer_calls_of resp) <= 1)%nat.

(** ** [cua_integration.py] *)

Module Integration.

(** [CUAConfig] *)
Record CUAConfig := {
  model : string;
  display_width : Z;
  display_height : Z;
  environment : string;
  reasoning_summary : string;
  truncation : string;
  max_iterations : Z;
  timeout_seconds : Z;
}.

(** [CUAConfig()], the defaults of the dataclass. *)
Definition CUAConfig_default : CUAConfig :=
  {| model := "computer-use-preview"; display_width := 1024;
     display_height := 768; environment := "browser";
     reasoning_summary := "concise"; truncation := "auto";
     max_iterations := 50; timeout_seconds := 300 |}.

(** Handles of the browser automation library. *)
Inductive PlaywrightPage := ThePage.
Inductive CDPSession := TheCDPSession.

(** An entry of the observation history, [state.screenshots]. *)
Record Observation := {
  step : Z;
  screenshot : string;
  action : option Action;
}.

(** [CUAState] *)
Record CUAState := {
  page : option PlaywrightPage;
  cdp_session : option CDPSession;
  previous_response_id : option string;
  screenshots : list Observation;
  completed : bool;
  error : option string;
  iteration_count : Z;
}.

(** [CUAState()], the defaults of the dataclass. *)
Definition CUAState_default : CUAState :=
  {| page := None; cdp_session := None; previous_response_id := None;
     screenshots := []; completed := false; error := None;
     iteration_count := 0 |}.

(** The controller object. *)
Record OpenAICUA := {
  api_key : string;
  config : CUAConfig;
  state : CUAState;
  tool_call_id : option string;
  backend_url : string;
}.

(** Assignments to the attributes of [self.state]. *)
Definition set_page (v : option PlaywrightPage) (s : CUAState) : CUAState :=
  {| page := v; cdp_session := cdp_session s;
     previous_response_id := previous_response_id s;
     screenshots := screenshots s; completed := completed s;
     error := error s; iteration_count := iteration_count s |}.
Definition set_cdp_session (v : option CDPSession) (s : CUAState) : CUAState :=
  {| page := page s; cdp_session := v;
     previous_response_id := previous_response_id s;
     screenshots := screenshots s; completed := completed s;
     error := error s; iteration_count := iteration_count s |}.
Definition set_previous_response_id (v : option string) (s : CUAState) : CUAState :=
  {| page := page s; cdp_session := cdp_session s;
     previous_response_id := v;
     screenshots := screenshots s; completed := completed s;
     error := error s; iteration_count := iteration_count s |}.
Definition set_screenshots (v : list Observation) (s : CUAState) : CUAState :=
  {| page := page s; cdp_session := cdp_session s;
     previous_response_id := previous_response_id s;
     screenshots := v; completed := completed s;
     error := error s; iteration_count := iteration_count s |}.
Definition set_completed (v : bool) (s : CUAState) : CUAState :=
  {| page := page s; cdp_session := cdp_session s;
     previous_response_id := previous_response_id s;
     screenshots := screenshots s; completed := v;
     error := error s; iteration_count := iteration_count s |}.
Definition set_error (v : option string) (s : CUAState) : CUAState :=
  {| page := page s; cdp_session := cdp_session s;
     previous_response_id := previous_response_id s;
     screenshots := screenshots s; completed := completed s;
     error := v; iteration_count := iteration_count s |}.
Definition set_iteration_count (v : Z) (s : CUAState) : CUAState :=
  {| page := page s; cdp_session := cdp_session s;
     previous_response_id := previous_response_id s;
     screenshots := screenshots s; completed := completed s;
     error := error s; iteration_count := v |}.

Definition with_state (f : CUAState -> CUAState) (c : OpenAICUA) : OpenAICUA :=
  {| api_key := api_key c; config := config c; state := f (state c);
     tool_call_id := tool_call_id c; backend_url := backend_url c |}.

(** The dictionary that [run_task] returns. *)
Record TaskResult := {
  r_result : string;
  r_screenshots : list Observation;
  r_iterations : Z;
  r_completed : bool;
  r_error : option string;
}.

(** [OpenAICUA(api_key, config, tool_call_id)]; the fourth argument is the
    value of [get_backend_url("v1beta/openai/cua")], a function of
    [env_utils.py]. *)
Definition init (key : string) (cfg : option CUAConfig)
    (call_id : option string) (url : string) : OpenAICUA :=
  {| api_key := key; config := default CUAConfig_default cfg;
     state := CUAState_default; tool_call_id := call_id;
     backend_url := url |}.

Section Methods.

Context (env : Env).

Local Abbreviation Py := (M OpenAICUA).

(** [initialize_browser] *)
Definition initialize_browser (p : PlaywrightPage) : Py unit :=
  modify (with_state (set_page (Some p)));;
  try_except
    (page_do env NewCdpSession;;
     modify (with_state (set_cdp_session (Some TheCDPSession)));;
     send_log "CDP session initialized for CUA" "🔧" "status")
    (fun e =>
       send_log ("Failed to initialize CDP session: " +:+ str_exn e) "❌" "status";;
       raise e).

(** [capture_screenshot] *)
Definition capture_screenshot : Py string :=
  c <- get;;
  if negb (present (page (state c)))
  then raise (Exception "Browser page not initialized")
  else
    try_except
      (screenshot_bytes <- page_screenshot env "jpeg" (Some 90);;
       let screenshot_base64 := env_b64encode env screenshot_bytes in
       ret screenshot_base64)
      (fun e =>
         send_log ("Failed to capture screenshot: " +:+ str_exn e) "❌" "status";;
         raise e).

(** The key of a [keypress] action as handed to [keyboard.press]. *)
Definition press_key (key : string) : Py unit :=
  if String.eqb (PyStr.upper key) "ENTER" then page_do env (KeyboardPress "Enter")
  else if String.eqb (PyStr.upper key) "SPACE" then page_do env (KeyboardPress " ")
  else if String.eqb (PyStr.upper key) "TAB" then page_do env (KeyboardPress "Tab")
  else if String.eqb (PyStr.upper key) "ESCAPE" then page_do env (KeyboardPress "Escape")
  else page_do env (KeyboardPress key).

(** The branches of [execute_action], inside its [try]. *)
Definition dispatch_action (a : Action) : Py unit :=
  let action_type := action_type a in
  if type_is action_type "click" then
    let x := default 0 (action_x a) in
    let y := default 0 (action_y a) in
    let button := default "left" (action_button a) in
    page_do env (MouseClick x y button);;
    send_log ("Clicked at (" +:+ PyStr.str_int x +:+ ", " +:+ PyStr.str_int y
              +:+ ") with " +:+ button +:+ " button") "🖱️" "agent"
  else if type_is action_type "type" then
    let text := default "" (action_text a) in
    page_do env (KeyboardType text);;
    send_log ("Typed: " +:+ PyStr.take 50 text
              +:+ (if (50 <? String.length text)%nat then "..." else ""))
             "⌨️" "agent"
  else if type_is action_type "keypress" then
    let keys := default [] (action_keys a) in
    for_each keys press_key;;
    send_log ("Pressed keys: " +:+ PyStr.join ", " keys) "⌨️" "agent"
  else if type_is action_type "scroll" then
    let x := default 0 (action_x a) in
    let y := default 0 (action_y a) in
    let scroll_x := default 0 (action_scrollX a) in
    let scroll_y := default 0 (action_scrollY a) in
    page_do env (MouseMove x y);;
    page_do env (Evaluate ("window.scrollBy(" +:+ PyStr.str_int scroll_x +:+ ", "
                           +:+ PyStr.str_int scroll_y +:+ ")"));;
    send_log ("Scrolled by (" +:+ PyStr.str_int scroll_x +:+ ", "
              +:+ PyStr.str_int scroll_y +:+ ") at (" +:+ PyStr.str_int x
              +:+ ", " +:+ PyStr.str_int y +:+ ")") "📜" "agent"
  else if type_is action_type "wait" then
    sleep 2000;;
    send_log "Waited for page changes" "⏳" "agent"
  else if type_is action_type "screenshot" then
    send_log "Screenshot requested" "📸" "agent"
  else
    send_log ("Unknown action type: " +:+ PyStr.str_opt action_type) "❓" "status".

(** [execute_action] *)
Definition execute_action (a : Action) : Py unit :=
  c <- get;;
  if negb (present (page (state c)))
  then raise (Exception "Browser page not initialized")
  else
    try_except (dispatch_action a)
      (fun e =>
         let error_msg := "Failed to execute " +:+ PyStr.str_opt (action_type a)
                          +:+ " action: " +:+ str_exn e in
         send_log error_msg "❌" "status";;
         raise e).


(** The [tools] entry of both requests of [run_task]. *)
Definition tools_of (cfg : CUAConfig) : list Tool :=
  [{| tool_type := "computer_use_preview";
      tool_display_width := display_width cfg;
      tool_display_height := display_height cfg;
      tool_environment := environment cfg |}].

(** [self.tool_call_id or "unknown"] *)
Definition tool_call_id_or_unknown (c : OpenAICUA) : string :=
  match tool_call_id c with
  | Some s => if PyStr.truthy s then s else "unknown"
  | None => "unknown"
  end.

(** The [headers] of both requests of [run_task]. *)
Definition headers_of (c : OpenAICUA) : list (string * string) :=
  [("x-operative-api-key", api_key c);
   ("x-operative-tool-call-id", tool_call_id_or_unknown c);
   ("x-operative-tool-name", "web_eval_agent");
   ("Content-Type", "application/json")].

(** The scan of the output items at the head of a loop iteration, from
    [item] on: reasoning summaries and text items are logged,
    [computer_call] items are appended to [computer_calls]. *)
Fixpoint scan_output (items : list OutputItem)
    (computer_calls : list OutputItem) : Py (list OutputItem) :=
  match items with
  | [] => ret computer_calls
  | item :: rest =>
      let item_type := item_type item in
      if type_is item_type "reasoning" then
        let summary := default [] (item_summary item) in
        for_each summary (fun summary_item =>
          match summary_item with
          | SummaryObject (Some text) =>
              send_log ("CUA reasoning: " +:+ text) "🤔" "agent"
          | _ => ret tt
          end);;
        scan_output rest computer_calls
      else if type_is item_type "computer_call" then
        scan_output rest (computer_calls ++ [item])
      else if type_is item_type "text" then
        match item_text item with
        | Some text => send_log ("CUA message: " +:+ text) "💬" "agent"
        | None => ret tt
        end;;
        scan_output rest computer_calls
      else scan_output rest computer_calls
  end.

(** The body of [for computer_call in computer_calls]: acknowledge the
    safety checks, execute the action, wait, observe, record, and send
    the observation back.  It yields the new [response]. *)
Definition process_computer_call (headers : list (string * string))
    (computer_call : OutputItem) : Py Response :=
  let pending_checks := default [] (item_pending_safety_checks computer_call) in
  when (negb (bool_decide (pending_checks = [])))
    (for_each pending_checks (fun check =>
       send_log ("Safety check: " +:+ default "Unknown check" (check_message check))
                "⚠️" "status"));;
  let action := item_action computer_call in
  match action with
  | Some a => when (action_truthy a) (execute_action a)
  | None => ret tt
  end;;
  sleep 1000;;
  screenshot <- capture_screenshot;;
  c <- get;;
  modify (with_state (set_screenshots
    (screenshots (state c) ++
     [{| step := iteration_count (state c);
         screenshot := screenshot;
         action := item_action computer_call |}])));;
  c <- get;;
  current_url <- (if present (page (state c))
                  then url <- page_url env;; ret (Some url)
                  else ret None);;
  let request_data :=
    {| req_model := model (config c);
       req_previous_response_id := Some (previous_response_id (state c));
       req_tools := tools_of (config c);
       req_input :=
         [ComputerCallOutput (item_call_id computer_call) None
            ("data:image/jpeg;base64," +:+ screenshot) current_url];
       req_reasoning_summary := None;
       req_truncation := truncation (config c) |} in
  resp <- post env (backend_url c +:+ "/v1/responses") headers request_data;;
  raise_for_status env resp;;
  response <- reply_decode resp;;
  modify (with_state (set_previous_response_id (response_id response)));;
  ret response.

(** [for computer_call in computer_calls: ..]; [response] is the loop
    variable that the body reassigns. *)
Fixpoint for_computer_calls (headers : list (string * string))
    (computer_calls : list OutputItem) (response : Response) : Py Response :=
  match computer_calls with
  | [] => ret response
  | computer_call :: rest =>
      response' <- process_computer_call headers computer_call;;
      for_computer_calls headers rest response'
  end.

(** [while not self.state.completed and
           self.state.iteration_count < self.config.max_iterations: ..] *)
Fixpoint while_loop (fuel : nat) (headers : list (string * string))
    (response : Response) : Py unit :=
  c <- get;;
  if negb (completed (state c))
     && (iteration_count (state c) <? max_iterations (config c))
  then
    match fuel with
    | O => out_of_fuel
    | S fuel' =>
        modify (with_state (fun s =>
          set_iteration_count (iteration_count s + 1) s));;
        computer_calls <- scan_output (default [] (response_output response)) [];;
        if bool_decide (computer_calls = []) then
          send_log "CUA task completed - no more actions" "✅" "agent";;
          modify (with_state (set_completed true))
        else
          response' <- for_computer_calls headers computer_calls response;;
          while_loop fuel' headers response'
    end
  else ret tt.

(** The body of the [try] of [run_task]. *)
Definition run_task_try (fuel : nat) (input_messages : list InputItem)
    : Py TaskResult :=
  c <- get;;
  let request_data :=
    {| req_model := model (config c);
       req_previous_response_id := None;
       req_tools := tools_of (config c);
       req_input := input_messages;
       req_reasoning_summary := Some (reasoning_summary (config c));
       req_truncation := truncation (config c) |} in
  let headers := headers_of c in
  resp <- post env (backend_url c +:+ "/v1/responses") headers request_data;;
  raise_for_status env resp;;
  response <- reply_decode resp;;
  modify (with_state (set_previous_response_id (response_id response)));;
  while_loop fuel headers response;;
  c <- get;;
  ret {| r_result :=
           if completed (state c) then "Task completed successfully"
           else "Task stopped after " +:+ PyStr.str_int (iteration_count (state c))
                +:+ " iterations";
         r_screenshots := screenshots (state c);
         r_iterations := iteration_count (state c);
         r_completed := completed (state c);
         r_error := error (state c) |}.

(** The [except Exception as e] handler of [run_task]. *)
Definition run_task_except (e : exn) : Py TaskResult :=
  let error_msg := "CUA task failed: " +:+ str_exn e +:+ newline
                   +:+ env_format_exc env e in
  send_log error_msg "❌" "status";;
  modify (with_state (set_error (Some (str_exn e))));;
  c <- get;;
  ret {| r_result := "Error: " +:+ str_exn e;
         r_screenshots := screenshots (state c);
         r_iterations := iteration_count (state c);
         r_completed := false;
         r_error := Some (str_exn e) |}.

(** [run_task]; [fuel] bounds the number of iterations of the [while]
    loop that the model follows. *)
Definition run_task (fuel : nat) (task : string) (initial_url : option string)
    : Py TaskResult :=
  c <- get;;
  if negb (present (page (state c)))
  then raise (Exception "Browser not initialized. Call initialize_browser first.")
  else
    match initial_url with
    | Some url =>
        when (PyStr.truthy url)
          (page_do env (Goto url);;
           send_log ("Navigated to " +:+ url) "🌐" "agent")
    | None => ret tt
    end;;
    initial_screenshot <- capture_screenshot;;
    let input_messages :=
      [UserMessage task ("data:image/jpeg;base64," +:+ initial_screenshot)] in
    send_log ("Starting CUA task: " +:+ task) "🚀" "agent";;
    try_except (run_task_try fuel input_messages) run_task_except.

End Methods.

End Integration.

(** ** [openai_cua.py] *)

Module Standalone.

(** Handles of the browser automation library. *)
Inductive Playwright := ThePlaywright.
Inductive Browser := TheBrowser.
Inductive Page := ThePage.

(** An entry of [self.screenshots]. *)
Record Observation := {
  step : Z;
  url : string;
  screenshot : string;
  timestamp : Z;
}.

(** The controller object. *)
Record OpenAICUA := {
  api_key : string;
  openai_api_base : string;
  playwright : option Playwright;
  browser : option Browser;
  page : option Page;
  screenshots : list Observation;
}.

(** [OpenAICUA(api_key)] *)
Definition init (key : string) : OpenAICUA :=
  {| api_key := key; openai_api_base := "https://api.openai.com/v1/responses";
     playwright := None; browser := None; page := None; screenshots := [] |}.

Definition set_playwright (v : option Playwright) (c : OpenAICUA) : OpenAICUA :=
  {| api_key := api_key c; openai_api_base := openai_api_base c;
     playwright := v; browser := browser c; page := page c;
     screenshots := screenshots c |}.
Definition set_browser (v : option Browser) (c : OpenAICUA) : OpenAICUA :=
  {| api_key := api_key c; openai_api_base := openai_api_base c;
     playwright := playwright c; browser := v; page := page c;
     screenshots := screenshots c |}.
Definition set_page (v : option Page) (c : OpenAICUA) : OpenAICUA :=
  {| api_key := api_key c; openai_api_base := openai_api_base c;
     playwright := playwright c; browser := browser c; page := v;
     screenshots := screenshots c |}.
Definition set_screenshots (v : list Observation) (c : OpenAICUA) : OpenAICUA :=
  {| api_key := api_key c; openai_api_base := openai_api_base c;
     playwright := playwright c; browser := browser c; page := page c;
     screenshots := v |}.

(** The dictionaries that [run_task] and [run_openai_cua_task] return:
    [{"result", "screenshots"}], [{"error"}] or [{"error", "screenshots"}]. *)
Record TaskResult := {
  r_result : option string;
  r_screenshots : option (list Observation);
  r_error : option string;
}.

Section Methods.

Context (env : Env).

Local Abbreviation Py := (M OpenAICUA).

(** [__aenter__] *)
Definition aenter : Py unit :=
  page_do env PlaywrightStart;;
  modify (set_playwright (Some ThePlaywright));;
  page_do env (ChromiumLaunch false ["--disable-extensions"; "--disable-file-system"]);;
  modify (set_browser (Some TheBrowser));;
  page_do env NewContext;;
  page_do env NewPage;;
  modify (set_page (Some ThePage));;
  page_do env (SetViewportSize 1024 768);;
  send_log "OpenAI CUA browser initialized" "🌐" "status".

(** [__aexit__] *)
Definition aexit : Py unit :=
  c <- get;;
  when (present (page c)) (page_do env PageClose);;
  when (present (browser c)) (page_do env BrowserClose);;
  when (present (playwright c)) (page_do env PlaywrightStop).

Definition get_dimensions : Z * Z := (1024, 768).

Definition get_environment : string := "browser".

(** [self.page.<attribute>]: an [AttributeError] when [self.page] is
    [None]. *)
Definition self_page (attribute : string) : Py unit :=
  c <- get;;
  if present (page c) then ret tt
  else raise (Exception ("'NoneType' object has no attribute '" +:+ attribute +:+ "'")).

(** [screenshot] *)
Definition take_screenshot : Py string :=
  self_page "screenshot";;
  screenshot_bytes <- page_screenshot env "png" None;;
  ret (env_b64encode env screenshot_bytes).

Definition click (x y : Z) (button : string) : Py unit :=
  self_page "mouse";;
  page_do env (MouseClick x y button);;
  send_log ("Clicked at (" +:+ PyStr.str_int x +:+ ", " +:+ PyStr.str_int y +:+ ")")
           "👆" "status".

(** [type] *)
Definition type_text (text : string) : Py unit :=
  self_page "keyboard";;
  page_do env (KeyboardType text);;
  send_log ("Typed: " +:+ PyStr.take 20 text +:+ "...") "⌨️" "status".

Definition scroll (x y scroll_x scroll_y : Z) : Py unit :=
  self_page "mouse";;
  page_do env (MouseMove x y);;
  page_do env (Evaluate ("window.scrollBy(" +:+ PyStr.str_int scroll_x +:+ ", "
                         +:+ PyStr.str_int scroll_y +:+ ")"));;
  send_log ("Scrolled by (" +:+ PyStr.str_int scroll_x +:+ ", "
            +:+ PyStr.str_int scroll_y +:+ ")") "📜" "status".

Definition keypress (keys : list string) : Py unit :=
  for_each keys (fun key =>
    self_page "keyboard";;
    page_do env (KeyboardPress key));;
  send_log ("Pressed keys: " +:+ env_str_keys env keys) "⌨️" "status".

(** [wait]: [asyncio.sleep(ms / 1000)] *)
Definition wait (ms : Z) : Py unit := sleep ms.

Definition move (x y : Z) : Py unit :=
  self_page "mouse";;
  page_do env (MouseMove x y).

Definition double_click (x y : Z) : Py unit :=
  self_page "mouse";;
  page_do env (MouseDblclick x y).

Definition drag (path : list Point) : Py unit :=
  match path with
  | [] => ret tt
  | first :: rest =>
      self_page "mouse";;
      page_do env (MouseMove (point_x first) (point_y first));;
      page_do env MouseDown;;
      for_each rest (fun point =>
        page_do env (MouseMove (point_x point) (point_y point)));;
      page_do env MouseUp
  end.

Definition get_current_url : Py string :=
  self_page "url";;
  page_url env.

(** [handle_computer_action] *)
Definition handle_computer_action (a : Action) : Py unit :=
  let action_type := action_type a in
  if type_is action_type "click" then
    click (default 0 (action_x a)) (default 0 (action_y a))
          (default "left" (action_button a))
  else if type_is action_type "type" then
    type_text (default "" (action_text a))
  else if type_is action_type "scroll" then
    scroll (default 0 (action_x a)) (default 0 (action_y a))
           (default 0 (action_scroll_x a)) (default 0 (action_scroll_y a))
  else if type_is action_type "keypress" then
    keypress (default [] (action_keys a))
  else if type_is action_type "wait" then
    wait (default 1000 (action_ms a))
  else if type_is action_type "move" then
    move (default 0 (action_x a)) (default 0 (action_y a))
  else if type_is action_type "double_click" then
    double_click (default 0 (action_x a)) (default 0 (action_y a))
  else if type_is action_type "drag" then
    drag (default [] (action_path a))
  else if type_is action_type "screenshot" then
    ret tt
  else
    send_log ("Unknown action type: " +:+ PyStr.str_opt action_type) "❓" "status".

(** The [tools] entry of every request. *)
Definition tools : list Tool :=
  [{| tool_type := "computer-preview"; tool_display_width := 1024;
      tool_display_height := 768; tool_environment := "browser" |}].

(** The [headers] of every request. *)
Definition headers_of (c : OpenAICUA) : list (string * string) :=
  [("Authorization", "Bearer " +:+ api_key c);
   ("Content-Type", "application/json")]
  ++ match env_getenv env "OPENAI_ORG" with
     | Some openai_org =>
         if PyStr.truthy openai_org
         then [("Openai-Organization", openai_org)] else []
     | None => []
     end.

(** The body of [for computer_call in computer_calls]; it yields the
    reassigned [request_data] and [step_count]. *)
Definition process_computer_call (response_data : Response)
    (step_count : Z) (computer_call : OutputItem) : Py (Request * Z) :=
  let step_count := step_count + 1 in
  let action := default empty_action (item_action computer_call) in
  let call_id := item_call_id computer_call in
  send_log ("Step " +:+ PyStr.str_int step_count +:+ ": "
            +:+ PyStr.str_opt (action_type action) +:+ "("
            +:+ env_str_action env action +:+ ")") "📍" "agent";;
  handle_computer_action action;;
  screenshot_base64 <- take_screenshot;;
  page_url_now <- get_current_url;;
  now <- loop_time env;;
  modify (fun c => set_screenshots
    (screenshots c ++
     [{| step := step_count; url := page_url_now;
         screenshot := screenshot_base64; timestamp := now |}]) c);;
  let pending_checks := default [] (item_pending_safety_checks computer_call) in
  match response_id response_data with
  | None => raise (Exception "'id'")
  | Some id =>
      current_url <- get_current_url;;
      ret ({| req_model := "computer-use-preview";
              req_previous_response_id := Some (Some id);
              req_tools := tools;
              req_input :=
                [ComputerCallOutput call_id (Some pending_checks)
                   ("data:image/png;base64," +:+ screenshot_base64)
                   (Some current_url)];
              req_reasoning_summary := None;
              req_truncation := "auto" |}, step_count)
  end.

Fixpoint for_computer_calls (response_data : Response)
    (computer_calls : list OutputItem) (request_data : Request)
    (step_count : Z) : Py (Request * Z) :=
  match computer_calls with
  | [] => ret (request_data, step_count)
  | computer_call :: rest =>
      r <- process_computer_call response_data step_count computer_call;;
      for_computer_calls response_data rest (fst r) (snd r)
  end.

(** The log of the final message when a response has no computer call. *)
Definition log_final_message (item : OutputItem) : Py unit :=
  when (type_is (item_type item) "message")
    (match default [] (item_content item) with
     | first :: _ =>
         when (type_is (part_type first) "text")
           (send_log (default "" (part_text first)) "💬" "agent")
     | [] => ret tt
     end).

(** [while True: ..]: the loop is left by [return] with a dictionary
    ([inl]) or by [break] with the collected [items] ([inr]). *)
Fixpoint while_true (fuel : nat) (headers : list (string * string))
    (request_data : Request) (items : list OutputItem) (step_count : Z)
    : Py (TaskResult + list OutputItem) :=
  match fuel with
  | O => out_of_fuel
  | S fuel' =>
      c <- get;;
      response <- post env (openai_api_base c) headers request_data;;
      if negb (reply_status_code response =? 200) then
        let error_msg := "API error: " +:+ PyStr.str_int (reply_status_code response)
                         +:+ " - " +:+ reply_text response in
        send_log error_msg "❌" "status";;
        ret (inl {| r_result := None; r_screenshots := None;
                    r_error := Some error_msg |})
      else
        response_data <- reply_decode response;;
        let output_items := default [] (response_output response_data) in
        let items := items ++ output_items in
        let computer_calls :=
          List.filter (fun item => type_is (item_type item) "computer_call")
                      output_items in
        if bool_decide (computer_calls = []) then
          for_each output_items log_final_message;;
          ret (inr items)
        else
          r <- for_computer_calls response_data computer_calls request_data step_count;;
          while_true fuel' headers (fst r) items (snd r)
  end.

(** The texts of all message items, [final_output]. *)
Definition final_output (items : list OutputItem) : list string :=
  flat_map (fun item =>
    if type_is (item_type item) "message" then
      flat_map (fun c =>
        if type_is (part_type c) "text" then [default "" (part_text c)] else [])
        (default [] (item_content item))
    else []) items.

(** [run_task]; [fuel] bounds the number of iterations of the [while]
    loop that the model follows. *)
Definition run_task (fuel : nat) (task : string) : Py TaskResult :=
  send_log ("Starting OpenAI CUA task: " +:+ task) "🤖" "agent";;
  initial_screenshot <- take_screenshot;;
  c <- get;;
  let headers := headers_of c in
  let request_data :=
    {| req_model := "computer-use-preview";
       req_previous_response_id := None;
       req_tools := tools;
       req_input :=
         [UserMessage task ("data:image/png;base64," +:+ initial_screenshot)];
       req_reasoning_summary := Some "concise";
       req_truncation := "auto" |} in
  r <- while_true fuel headers request_data [] 0;;
  match r with
  | inl early => ret early
  | inr items =>
      send_log "OpenAI CUA task completed" "✅" "agent";;
      c <- get;;
      ret {| r_result := Some (PyStr.join newline (final_output items));
             r_screenshots := Some (screenshots c);
             r_error := None |}
  end.

End Methods.

(** [run_openai_cua_task]: the controller is created and entered, the task
    is run inside the [try], and the controller is left. *)
Definition run_openai_cua_task (env : Env) (fuel : nat) (task : string)
    (key : string) : M OpenAICUA TaskResult :=
  modify (fun _ => init key);;
  aenter env;;
  result <-
    try_except
      (when (PyStr.contains "VISIT:" task)
         (match PyStr.split "VISIT:" task !! 1%nat with
          | None => raise (Exception "list index out of range")
          | Some after =>
              match head (PyStr.split "GOAL:" after) with
              | None => raise (Exception "list index out of range")
              | Some before =>
                  let url_match := PyStr.strip before in
                  self_page "goto";;
                  page_do env (Goto url_match);;
                  send_log ("Navigated to: " +:+ url_match) "🔗" "status"
              end
          end);;
       run_task env fuel task)
      (fun e =>
         let error_msg := "Error in OpenAI CUA: " +:+ str_exn e +:+ newline
                          +:+ env_format_exc env e in
         send_log error_msg "❌" "status";;
         ret {| r_result := None; r_screenshots := Some []; r_error := Some error_msg |});;
  aexit env;;
  ret result.

End Standalone.

(** ** Scripted collaborators, for running the controllers on examples *)

Module Script.

Definition reply_of (status : Z) (r : Response) : exn + Reply :=
  inr {| reply_status_code := status; reply_text := ""; reply_json := inr r |}.

(** A page that never fails and a service that answers its [k]-th request
    with the [k]-th entry of [replies], and with [fallback] afterwards. *)
Definition env (replies : list (exn + Reply)) (fallback : exn + Reply) : Env :=
  {| env_page := fun _ _ => None;
     env_screenshot := fun tr _ _ =>
       inr ("image" +:+ PyStr.str_int (Z.of_nat (length (captures tr))));
     env_page_url := fun _ => "https://example.test/";
     env_post := fun tr _ _ _ => nth (length (posts tr)) replies fallback;
     env_b64encode := fun b => b;
     env_status_error := fun rp => "status " +:+ PyStr.str_int (reply_status_code rp);
     env_format_exc := fun _ => "Traceback";
     env_getenv := fun _ => None;
     env_loop_time := fun tr => Z.of_nat (length tr);
     env_str_action := fun a => PyStr.str_opt (action_type a);
     env_str_keys := fun keys => PyStr.join ", " keys |}.

Definition action_of (type : string) : Action :=
  {| action_type := Some type; action_x := None; action_y := None;
     action_button := None; action_text := None; action_keys := None;
     action_scrollX := None; action_scrollY := None;
     action_scroll_x := None; action_scroll_y := None;
     action_ms := None; action_path := None |}.

Definition click_at (x y : Z) : Action :=
  {| action_type := Some "click"; action_x := Some x; action_y := Some y;
     action_button := None; action_text := None; action_keys := None;
     action_scrollX := None; action_scrollY := None;
     action_scroll_x := None; action_scroll_y := None;
     action_ms := None; action_path := None |}.

Definition computer_call (id : string) (a : Action)
    (checks : option (list SafetyCheck)) : OutputItem :=
  {| item_type := Some "computer_call"; item_summary := None;
     item_text := None; item_content := None; item_call_id := Some id;
     item_action := Some a; item_pending_safety_checks := checks |}.

Definition message (text : string) : OutputItem :=
  {| item_type := Some "message"; item_summary := None; item_text := None;
     item_content := Some [{| part_type := Some "text"; part_text := Some text |}];
     item_call_id := None; item_action := None;
     item_pending_safety_checks := None |}.

Definition response (id : string) (items : list OutputItem) : Response :=
  {| response_id := Some id; response_output := Some items |}.

(** A controller of [cua_integration.py] as [run_browser_task] sets it up:
    constructed, then [initialize_browser] has run. *)
Definition controller (cfg : Integration.CUAConfig) : Integration.OpenAICUA :=
  Integration.with_state
    (fun s => Integration.set_cdp_session (Some Integration.TheCDPSession)
                (Integration.set_page (Some Integration.ThePage) s))
    (Integration.init "key" (Some cfg) (Some "call") "https://backend.test").

Definition config (n : Z) : Integration.CUAConfig :=
  {| Integration.model := "computer-use-preview";
     Integration.display_width := 1920; Integration.display_height := 1080;
     Integration.environment := "browser";
     Integration.reasoning_summary := "concise";
     Integration.truncation := "auto";
     Integration.max_iterations := n; Integration.timeout_seconds := 300 |}.

(** The check that a scripted reply carries at most one computer call. *)
Definition one_call (r : exn + Reply) : bool :=
  match r with
  | inr rp =>
      match reply_json rp with
      | inr resp => (length (computer_calls_of resp) <=? 1)%nat
      | inl _ => true
      end
  | inl _ => true
  end.

(** The service of the first scenario of the specification: one click,
    then the message "Logged in". *)
Definition login : Env :=
  env [reply_of 200 (response "r1" [computer_call "c1" (click_at 100 200) None]);
       reply_of 200 (response "r2" [message "Logged in"])]
      (inl (Exception "no more replies")).

(** The service of the second scenario: a [wait] action, always. *)
Definition waiting : Env :=
  env [] (reply_of 200 (response "r" [computer_call "c" (action_of "wait") None])).

(** A service that puts two computer calls in its first response. *)
Definition two_calls : Env :=
  env [reply_of 200 (response "r1" [computer_call "c1" (click_at 1 1) None;
                                      computer_call "c2" (click_at 2 2) None])]
      (reply_of 200 (response "r" [message "done"])).

(** A service that answers its second request with status 500. *)
Definition broken : Env :=
  env [reply_of 200 (response "r1" [computer_call "c1" (click_at 100 200) None]);
       reply_of 500 (response "" [])]
      (inl (Exception "no more replies")).

(** A service whose first response is a message. *)
Definition done_at_once : Env :=
  env [] (reply_of 200 (response "r1" [message "Nothing to do"])).


(** A safety check, and a service that attaches it to a click. *)
Definition sensitive : SafetyCheck :=
  {| check_id := Some "sc1"; check_code := Some "sensitive_domain";
     check_message := Some "Sensitive domain" |}.

Definition cautious : Env :=
  env [reply_of 200 (response "r1"
         [computer_call "c1" (click_at 100 200) (Some [sensitive])]);
       reply_of 200 (response "r2" [message "Logged in"])]
      (inl (Exception "no more replies")).

(** The collaborators of [login], with a page on which every navigation
    fails. *)
Definition unreachable : Env :=
  {| env_page := fun _ op =>
       match op with
       | Goto _ => Some (Exception "net::ERR_NAME_NOT_RESOLVED")
       | _ => None
       end;
     env_screenshot := env_screenshot login;
     env_page_url := env_page_url login;
     env_post := env_post login;
     env_b64encode := env_b64encode login;
     env_status_error := env_status_error login;
     env_format_exc := env_format_exc login;
     env_getenv := env_getenv login;
     env_loop_time := env_loop_time login;
     env_str_action := env_str_action login;
     env_str_keys := env_str_keys login |}.

(** The world in which [run_task] of [cua_integration.py] starts. *)
Definition world (max_iterations : Z) : World Integration.OpenAICUA :=
  mkWorld (controller (config max_iterations)) [].

End Script.

(** ** The shape of a run of [cua_integration.run_task] *)

Module Loop.

Import Integration.




(** The attributes that the loop never assigns. *)
Definition same_setup (c c' : OpenAICUA) : Prop :=
  api_key c' = api_key c /\ config c' = config c
  /\ tool_call_id c' = tool_call_id c /\ backend_url c' = backend_url c
  /\ page (state c') = page (state c)
  /\ cdp_session (state c') = cdp_session (state c)
  /\ error (state c') = error (state c).

(** The attributes that only the head of a loop iteration assigns. *)
Definition same_progress (c c' : OpenAICUA) : Prop :=
  completed (state c') = completed (state c)
  /\ iteration_count (state c') = iteration_count (state c).

(** The [image_url] of a screenshot. *)
Definition data_url (image : string) : string :=
  "data:image/jpeg;base64," +:+ image.

(** The history entry of a computer call processed by [c]. *)
Definition observation_of (c : OpenAICUA) (computer_call : OutputItem)
    (image : string) : Observation :=
  {| step := iteration_count (state c); screenshot := image;
     action := item_action computer_call |}.

(** What processing one computer call does: the four ways in which the
    body of the [for] loop ends. *)
Inductive cycle (env : Env) (w : World OpenAICUA) (cc : OutputItem)
    : outcome Response -> World OpenAICUA -> Prop :=
| cycle_done w' evs url headers rq rp resp img :
    trace w' = trace w ++ evs ++ [EvPost url headers rq (inr rp)] ->
    env_post env (trace w ++ evs) url headers rq = inr rp ->
    is_success rp = true -> reply_json rp = inr resp ->
    posts evs = [] -> captures evs = [inr img] -> settle_delays evs = 1%nat ->
    carried_image rq = Some (data_url (env_b64encode env img)) ->
    acknowledged rq = None ->
    same_setup (self w) (self w') -> same_progress (self w) (self w') ->
    screenshots (state (self w')) =
      screenshots (state (self w))
      ++ [observation_of (self w) cc (env_b64encode env img)] ->
    previous_response_id (state (self w')) = response_id resp ->
    cycle env w cc (Ok resp) w'
| cycle_action_failed w' evs e :
    trace w' = trace w ++ evs -> self w' = self w ->
    quiet evs -> page_failure e evs ->
    cycle env w cc (Raise e) w'
| cycle_capture_failed w' evs e :
    trace w' = trace w ++ evs -> self w' = self w ->
    posts evs = [] -> captures evs = [inl e] -> settle_delays evs = 1%nat ->
    cycle env w cc (Raise e) w'
| cycle_request_failed w' evs url headers rq r e img :
    trace w' = trace w ++ evs ++ [EvPost url headers rq r] ->
    post_failed env r e ->
    posts evs = [] -> captures evs = [inr img] -> settle_delays evs = 1%nat ->
    carried_image rq = Some (data_url (env_b64encode env img)) ->
    acknowledged rq = None ->
    same_setup (self w) (self w') -> same_progress (self w) (self w') ->
    screenshots (state (self w')) =
      screenshots (state (self w))
      ++ [observation_of (self w) cc (env_b64encode env img)] ->
    cycle env w cc (Raise e) w'.

(** The invariant between the observation history and the trace, at the
    head of every loop iteration of a run that began with an empty history
    and a quiet trace: one request and one screenshot more than history
    entries, every request answered, no safety check acknowledged, and
    each entry holding the screenshot that the request after it carried. *)
Record tape (env : Env) (w : World OpenAICUA) : Prop := {
  tape_posts :
    length (posts (trace w)) = S (length (screenshots (state (self w))));
  tape_answered :
    Forall (fun p => exists resp, post_ok p.2 resp) (posts (trace w));
  tape_unacknowledged :
    Forall (fun p => acknowledged p.1 = None) (posts (trace w));
  tape_captures :
    captures (trace w) = map inr (images (trace w));
  tape_observed :
    length (images (trace w)) = S (length (screenshots (state (self w))));
  tape_images :
    map screenshot (screenshots (state (self w)))
    = map (env_b64encode env) (tail (images (trace w)));
  tape_carried :
    map carried_image (tail (map fst (posts (trace w))))
    = map (fun o => Some (data_url (screenshot o)))
          (screenshots (state (self w)));
  tape_settle :
    settle_delays (trace w) = length (screenshots (state (self w)));
}.

(** The three states in which an exception leaves the history and the
    trace: nothing of the current cycle recorded, the screenshot of the
    current cycle failed, or the last request failed. *)
Inductive ended (env : Env) (w : World OpenAICUA) : exn -> Prop :=
| ended_before_capture e :
    tape env w -> page_failure e (trace w) -> ended env w e
| ended_at_capture e tr evs :
    trace w = tr ++ evs ->
    tape env (mkWorld (self w) tr) ->
    posts evs = [] -> captures evs = [inl e] -> settle_delays evs = 1%nat ->
    ended env w e
| ended_at_request e tr url headers rq r :
    trace w = tr ++ [EvPost url headers rq r] ->
    post_failed env r e ->
    Forall (fun p => exists resp, post_ok p.2 resp) (posts tr) ->
    length (posts tr) = length (screenshots (state (self w))) ->
    captures (trace w) = map inr (images (trace w)) ->
    length (images (trace w)) = S (length (screenshots (state (self w)))) ->
    map screenshot (screenshots (state (self w)))
    = map (env_b64encode env) (tail (images (trace w))) ->
    settle_delays (trace w) = length (screenshots (state (self w))) ->
    ended env w e.

(** The history, the requests, the screenshots and the settle delays are
    the same in both worlds. *)
Definition untouched (w w' : World OpenAICUA) : Prop :=
  screenshots (state (self w')) = screenshots (state (self w))
  /\ posts (trace w') = posts (trace w)
  /\ captures (trace w') = captures (trace w)
  /\ settle_delays (trace w') = settle_delays (trace w).

(** The trace grows by at most [n] settle delays, requests and
    screenshots. *)
Definition grow (n : nat) (tr tr' : Trace) : Prop :=
  (settle_delays tr' <= settle_delays tr + n)%nat
  /\ (length (posts tr') <= length (posts tr) + n)%nat
  /\ (length (captures tr') <= length (captures tr) + n)%nat.

(** A response with at most one computer call. *)
Definition fits (resp : Response) : Prop :=
  (length (computer_calls_of resp) <= 1)%nat.

(** No more cycles than iterations: the counters of the trace and the
    length of the history are bounded by the iteration counter. *)
Definition bounded (w : World OpenAICUA) : Prop :=
  let n := iteration_count (state (self w)) in
  Z.of_nat (settle_delays (trace w)) <= n
  /\ Z.of_nat (length (posts (trace w))) <= n + 1
  /\ Z.of_nat (length (captures (trace w))) <= n + 1
  /\ Z.of_nat (length (screenshots (state (self w)))) <= n.

(** One history entry per iteration, except for the iteration that
    finds no computer call and completes the task. *)
Definition exact (w : World OpenAICUA) : Prop :=
  Z.of_nat (length (screenshots (state (self w))))
  = if completed (state (self w))
    then iteration_count (state (self w)) - 1
    else iteration_count (state (self w)).

(** The entries are numbered 1, 2, .. in the order of the history. *)
Definition numbered (w : World OpenAICUA) : Prop :=
  map step (screenshots (state (self w)))
  = map Z.of_nat (seq 1 (length (screenshots (state (self w))))).

(** The dictionary of the [return] at the end of the [try] block. *)
Definition returned_result (c : OpenAICUA) : TaskResult :=
  {| r_result :=
       if completed (state c) then "Task completed successfully"
       else "Task stopped after " +:+ PyStr.str_int (iteration_count (state c))
            +:+ " iterations";
     r_screenshots := screenshots (state c);
     r_iterations := iteration_count (state c);
     r_completed := completed (state c);
     r_error := error (state c) |}.

(** The dictionary of the [return] in the [except] block. *)
Definition failure_result (c : OpenAICUA) (e : exn) : TaskResult :=
  {| r_result := "Error: " +:+ str_exn e;
     r_screenshots := screenshots (state c);
     r_iterations := iteration_count (state c);
     r_completed := false;
     r_error := Some (str_exn e) |}.

(** The log entry of the [except] block. *)
Definition failure_log (env : Env) (e : exn) : Event :=
  EvLog ("CUA task failed: " +:+ str_exn e +:+ newline +:+ env_format_exc env e)
        "❌" "status".

(** The world in which [run_task] starts on a new controller: nothing
    recorded, nothing requested or captured so far. *)
Definition start (w : World OpenAICUA) : Prop :=
  screenshots (state (self w)) = []
  /\ completed (state (self w)) = false
  /\ iteration_count (state (self w)) = 0
  /\ quiet (trace w).

(** The four ways in which [run_task] ends when the page is initialized:
    it raises before the [try] block (navigation or the first screenshot
    failed), it returns from the [try] block, it returns from the
    [except] block, or the model ran out of iterations. *)
Inductive run (env : Env) (fuel : nat) (w : World OpenAICUA)
    : outcome TaskResult -> World OpenAICUA -> Prop :=
| run_raised e w' evs :
    trace w' = trace w ++ evs -> self w' = self w ->
    posts evs = [] -> settle_delays evs = 0%nat ->
    (length (captures evs) <= 1)%nat ->
    Exists (fun ev => failed ev = true) evs ->
    run env fuel w (Raise e) w'
| run_returned w' :
    (exists evs, trace w' = trace w ++ evs) ->
    same_setup (self w) (self w') ->
    iteration_count (state (self w)) <= iteration_count (state (self w')) ->
    iteration_count (state (self w'))
      <= Z.max (iteration_count (state (self w))) (max_iterations (config (self w))) ->
    (completed (state (self w')) = true
     \/ max_iterations (config (self w)) <= iteration_count (state (self w'))) ->
    (start w -> tape env w') ->
    (start w -> single_call env -> bounded w' /\ numbered w' /\ exact w') ->
    run env fuel w (Ok (returned_result (self w'))) w'
| run_failed e w1 w' :
    trace w' = trace w1 ++ [failure_log env e] ->
    (exists evs, trace w1 = trace w ++ evs) ->
    self w' = with_state (set_error (Some (str_exn e))) (self w1) ->
    same_setup (self w) (self w1) ->
    iteration_count (state (self w)) <= iteration_count (state (self w1)) ->
    iteration_count (state (self w1))
      <= Z.max (iteration_count (state (self w))) (max_iterations (config (self w))) ->
    (start w -> ended env w1 e) ->
    (start w -> single_call env -> bounded w1 /\ numbered w1) ->
    run env fuel w (Ok (failure_result (self w1) e)) w'
| run_out_of_fuel w' :
    (exists evs, trace w' = trace w ++ evs) ->
    (fuel < Z.to_nat (max_iterations (config (self w))
                      - iteration_count (state (self w))))%nat ->
    (start w -> tape env w') ->
    (start w -> single_call env -> bounded w' /\ numbered w') ->
    run env fuel w OutOfFuel w'.

(** When the first response carries no computer call, the run is over
    after one iteration: completed, nothing recorded, nothing more
    requested. *)
Definition immediate (fuel : nat) (w : World OpenAICUA)
    (o : outcome TaskResult) (w' : World OpenAICUA) : Prop :=
  forall rq rp resp,
    start w ->
    head (posts (trace w')) = Some (rq, inr rp) ->
    is_success rp = true -> reply_json rp = inr resp ->
    computer_calls_of resp = [] ->
    0 < max_iterations (config (self w)) -> (0 < fuel)%nat ->
    o = Ok (returned_result (self w'))
    /\ completed (state (self w')) = true
    /\ iteration_count (state (self w')) = 1
    /\ screenshots (state (self w')) = []
    /\ error (state (self w')) = error (state (self w))
    /\ posts (trace w') = [(rq, inr rp)]
    /\ settle_delays (trace w') = 0%nat.

(** A controller on which [run_task] has not run: page set, state as
    constructed. *)
Definition fresh (c : OpenAICUA) : Prop :=
  present (page (state c)) = true
  /\ previous_response_id (state c) = None
  /\ screenshots (state c) = []
  /\ completed (state c) = false
  /\ error (state c) = None
  /\ iteration_count (state c) = 0.

End Loop.

(** ** Reading the executors *)

(** No call to a collaborator failed among the events. *)
Definition clean (evs : Trace) : Prop := existsb failed evs = false.

(** A computation that leaves the controller alone and stops at the first
    call to the page that fails: the exception it raises is the one of
    its last event, and no earlier call failed. *)
Definition halting {O A} (w : World O) (o : outcome A) (w' : World O) : Prop :=
  self w' = self w /\
  match o with
  | Ok _ => exists evs, trace w' = trace w ++ evs /\ clean evs
  | Raise e =>
      exists evs op, trace w' = trace w ++ evs ++ [EvPage op (Some e)] /\ clean evs
  | OutOfFuel => False
  end.

(** The key that [execute_action] of [cua_integration.py] hands to
    [keyboard.press] for an entry of [keys]. *)
Definition key_name (key : string) : string :=
  if String.eqb (PyStr.upper key) "ENTER" then "Enter"
  else if String.eqb (PyStr.upper key) "SPACE" then " "
  else if String.eqb (PyStr.upper key) "TAB" then "Tab"
  else if String.eqb (PyStr.upper key) "ESCAPE" then "Escape"
  else key.

(** The log entry of the [except] block of [execute_action]. *)
Definition action_failure_log (a : Action) (e : exn) : Event :=
  EvLog ("Failed to execute " +:+ PyStr.str_opt (action_type a)
         +:+ " action: " +:+ str_exn e) "❌" "status".

(** ** Further scripted collaborators *)

Module Scenario.


(** A [keypress] action with two keys. *)
Definition select_all : Action :=
  {| action_type := Some "keypress"; action_x := None; action_y := None;
     action_button := None; action_text := None;
     action_keys := Some ["Control"; "enter"];
     action_scrollX := None; action_scrollY := None;
     action_scroll_x := None; action_scroll_y := None;
     action_ms := None; action_path := None |}.


(** A controller of [openai_cua.py] with its page. *)
Definition entered : World Standalone.OpenAICUA :=
  mkWorld (Standalone.set_page (Some Standalone.ThePage) (Standalone.init "key")) [].

End Scenario.

(** A computation that ends, leaves the controller alone and sends no
    request. *)
Definition offline {O A} (w : World O) (o : outcome A) (w' : World O) : Prop :=
  o <> OutOfFuel /\ self w' = self w /\
  exists evs, trace w' = trace w ++ evs /\ posts evs = [].

(** ** The shape of a run of [openai_cua.run_task] *)

Module StandaloneLoop.

Import Standalone.

(** The attributes that [run_task] never assigns. *)
Definition kept (c c' : OpenAICUA) : Prop :=
  api_key c' = api_key c /\ openai_api_base c' = openai_api_base c
  /\ playwright c' = playwright c /\ browser c' = browser c
  /\ page c' = page c.

(** The entries [new] are numbered [n + 1], [n + 2], .. in their order. *)
Definition numbered_after (n : Z) (new : list Observation) : Prop :=
  map step new = map (fun i => n + Z.of_nat i) (seq 1 (length new)).

(** The [image_url] of a screenshot. *)
Definition png_url (image : string) : string :=
  "data:image/png;base64," +:+ image.

(** The request [rq] answers the computer call [cc] of the response
    [resp] with the observation [ob]. *)
Definition answers (rq : Request) (resp : Response) (cc : OutputItem)
    (ob : Observation) : Prop :=
  req_previous_response_id rq = Some (response_id resp)
  /\ exists current_url,
       req_input rq
       = [ComputerCallOutput (item_call_id cc)
            (Some (default [] (item_pending_safety_checks cc)))
            (png_url (screenshot ob)) (Some current_url)].



(** The calls of a drag along [path]. *)
Definition drag_ops (path : list Point) : list PageOp :=
  match path with
  | [] => []
  | first :: rest =>
      MouseMove (point_x first) (point_y first) :: MouseDown
      :: map (fun point => MouseMove (point_x point) (point_y point)) rest
      ++ [MouseUp]
  end.

End StandaloneLoop.

(** ** [browser_utils_cua.py] *)

Module BrowserUtils.

(** [s.endswith(suffix)] *)
Definition endswith (suffix s : string) : bool :=
  (String.length suffix <=? String.length s)%nat
  && String.eqb
       (substring (String.length s - String.length suffix) (String.length suffix) s)
       suffix.

Definition lower_char (c : ascii) : ascii :=
  let n := nat_of_ascii c in
  if (65 <=? n)%nat && (n <=? 90)%nat then ascii_of_nat (n + 32) else c.

(** [s.lower()] *)
Fixpoint lower (s : string) : string :=
  match s with
  | EmptyString => EmptyString
  | String c r => String (lower_char c) (lower r)
  end.

(** [MAX_LOG_ENTRIES] *)
Definition MAX_LOG_ENTRIES : nat := 1000.

(** [extensions_to_filter] of [should_log_network_request]. *)
Definition extensions_to_filter : list string :=
  [".js"; ".css"; ".woff"; ".woff2"; ".ttf"; ".eot"; ".svg";
   ".png"; ".jpg"; ".jpeg"; ".gif"; ".ico"; ".map"].

(** What the handlers read of a Playwright request. *)
Record NetRequest := {
  request_url : string;
  request_method : string;
  request_resource_type : string;
  request_is_navigation : bool;
  (** [request.post_data]: [None], or the body as text *)
  request_post_data : option string;
  (** [id(request)] *)
  request_id : Z;
}.

(** [should_log_network_request] *)
Definition should_log_network_request (request : NetRequest) : bool :=
  let url := request_url request in
  if PyStr.contains "/node_modules/" url then false
  else if negb (String.eqb (request_resource_type request) "xhr")
          && negb (String.eqb (request_resource_type request) "fetch") then false
  else if existsb (fun ext => endswith ext url || PyStr.contains (ext +:+ "?") url)
            extensions_to_filter
       then false
  else true.

(** [deque.append] on a [deque(maxlen=..)]: when the deque is full, the
    entry at its left end is dropped. *)
Definition deque_append {A} (maxlen : nat) (d : list A) (x : A) : list A :=
  drop (length (d ++ [x]) - maxlen) (d ++ [x]).

(** The longest prefix of [s] without whitespace: what [[^\s]+] matches. *)
Fixpoint nonspace_run (s : string) : string :=
  match s with
  | EmptyString => EmptyString
  | String c r => if PyStr.is_space c then EmptyString else String c (nonspace_run r)
  end.

(** The match of [scheme] followed by [[^\s]+] at the start of [s]. *)
Definition match_after (scheme s : string) : option string :=
  if String.prefix scheme s then
    match nonspace_run (substring (String.length scheme) (String.length s) s) with
    | EmptyString => None
    | rest => Some (scheme +:+ rest)
    end
  else None.

(** The match of [https?://[^\s]+] at the start of [s]. *)
Definition match_url_at (s : string) : option string :=
  match match_after "https://" s with
  | Some u => Some u
  | None => match_after "http://" s
  end.

(** [re.findall(r'https?://[^\s]+', task)[0]], when there is a match: the
    leftmost one. *)
Fixpoint first_url (task : string) : option string :=
  match match_url_at task with
  | Some u => Some u
  | None =>
      match task with
      | EmptyString => None
      | String _ r => first_url r
      end
  end.



(** The [initial_url] that [run_browser_task] hands to [run_task]. *)
Definition extract_initial_url (task : string) : option string :=
  if PyStr.contains "http" (lower task) then first_url task else None.

(** An entry of [console_log_storage]. *)
Record ConsoleEntry := {
  console_type : string;
  console_text : string;
  console_location : string;
  console_timestamp : Z;
}.

(** What the handler reads of a console message; [message_failure] is
    [None] when the attribute is missing or false. *)
Record ConsoleMessage := {
  message_type : string;
  message_text : string;
  message_location : string;
  message_failure : option string;
}.

(** The [headers] of an entry: the headers, or [{"error": ..}]. *)
Inductive Headers :=
| HeadersOf (headers : list (string * string))
| HeadersError (error : string).

(** The [response] attached to an entry of [network_request_storage]. *)
Record ResponseData := {
  response_status : Z;
  response_status_text : string;
  response_headers : Headers;
  response_timestamp : Z;
}.

(** An entry of [network_request_storage]; [entry_response] is [None]
    while the entry has no [response] key. *)
Record RequestEntry := {
  entry_url : string;
  entry_method : string;
  entry_headers : Headers;
  entry_post_data : option string;
  entry_timestamp : Z;
  entry_resource_type : string;
  entry_is_navigation : bool;
  entry_id : Z;
  entry_response : option ResponseData;
}.

(** The module globals that the handlers update. *)
Record Storage := {
  console_log_storage : list ConsoleEntry;
  network_request_storage : list RequestEntry;
}.

(** How awaiting [all_headers()] or [post_data_buffer()] ends: with a
    value, with a [PlaywrightError], or with another exception. *)
Inductive awaited (A : Type) :=
| Returned (a : A)
| PlaywrightError (message : string)
| OtherError (message : string).
Arguments Returned {A} a.
Arguments PlaywrightError {A} message.
Arguments OtherError {A} message.

(** What the handlers read of a Playwright response. *)
Record NetResponse := {
  response_request : NetRequest;
  response_url : string;
  net_status : Z;
  net_status_text : string;
}.

(** The calls of the handlers to Playwright. *)
Record Net := {
  (** [await request.all_headers()] *)
  net_request_headers : NetRequest -> awaited (list (string * string));
  (** [await request.post_data_buffer()], decoded as UTF-8 *)
  net_post_data_buffer : NetRequest -> awaited (option string);
  (** [await response.all_headers()] *)
  net_response_headers : NetResponse -> awaited (list (string * string));
}.

Section Handlers.

Context (env : Env) (net : Net).

Local Abbreviation Py := (M Storage).

Definition set_console (v : list ConsoleEntry) (s : Storage) : Storage :=
  {| console_log_storage := v; network_request_storage := network_request_storage s |}.

Definition set_network (v : list RequestEntry) (s : Storage) : Storage :=
  {| console_log_storage := console_log_storage s; network_request_storage := v |}.

(** [_handle_console_message].  Nothing that its [try] block does raises
    here, so that the [except] block is not reached. *)
Definition handle_console_message (message : ConsoleMessage) : Py unit :=
  now <- loop_time env;;
  let log_entry :=
    {| console_type := message_type message; console_text := message_text message;
       console_location := message_location message; console_timestamp := now |} in
  modify (fun s => set_console
    (deque_append MAX_LOG_ENTRIES (console_log_storage s) log_entry) s);;
  match message_failure message with
  | Some failure =>
      send_log ("CONSOLE ERROR [" +:+ console_type log_entry +:+ "]: "
                +:+ console_text log_entry +:+ " - " +:+ failure) "❌" "console"
  | None =>
      send_log ("CONSOLE [" +:+ console_type log_entry +:+ "]: "
                +:+ console_text log_entry) "🖥️" "console"
  end.




(** The [headers] of the data of a response. *)
Definition response_headers_of (response : NetResponse) : Headers :=
  match net_response_headers net response with
  | Returned headers => HeadersOf headers
  | PlaywrightError e => HeadersError ("Resp Header Error: " +:+ e)
  | OtherError e => HeadersError ("Unexpected Resp Header Error: " +:+ e)
  end.

(** [req["response"] = response_data], with the copies of its status and
    timestamp under [response_status] and [response_timestamp]. *)
Definition set_response (data : ResponseData) (req : RequestEntry) : RequestEntry :=
  {| entry_url := entry_url req; entry_method := entry_method req;
     entry_headers := entry_headers req; entry_post_data := entry_post_data req;
     entry_timestamp := entry_timestamp req;
     entry_resource_type := entry_resource_type req;
     entry_is_navigation := entry_is_navigation req;
     entry_id := entry_id req; entry_response := Some data |}.

(** The entry is one of the request [req_id] and has no response yet. *)
Definition pending (req_id : Z) (req : RequestEntry) : bool :=
  (entry_id req =? req_id) && negb (present (entry_response req)).

(** The loop of [_handle_response] over the stored requests: the first
    pending entry of the request takes [data], and the loop is left; the
    result is the storage and the entry that was updated, if any. *)
Fixpoint attach_response (req_id : Z) (data : ResponseData)
    (storage : list RequestEntry) : list RequestEntry * option RequestEntry :=
  match storage with
  | [] => ([], None)
  | req :: rest =>
      if pending req_id req then
        (set_response data req :: rest, Some (set_response data req))
      else
        let (rest', updated) := attach_response req_id data rest in
        (req :: rest', updated)
  end.

(** [_handle_response] *)
Definition handle_response (response : NetResponse) : Py unit :=
  let req_id := request_id (response_request response) in
  if negb (should_log_network_request (response_request response)) then ret tt
  else
    let headers := response_headers_of response in
    now <- loop_time env;;
    let response_data :=
      {| response_status := net_status response;
         response_status_text := net_status_text response;
         response_headers := headers; response_timestamp := now |} in
    s <- get;;
    let (storage, updated) :=
      attach_response req_id response_data (network_request_storage s) in
    modify (set_network storage);;
    match updated with
    | Some req =>
        send_log ("NET RESP [" +:+ PyStr.str_int (response_status response_data)
                  +:+ "]: " +:+ entry_url req) "⬅️" "network"
    | None => ret tt
    end.

End Handlers.

End BrowserUtils.

(** * Properties *)

(** ** Python strings on sample values *)

Example str_int_samples :
  PyStr.str_int 30 = "30" /\ PyStr.str_int 0 = "0" /\ PyStr.str_int (-5) = "-5".
Proof. repeat split. Qed.

Example upper_samples :
  PyStr.upper "Enter" = "ENTER" /\ PyStr.upper "space" = "SPACE"
  /\ PyStr.upper "F5" = "F5".
Proof. repeat split. Qed.

Example take_samples :
  PyStr.take 3 "hello" = "hel" /\ PyStr.take 50 "hello" = "hello".
Proof. repeat split. Qed.

Example join_samples :
  PyStr.join ", " ["Control"; "a"] = "Control, a" /\ PyStr.join ", " [] = "".
Proof. repeat split. Qed.

Example split_samples :
  PyStr.split "GOAL:" "VISIT: http://a.test GOAL: log in"
  = ["VISIT: http://a.test "; " log in"]
  /\ PyStr.split "VISIT:" "no marker" = ["no marker"].
Proof. repeat split. Qed.

Example strip_samples :
  PyStr.strip " http://a.test " = "http://a.test" /\ PyStr.strip "  " = "".
Proof. repeat split. Qed.

(** ** Rules of the monad *)

Section Rules.

Context {O : Type}.

Lemma wp_mono {A} (m : M O A) w (Q Q' : outcome A -> World O -> Prop) :
  wp m w Q -> (forall o w', Q o w' -> Q' o w') -> wp m w Q'.
Proof. unfold wp. auto. Qed.

Lemma wp_ret {A} (a : A) (w : World O) Q : Q (Ok a) w -> wp (ret a) w Q.
Proof. trivial. Qed.

Lemma wp_raise {A} e (w : World O) (Q : outcome A -> World O -> Prop) :
  Q (Raise e) w -> wp (raise e) w Q.
Proof. trivial. Qed.

Lemma wp_bind {A B} (m : M O A) (k : A -> M O B) w Q :
  wp m w (fun o w' =>
    match o with
    | Ok a => wp (k a) w' Q
    | Raise e => Q (Raise e) w'
    | OutOfFuel => Q OutOfFuel w'
    end) ->
  wp (bind m k) w Q.
Proof. unfold wp, bind. destruct (m w) as [[a|e|] w']; trivial. Qed.

Lemma wp_try_except {A} (m : M O A) (h : exn -> M O A) w Q :
  wp m w (fun o w' =>
    match o with
    | Raise e => wp (h e) w' Q
    | _ => Q o w'
    end) ->
  wp (try_except m h) w Q.
Proof. unfold wp, try_except. destruct (m w) as [[a|e|] w']; trivial. Qed.

Lemma wp_get (w : World O) Q : Q (Ok (self w)) w -> wp get w Q.
Proof. trivial. Qed.

Lemma wp_modify (f : O -> O) (w : World O) Q :
  Q (Ok tt) (mkWorld (f (self w)) (trace w)) -> wp (modify f) w Q.
Proof. trivial. Qed.

Lemma wp_emit ev (w : World O) Q :
  Q (Ok tt) (mkWorld (self w) (trace w ++ [ev])) -> wp (emit ev) w Q.
Proof. trivial. Qed.

Lemma wp_when (c : bool) (m : M O unit) w Q :
  (c = true -> wp m w Q) -> (c = false -> Q (Ok tt) w) -> wp (when c m) w Q.
Proof. destruct c; unfold when; intros H1 H2; [now apply H1 | now apply H2]. Qed.

(** The run of a computation, read off [wp]. *)
Lemma wp_run {A} (m : M O A) w o w' Q : wp m w Q -> m w = (o, w') -> Q o w'.
Proof. unfold wp. intros H E. now rewrite E in H. Qed.

End Rules.

(** ** Traces *)

Lemma posts_app tr1 tr2 : posts (tr1 ++ tr2) = posts tr1 ++ posts tr2.
Proof. apply flat_map_app. Qed.

Lemma captures_app tr1 tr2 : captures (tr1 ++ tr2) = captures tr1 ++ captures tr2.
Proof. apply flat_map_app. Qed.

Lemma images_app tr1 tr2 : images (tr1 ++ tr2) = images tr1 ++ images tr2.
Proof. unfold images. rewrite captures_app. apply flat_map_app. Qed.

Lemma settle_delays_app tr1 tr2 :
  settle_delays (tr1 ++ tr2) = (settle_delays tr1 + settle_delays tr2)%nat.
Proof. unfold settle_delays. now rewrite List.filter_app, length_app. Qed.

Lemma log_messages_app tr1 tr2 :
  log_messages (tr1 ++ tr2) = log_messages tr1 ++ log_messages tr2.
Proof. apply flat_map_app. Qed.

Lemma page_calls_app tr1 tr2 :
  page_calls (tr1 ++ tr2) = page_calls tr1 ++ page_calls tr2.
Proof. apply flat_map_app. Qed.

Lemma quiet_nil : quiet [].
Proof. repeat split. Qed.

Lemma quiet_app evs1 evs2 : quiet evs1 -> quiet evs2 -> quiet (evs1 ++ evs2).
Proof.
  intros (P1 & C1 & S1) (P2 & C2 & S2). unfold quiet.
  rewrite posts_app, captures_app, settle_delays_app, P1, P2, C1, C2, S1, S2.
  repeat split.
Qed.

Lemma quiet_log m e t : quiet [EvLog m e t].
Proof. repeat split. Qed.

Lemma quiet_page op r : quiet [EvPage op r].
Proof. repeat split. Qed.

Lemma silent_refl {O} (w : World O) : silent w w.
Proof. split; [reflexivity|]. exists []. split; [now rewrite app_nil_r | apply quiet_nil]. Qed.

Lemma silent_trans {O} (w1 w2 w3 : World O) :
  silent w1 w2 -> silent w2 w3 -> silent w1 w3.
Proof.
  intros (S1 & evs1 & T1 & Q1) (S2 & evs2 & T2 & Q2). split; [congruence|].
  exists (evs1 ++ evs2). split; [|now apply quiet_app].
  now rewrite T2, T1, app_assoc.
Qed.

Lemma silent_event {O} (w : World O) ev :
  quiet [ev] -> silent w (mkWorld (self w) (trace w ++ [ev])).
Proof. intros Q. split; [reflexivity|]. now exists [ev]. Qed.

(** ** The collaborators *)

Section CollaboratorFacts.

Context (env : Env) {O : Type}.

Lemma calm_of_silent {A} (w w' : World O) (a : A) : silent w w' -> calm w (Ok a) w'.
Proof.
  intros (Hs & evs & Ht & Hq). split; [discriminate|]. split; [assumption|].
  exists evs. repeat split; try assumption; try apply Hq. discriminate.
Qed.

Lemma calm_then {A B} (w w1 w2 : World O) (a : A) (o : outcome B) :
  calm w (Ok a) w1 -> calm w1 o w2 -> calm w o w2.
Proof.
  intros (_ & S1 & evs1 & T1 & Q1 & _) (Hne & S2 & evs2 & T2 & Q2 & F2).
  split; [assumption|]. split; [congruence|].
  exists (evs1 ++ evs2). split; [now rewrite T2, T1, app_assoc|].
  split; [now apply quiet_app|].
  intros e He. destruct (F2 e He) as [op Hop]. exists op.
  apply in_or_app. now right.
Qed.

Lemma calm_raised {A B} (w w1 w2 : World O) e :
  calm w (Raise (A:=A) e) w1 -> silent w1 w2 -> calm w (Raise (A:=B) e) w2.
Proof.
  intros (_ & S1 & evs1 & T1 & Q1 & F1) (S2 & evs2 & T2 & Q2).
  split; [discriminate|]. split; [congruence|].
  exists (evs1 ++ evs2). split; [now rewrite T2, T1, app_assoc|].
  split; [now apply quiet_app|].
  intros e' He'. injection He' as <-. destruct (F1 e eq_refl) as [op Hop].
  exists op. apply in_or_app. now left.
Qed.

Lemma send_log_silent m e t (w : World O) :
  wp (send_log m e t) w (fun o w' => o = Ok tt /\ silent w w').
Proof. apply wp_emit. split; [reflexivity|]. apply silent_event, quiet_log. Qed.

Lemma send_log_calm m e t (w : World O) : wp (send_log m e t) w (calm w).
Proof.
  eapply wp_mono; [apply send_log_silent|]. intros o w' [-> Hs].
  now apply calm_of_silent.
Qed.

Lemma ret_calm {A} (a : A) (w : World O) : wp (ret a) w (calm w).
Proof. apply wp_ret, calm_of_silent, silent_refl. Qed.

Lemma page_do_calm op (w : World O) : wp (page_do env op) w (calm w).
Proof.
  unfold wp, page_do, calm. cbn.
  destruct (env_page env (trace w) op) as [e|] eqn:E.
  - split; [discriminate|]. split; [reflexivity|]. eexists. split; [reflexivity|].
    split; [apply quiet_page|]. intros e' He'. injection He' as <-.
    exists op. now left.
  - split; [discriminate|]. split; [reflexivity|]. eexists. split; [reflexivity|].
    split; [apply quiet_page|]. discriminate.
Qed.

Lemma sleep_calm ms (w : World O) : ms <> 1000 -> wp (sleep ms) w (calm w).
Proof.
  intros Hms. apply wp_emit, calm_of_silent, silent_event. repeat split.
  unfold settle_delays. cbn.
  destruct (Z.eqb_spec ms 1000); [contradiction | reflexivity].
Qed.

Lemma calm_bind {A B} (m : M O A) (k : A -> M O B) w :
  wp m w (calm w) -> (forall a w1, wp (k a) w1 (calm w1)) ->
  wp (bind m k) w (calm w).
Proof.
  intros Hm Hk. apply wp_bind. eapply wp_mono; [apply Hm|].
  intros [a|e|] w1 Hc; cbn.
  - eapply wp_mono; [apply Hk|]. intros o w2 Hc2. eapply calm_then; eassumption.
  - eapply calm_raised; [eassumption | apply silent_refl].
  - now destruct Hc.
Qed.

Lemma for_each_calm {A} (l : list A) (body : A -> M O unit) :
  (forall x w, wp (body x) w (calm w)) ->
  forall w, wp (for_each l body) w (calm w).
Proof.
  intros Hbody. induction l as [|x l IH]; intros w; cbn.
  - apply ret_calm.
  - apply calm_bind; [apply Hbody | intros; apply IH].
Qed.

Lemma when_calm c (m : M O unit) (w : World O) :
  wp m w (calm w) -> wp (when c m) w (calm w).
Proof. intros H. destruct c; [exact H | apply ret_calm]. Qed.

Lemma for_each_logs {A} (l : list A) (body : A -> M O unit) :
  (forall x w, wp (body x) w (fun o w' => o = Ok tt /\ silent w w')) ->
  forall w, wp (for_each l body) w (fun o w' => o = Ok tt /\ silent w w').
Proof.
  intros Hbody. induction l as [|x l IH]; intros w; cbn.
  - apply wp_ret. split; [reflexivity | apply silent_refl].
  - apply wp_bind. eapply wp_mono; [apply Hbody|].
    intros o w1 [-> Hs]. eapply wp_mono; [apply IH|]. intros o w2 [-> Hs2].
    split; [reflexivity | eapply silent_trans; eassumption].
Qed.

End CollaboratorFacts.

(** ** The executor and the capturer of [cua_integration.py] *)

Section IntegrationSteps.

Import Integration Loop.

Context (env : Env).

Local Abbreviation Ctl := (World OpenAICUA).

Lemma press_key_calm key (w : Ctl) : wp (press_key env key) w (calm w).
Proof. unfold press_key. repeat case_match; apply page_do_calm. Qed.

Lemma dispatch_action_calm a (w : Ctl) : wp (dispatch_action env a) w (calm w).
Proof.
  unfold dispatch_action.
  repeat case_match;
    repeat first
      [ apply send_log_calm
      | apply page_do_calm
      | apply sleep_calm; discriminate
      | apply for_each_calm; intros; apply press_key_calm
      | apply calm_bind; [|intros ? ?] ].
Qed.

(** [execute_action] on an initialized page ends; it touches neither the
    controller state, nor the reasoning service, nor the screenshot
    capture, and it raises only what the page raised. *)
Lemma execute_action_calm a (w : Ctl) :
  present (page (state (self w))) = true ->
  wp (execute_action env a) w (calm w).
Proof.
  intros Hp. unfold execute_action. apply wp_bind, wp_get.
  rewrite Hp. cbn [negb].
  apply wp_try_except. eapply wp_mono; [apply dispatch_action_calm|].
  intros [[]|e|] w1 Hc; [assumption | | assumption].
  apply wp_bind. eapply wp_mono; [apply send_log_silent|].
  intros o w2 [-> Hs]. apply wp_raise. eapply calm_raised; eassumption.
Qed.

(** [capture_screenshot] on an initialized page takes exactly one
    screenshot and returns its encoding, or raises what the page raised. *)
Lemma capture_screenshot_spec (w : Ctl) :
  present (page (state (self w))) = true ->
  wp (capture_screenshot env) w (fun o w' =>
    self w' = self w /\
    exists evs, trace w' = trace w ++ evs /\ posts evs = []
      /\ settle_delays evs = 0%nat
      /\ match o with
         | Ok s => exists img, s = env_b64encode env img /\ captures evs = [inr img]
         | Raise e => captures evs = [inl e]
         | OutOfFuel => False
         end).
Proof.
  intros Hp. unfold capture_screenshot. apply wp_bind, wp_get.
  rewrite Hp. cbn [negb].
  unfold wp, try_except, bind, page_screenshot, send_log, emit, raise, ret. cbn.
  destruct (env_screenshot env (trace w) "jpeg" (Some 90)) as [e|img]; cbn.
  - split; [reflexivity|]. eexists. split; [now rewrite <- app_assoc|].
    repeat split.
  - split; [reflexivity|]. eexists. split; [reflexivity|].
    repeat split. now exists img.
Qed.

(** The scan of the output items logs, and collects the computer calls. *)
Lemma scan_output_spec items : forall acc (w : Ctl),
  wp (scan_output items acc) w (fun o w' =>
    o = Ok (acc ++ List.filter
              (fun item => type_is (item_type item) "computer_call") items)
    /\ silent w w').
Proof.
  induction items as [|item items IH]; intros acc w; cbn [scan_output List.filter].
  - apply wp_ret. rewrite app_nil_r. split; [reflexivity | apply silent_refl].
  - destruct (type_is (item_type item) "reasoning") eqn:Er.
    { assert (type_is (item_type item) "computer_call" = false) as ->.
      { unfold type_is in *. apply bool_decide_eq_true in Er. now rewrite Er. }
      apply wp_bind. eapply wp_mono.
      { apply for_each_logs. intros x w0.
        destruct x as [[t|]|];
          [apply send_log_silent
          | apply wp_ret; split; [reflexivity | apply silent_refl] ..]. }
      intros o w1 [-> Hs]. eapply wp_mono; [apply IH|]. intros o w2 [-> Hs2].
      split; [reflexivity | eapply silent_trans; eassumption]. }
    destruct (type_is (item_type item) "computer_call") eqn:Ec.
    { eapply wp_mono; [apply IH|]. intros o w2 [-> Hs2].
      split; [now rewrite <- app_assoc | assumption]. }
    assert (forall (w0 : Ctl),
      wp (match item_text item with
          | Some text => send_log ("CUA message: " +:+ text) "💬" "agent"
          | None => ret tt
          end) w0 (fun o w' => o = Ok tt /\ silent w0 w')) as Htext.
    { intros w0. destruct (item_text item);
        [apply send_log_silent | apply wp_ret; split; [reflexivity | apply silent_refl]]. }
    destruct (type_is (item_type item) "text").
    { apply wp_bind. eapply wp_mono; [apply Htext|].
      intros o w1 [-> Hs]. eapply wp_mono; [apply IH|]. intros o w2 [-> Hs2].
      split; [reflexivity | eapply silent_trans; eassumption]. }
    apply IH.
Qed.

(** Processing a computer call ends in one of the four ways of [cycle]. *)
Lemma process_computer_call_cycle headers cc (w : Ctl) :
  present (page (state (self w))) = true ->
  wp (process_computer_call env headers cc) w (cycle env w cc).
Proof.
  intros Hp. unfold process_computer_call.
  apply wp_bind. eapply wp_mono.
  { apply when_calm, for_each_calm. intros; apply send_log_calm. }
  intros [[]|e|] w1 Hc1.
  2:{ destruct Hc1 as (_ & S1 & evs & T1 & Q1 & F1).
      eapply cycle_action_failed; eauto. }
  2:{ now destruct Hc1. }
  apply wp_bind. eapply wp_mono.
  { instantiate (1 := calm w1).
    destruct (item_action cc);
      [apply when_calm, execute_action_calm | apply ret_calm].
    destruct Hc1 as (_ & -> & _). assumption. }
  intros o w2 Hc2. pose proof (calm_then _ _ _ _ _ Hc1 Hc2) as Hc.
  clear Hc1 Hc2 w1.
  destruct Hc as (Hne & Hself & evs0 & Htr & Hq0 & Hf0).
  destruct o as [[]|e|]; [| | congruence].
  2:{ eapply cycle_action_failed; eauto. }
  apply wp_bind, wp_emit. apply wp_bind.
  eapply wp_mono. { apply capture_screenshot_spec. cbn. now rewrite Hself. }
  cbn [self trace].
  intros [s|e|] w3 (Hself3 & evs3 & Htr3 & Hp3 & Hs3 & Hc3); [| | contradiction].
  2:{ eapply cycle_capture_failed with (evs := evs0 ++ [EvSleep 1000] ++ evs3).
      - rewrite Htr3, Htr. now rewrite <- !app_assoc.
      - congruence.
      - destruct Hq0 as (P0 & _). now rewrite !posts_app, P0, Hp3.
      - destruct Hq0 as (_ & C0 & _). now rewrite !captures_app, C0, Hc3.
      - destruct Hq0 as (_ & _ & S0). now rewrite !settle_delays_app, S0, Hs3. }
  destruct Hc3 as (img & -> & Hc3).
  apply wp_bind, wp_get. apply wp_bind, wp_modify. apply wp_bind, wp_get.
  cbn [self trace].
  set (c' := with_state _ (self w3)).
  assert (present (page (state c')) = true) as Hp'.
  { subst c'. cbn. now rewrite Hself3, Hself. }
  rewrite Hp'.
  assert (same_setup (self w) c') as Hsetup.
  { subst c'. rewrite <- Hself, <- Hself3. repeat split. }
  assert (same_progress (self w) c') as Hprog.
  { subst c'. rewrite <- Hself, <- Hself3. repeat split. }
  assert (screenshots (state c') = screenshots (state (self w))
            ++ [observation_of (self w) cc (env_b64encode env img)]) as Hshots.
  { subst c'. rewrite <- Hself, <- Hself3. reflexivity. }
  clearbody c'.
  set (evs := evs0 ++ [EvSleep 1000] ++ evs3).
  assert (trace w3 = trace w ++ evs) as Htrace.
  { subst evs. rewrite Htr3, Htr. now rewrite <- !app_assoc. }
  assert (posts evs = [] /\ captures evs = [inr img] /\ settle_delays evs = 1%nat)
    as (Hpe & Hce & Hse).
  { subst evs. destruct Hq0 as (P0 & C0 & S0).
    rewrite !posts_app, !captures_app, !settle_delays_app, P0, C0, S0, Hp3, Hc3, Hs3.
    repeat split. }
  clearbody evs. clear Htr Htr3 Hq0 Hf0 Hp3 Hs3 Hc3 evs0 evs3 Hself Hself3 w2 Hne.
  unfold wp, bind, page_url, post, raise_for_status, reply_decode, modify, ret, raise.
  cbn [self trace fst snd].
  rewrite Htrace.
  match goal with |- context [env_post env ?t ?u ?h ?r] =>
    set (rq := r); set (url := u)
  end.
  destruct (env_post env (trace w ++ evs) url headers rq) as [e|rp] eqn:Epost; cbn.
  { eapply cycle_request_failed with (evs := evs) (img := img) (r := inl e)
      (url := url) (headers := headers) (rq := rq); cbn;
      try eassumption; try reflexivity; [symmetry; apply app_assoc | constructor]. }
  destruct (is_success rp) eqn:Esucc; cbn.
  2:{ eapply cycle_request_failed with (evs := evs) (img := img) (r := inr rp)
      (url := url) (headers := headers) (rq := rq); cbn;
        try eassumption; try reflexivity;
        [symmetry; apply app_assoc | now constructor]. }
  destruct (reply_json rp) as [e|resp] eqn:Ejson; cbn.
  { eapply cycle_request_failed with (evs := evs) (img := img) (r := inr rp)
      (url := url) (headers := headers) (rq := rq); cbn;
      try eassumption; try reflexivity;
      [symmetry; apply app_assoc | now apply decode_error]. }
  eapply cycle_done with (evs := evs) (img := img) (rp := rp)
    (url := url) (headers := headers) (rq := rq); cbn; try eassumption;
    try reflexivity.
  symmetry; apply app_assoc.
Qed.

End IntegrationSteps.

(** ** The loop of [cua_integration.run_task] *)

Section IntegrationLoop.

Import Integration Loop.

Context (env : Env).

Local Abbreviation Ctl := (World OpenAICUA).

Lemma same_setup_refl c : same_setup c c.
Proof. repeat split. Qed.

Lemma same_setup_trans c1 c2 c3 :
  same_setup c1 c2 -> same_setup c2 c3 -> same_setup c1 c3.
Proof. unfold same_setup. intuition congruence. Qed.

Lemma same_progress_trans c1 c2 c3 :
  same_progress c1 c2 -> same_progress c2 c3 -> same_progress c1 c3.
Proof. unfold same_progress. intuition congruence. Qed.

Lemma images_eq tr tr' : captures tr' = captures tr -> images tr' = images tr.
Proof. unfold images. now intros ->. Qed.

Lemma untouched_silent (w w' : Ctl) : silent w w' -> untouched w w'.
Proof.
  intros (Hs & evs & Ht & P & C & S). unfold untouched.
  rewrite Hs, Ht, posts_app, captures_app, settle_delays_app, P, C, S.
  now rewrite !app_nil_r, Nat.add_0_r.
Qed.

Lemma untouched_trans (w1 w2 w3 : Ctl) :
  untouched w1 w2 -> untouched w2 w3 -> untouched w1 w3.
Proof. unfold untouched. intuition congruence. Qed.

Lemma tape_untouched (w w' : Ctl) : untouched w w' -> tape env w -> tape env w'.
Proof.
  intros (Hs & Hp & Hc & Hd) [].
  pose proof (images_eq _ _ Hc) as Hi.
  constructor; rewrite ?Hs, ?Hp, ?Hc, ?Hd, ?Hi; assumption.
Qed.

Lemma post_failed_not_ok r e resp : post_failed env r e -> post_ok r resp -> False.
Proof.
  intros Hf (rp & -> & Hs & Hj). inversion Hf; subst; congruence.
Qed.

(** A finished cycle keeps the tape. *)
Lemma cycle_done_tape (w w' : Ctl) cc resp :
  cycle env w cc (Ok resp) w' -> tape env w -> tape env w'.
Proof.
  intros Hc [].
  inversion Hc as [w0 evs url headers rq rp resp0 img Ht Hpost Hsucc Hjson
                     Hpe Hce Hse Hcar Hack Hset Hprog Hs Hprev | | |]; subst.
  assert (posts (trace w') = posts (trace w) ++ [(rq, inr rp)]) as Hp.
  { rewrite Ht, !posts_app. cbn. now rewrite Hpe, app_nil_l. }
  assert (captures (trace w') = captures (trace w) ++ [inr img]) as Hcap.
  { rewrite Ht, !captures_app. cbn. now rewrite Hce, app_nil_r. }
  assert (images (trace w') = images (trace w) ++ [img]) as Hi.
  { unfold images. rewrite Hcap, flat_map_app. reflexivity. }
  constructor; rewrite ?Hs, ?Hp, ?Hcap, ?Hi.
  - rewrite !length_app. cbn. lia.
  - apply Forall_app. split; [assumption|]. constructor; [|constructor].
    exists resp, rp. auto.
  - apply Forall_app. split; [assumption|]. constructor; [|constructor]. assumption.
  - rewrite map_app. cbn. now f_equal.
  - rewrite !length_app. cbn. lia.
  - destruct (images (trace w)) as [|i0 imgs]; [discriminate|].
    cbn. rewrite !map_app. cbn. f_equal. exact tape_images0.
  - destruct (posts (trace w)) as [|p0 ps]; [discriminate|].
    cbn. rewrite !map_app. cbn. f_equal; [exact tape_carried0|].
    now rewrite Hcar.
  - rewrite Ht, !settle_delays_app, length_app, Hse. cbn. lia.
Qed.

(** A cycle that raises ends the run in one of the three ways of [ended]. *)
Lemma cycle_raise_ended (w w' : Ctl) cc e :
  cycle env w cc (Raise e) w' -> tape env w -> ended env w' e.
Proof.
  intros Hc Htape.
  inversion Hc as [
    | w0 evs e0 Ht Hs Hq Hf
    | w0 evs e0 Ht Hs Hpe Hce Hse
    | w0 evs url headers rq r e0 img Ht Hfail Hpe Hce Hse Hcar Hack Hset Hprog Hs];
    subst.
  - apply ended_before_capture.
    + apply (tape_untouched w); [|assumption].
      apply untouched_silent. split; [assumption|]. now exists evs.
    + destruct Hf as [op Hop]. exists op. rewrite Ht. apply in_or_app. now right.
  - eapply ended_at_capture with (tr := trace w) (evs := evs); try eassumption.
    apply (tape_untouched w); [|assumption]. repeat split. cbn. now rewrite Hs.
  - destruct Htape.
    assert (captures (trace w') = captures (trace w) ++ [inr img]) as Hcap.
    { rewrite Ht, !captures_app. cbn. now rewrite Hce, app_nil_r. }
    assert (images (trace w') = images (trace w) ++ [img]) as Hi.
    { unfold images. rewrite Hcap, flat_map_app. reflexivity. }
    eapply ended_at_request with (tr := trace w ++ evs); try eassumption.
    + now rewrite Ht, app_assoc.
    + rewrite posts_app, Hpe, app_nil_r. assumption.
    + rewrite posts_app, Hpe, app_nil_r, Hs, length_app. cbn. lia.
    + rewrite Hcap, Hi, map_app, tape_captures0. reflexivity.
    + rewrite Hi, Hs, !length_app. cbn. lia.
    + rewrite Hi, Hs, map_app. cbn.
      destruct (images (trace w)) as [|i0 imgs]; [discriminate|].
      cbn. rewrite map_app. cbn. f_equal. exact tape_images0.
    + rewrite Ht, !settle_delays_app, Hs, length_app, Hse. cbn. lia.
Qed.

(** What every cycle leaves alone, and by how much it can grow the
    history and the trace. *)
Lemma cycle_frame (w w' : Ctl) cc o :
  cycle env w cc o w' ->
  o <> OutOfFuel
  /\ same_setup (self w) (self w') /\ same_progress (self w) (self w')
  /\ grow 1 (trace w) (trace w')
  /\ (exists new,
        screenshots (state (self w')) = screenshots (state (self w)) ++ new
        /\ (length new <= 1)%nat
        /\ Forall (fun ob => step ob = iteration_count (state (self w))) new
        /\ (forall r, o = Ok r -> length new = 1%nat))
  /\ (forall r, o = Ok r -> single_call env -> fits r)
  /\ (exists evs, trace w' = trace w ++ evs).
Proof.
  intros Hc.
  assert (exists evs, trace w' = trace w ++ evs) as Hext.
  { inversion Hc; subst; eauto. }
  revert Hext. intros Hext.
  inversion Hc as [
      w0 evs url headers rq rp resp0 img Ht Hpost Hsucc Hjson
        Hpe Hce Hse Hcar Hack Hset Hprog Hs Hprev
    | w0 evs e0 Ht Hs Hq Hf
    | w0 evs e0 Ht Hs Hpe Hce Hse
    | w0 evs url headers rq r e0 img Ht Hfail Hpe Hce Hse Hcar Hack Hset Hprog Hs];
    subst.
  - split; [discriminate|]. split; [assumption|]. split; [assumption|].
    split.
    { unfold grow. rewrite Ht, !settle_delays_app, !posts_app, !captures_app,
        !length_app, Hpe, Hce, Hse. cbn. lia. }
    split.
    { eexists. split; [eassumption|]. cbn. repeat split; auto. }
    split; [|assumption].
    intros r [= <-] Hsc. eapply Hsc; eassumption.
  - split; [discriminate|]. rewrite Hs.
    split; [apply same_setup_refl|]. split; [repeat split|].
    split.
    { unfold grow. destruct Hq as (P & C & S).
      rewrite Ht, !settle_delays_app, !posts_app, !captures_app, !length_app,
        P, C, S. cbn. lia. }
    split; [|split; [discriminate | assumption]].
    exists []. rewrite app_nil_r. repeat split; auto; try discriminate.
  - split; [discriminate|]. rewrite Hs.
    split; [apply same_setup_refl|]. split; [repeat split|].
    split.
    { unfold grow.
      rewrite Ht, !settle_delays_app, !posts_app, !captures_app, !length_app,
        Hpe, Hce, Hse. cbn. lia. }
    split; [|split; [discriminate | assumption]].
    exists []. rewrite app_nil_r. repeat split; auto; try discriminate.
  - split; [discriminate|]. split; [assumption|]. split; [assumption|].
    split.
    { unfold grow. rewrite Ht, !settle_delays_app, !posts_app, !captures_app,
        !length_app, Hpe, Hce, Hse. cbn. lia. }
    split; [|split; [discriminate | assumption]].
    eexists. split; [eassumption|]. cbn. repeat split; auto; try discriminate.
Qed.

Lemma grow_trans n m tr1 tr2 tr3 :
  grow n tr1 tr2 -> grow m tr2 tr3 -> grow (n + m) tr1 tr3.
Proof. unfold grow. lia. Qed.

(** The [for] loop over the computer calls of a response. *)
Lemma for_computer_calls_spec headers calls : forall resp (w : Ctl),
  present (page (state (self w))) = true ->
  wp (for_computer_calls env headers calls resp) w (fun o w' =>
    same_setup (self w) (self w') /\ same_progress (self w) (self w')
    /\ grow (length calls) (trace w) (trace w')
    /\ (exists new,
          screenshots (state (self w')) = screenshots (state (self w)) ++ new
          /\ (length new <= length calls)%nat
          /\ Forall (fun ob => step ob = iteration_count (state (self w))) new
          /\ (forall r, o = Ok r -> length new = length calls))
    /\ (exists evs, trace w' = trace w ++ evs)
    /\ match o with
       | Ok resp' =>
           (tape env w -> tape env w')
           /\ (single_call env -> fits resp -> fits resp')
       | Raise e => tape env w -> ended env w' e
       | OutOfFuel => False
       end).
Proof.
  induction calls as [|cc calls IH]; intros resp w Hp; cbn [for_computer_calls].
  - apply wp_ret. split; [apply same_setup_refl|]. split; [repeat split|].
    split; [unfold grow; lia|]. split; [|split; [exists []; now rewrite app_nil_r | auto]].
    exists []. rewrite app_nil_r. repeat split; auto.
  - apply wp_bind. eapply wp_mono; [now apply process_computer_call_cycle|].
    intros o w1 Hc. destruct (cycle_frame _ _ _ _ Hc)
      as (Hne & Hset & Hprog & Hgrow & (new & Hnew & Hlen & Hstep & Hone) & Hfit
          & (evs1 & Hext1)).
    destruct o as [resp1|e|]; [| | congruence].
    + assert (present (page (state (self w1))) = true) as Hp1.
      { destruct Hset as (_ & _ & _ & _ & -> & _). assumption. }
      eapply wp_mono; [apply (IH resp1 w1 Hp1)|].
      intros o w2 (Hset2 & Hprog2 & Hgrow2 & (new2 & Hnew2 & Hlen2 & Hstep2 & Hall2)
                   & (evs2 & Hext2) & Hout).
      split; [eapply same_setup_trans; eassumption|].
      split; [eapply same_progress_trans; eassumption|].
      split; [apply (grow_trans 1 (length calls) _ _ _ Hgrow Hgrow2)|].
      split.
      { exists (new ++ new2). rewrite Hnew2, Hnew, <- app_assoc.
        split; [reflexivity|]. rewrite length_app. cbn [length].
        split; [lia|]. split.
        - apply Forall_app. split; [assumption|].
          destruct Hprog as (_ & <-). assumption.
        - intros r Hr. rewrite (Hall2 r Hr), (Hone resp1 eq_refl). reflexivity. }
      split; [exists (evs1 ++ evs2); now rewrite Hext2, Hext1, app_assoc|].
      destruct o as [resp2|e|]; [| | contradiction].
      * destruct Hout as (Ht2 & Hf2). split.
        -- intros Ht. apply Ht2. eapply cycle_done_tape; eassumption.
        -- intros Hsc _. apply Hf2; [assumption|]. now apply (Hfit resp1).
      * intros Ht. apply Hout. eapply cycle_done_tape; eassumption.
    + cbn. split; [assumption|]. split; [assumption|].
      split; [unfold grow in *; cbn [length]; lia|].
      split.
      { exists new. repeat split; auto; [cbn [length]; lia | discriminate]. }
      split; [now exists evs1|].
      intros Ht. eapply cycle_raise_ended; eassumption.
Qed.

Lemma numbered_snoc (w w' : Ctl) new :
  numbered w ->
  screenshots (state (self w')) = screenshots (state (self w)) ++ new ->
  (length new <= 1)%nat ->
  Forall (fun ob => step ob
                    = Z.of_nat (length (screenshots (state (self w)))) + 1) new ->
  numbered w'.
Proof.
  unfold numbered. intros Hn Hs Hl Hst. rewrite Hs, map_app, length_app, Hn.
  destruct new as [|ob [|ob' new]]; cbn in Hl; [| |lia].
  - cbn. now rewrite Nat.add_0_r, app_nil_r.
  - cbn [length map]. rewrite Nat.add_1_r, seq_S, map_app. cbn.
    inversion Hst as [|? ? Hob _]; subst. rewrite Hob. do 2 f_equal. lia.
Qed.

(** The [while] loop: what it leaves alone, where the iteration counter
    ends, what it keeps of the tape, and, when the service sends at most
    one computer call per response, how the history follows the counter. *)
Lemma while_loop_spec headers : forall fuel resp (w : Ctl),
  present (page (state (self w))) = true ->
  wp (while_loop env fuel headers resp) w (fun o w' =>
    let n := iteration_count (state (self w)) in
    let n' := iteration_count (state (self w')) in
    let N := max_iterations (config (self w)) in
    same_setup (self w) (self w') /\ n <= n' /\ n' <= Z.max n N
    /\ (exists evs, trace w' = trace w ++ evs)
    /\ (computer_calls_of resp = [] -> completed (state (self w)) = false ->
        n < N -> (0 < fuel)%nat ->
        o = Ok tt /\ completed (state (self w')) = true /\ n' = n + 1
        /\ untouched w w')
    /\ match o with
       | Ok _ => (tape env w -> tape env w')
                 /\ (completed (state (self w')) = true \/ N <= n')
       | Raise e => tape env w -> ended env w' e
       | OutOfFuel => (tape env w -> tape env w') /\ (fuel < Z.to_nat (N - n))%nat
       end
    /\ (single_call env -> fits resp -> bounded w -> exact w -> numbered w ->
        bounded w' /\ numbered w' /\ (forall u, o = Ok u -> exact w'))).
Proof.
  assert (forall (w : Ctl),
    negb (completed (state (self w)))
    && (iteration_count (state (self w)) <? max_iterations (config (self w))) = false ->
    completed (state (self w)) = true
    \/ max_iterations (config (self w)) <= iteration_count (state (self w))) as Hexit.
  { intros w H. apply andb_false_iff in H as [H|H].
    - left. now destruct (completed (state (self w))).
    - right. apply Z.ltb_ge in H. assumption. }
  induction fuel as [|fuel IH]; intros resp w Hp; cbn [while_loop];
    apply wp_bind, wp_get;
    destruct (negb (completed (state (self w)))
              && (iteration_count (state (self w))
                  <? max_iterations (config (self w)))) eqn:Hguard.
  - unfold out_of_fuel, wp. cbn.
    apply andb_true_iff in Hguard as [_ Hlt]. apply Z.ltb_lt in Hlt.
    split; [apply same_setup_refl|]. split; [lia|]. split; [lia|].
    split; [exists []; now rewrite app_nil_r|]. split; [lia|].
    split; [split; [auto | lia]|]. intros _ _ Hb He Hn.
    split; [assumption | split; [assumption | intros u Hu; discriminate Hu]].
  - apply wp_ret. split; [apply same_setup_refl|]. split; [lia|]. split; [lia|].
    split; [exists []; now rewrite app_nil_r|].
    split; [intros _ Hc Hlt _; destruct (Hexit w Hguard); [congruence | lia]|].
    split; [split; [auto | now apply Hexit]|]. intros _ _ Hb He Hn. auto.
  - apply andb_true_iff in Hguard as [Hnc Hlt]. apply Z.ltb_lt in Hlt.
    apply negb_true_iff in Hnc.
    apply wp_bind, wp_modify.
    set (w1 := mkWorld _ (trace w)).
    assert (untouched w w1) as Hu1 by (repeat split).
    assert (same_setup (self w) (self w1)) as Hset1 by (repeat split).
    assert (iteration_count (state (self w1)) = iteration_count (state (self w)) + 1)
      as Hn1 by reflexivity.
    assert (completed (state (self w1)) = false) as Hc1 by exact Hnc.
    assert (trace w1 = trace w) as Htr1 by reflexivity.
    clearbody w1.
    apply wp_bind. eapply wp_mono; [apply scan_output_spec|].
    intros o w2 [-> Hs2]. cbn [app].
    fold (computer_calls_of resp).
    pose proof (untouched_silent _ _ Hs2) as Hu2.
    destruct Hs2 as (Hself2 & evs2 & Hext2 & _). rewrite Htr1 in Hext2.
    pose proof (untouched_trans _ _ _ Hu1 Hu2) as Hu.
    assert (same_setup (self w) (self w2)) as Hset2 by (now rewrite Hself2).
    assert (iteration_count (state (self w2)) = iteration_count (state (self w)) + 1)
      as Hn2 by (now rewrite Hself2).
    assert (completed (state (self w2)) = false) as Hc2 by (now rewrite Hself2).
    clear Hu1 Hu2 Hset1 Hn1 Hc1 Hself2.
    destruct (bool_decide (computer_calls_of resp = [])) eqn:Hcalls.
    + (* no computer call: the task is complete *)
      apply wp_bind. eapply wp_mono; [apply send_log_silent|].
      intros o w3 [-> Hs3]. apply wp_modify.
      pose proof (untouched_silent _ _ Hs3) as Hu3.
      destruct Hs3 as (Hself3 & evs3 & Hext3 & _). cbn.
      assert (untouched w (mkWorld (with_state (set_completed true) (self w2)) (trace w3)))
        as Hu'.
      { apply (untouched_trans _ w2); [assumption|].
        apply (untouched_trans _ w3); [assumption|]. repeat split.
        cbn. now rewrite Hself3. }
      split.
      { rewrite Hself3. destruct Hset2 as (? & ? & ? & ? & ? & ? & ?).
        repeat split; assumption. }
      rewrite Hself3, Hn2. split; [lia|]. split; [lia|].
      split; [exists (evs2 ++ evs3); now rewrite Hext3, Hext2, app_assoc|].
      split; [intros _ _ _ _; repeat split; auto; apply Hu'|].
      split.
      { split; [|now left]. intros Ht.
        apply (tape_untouched w); assumption. }
      intros _ _ Hb He Hn.
      destruct Hu' as (Hs' & Hp' & Hc' & Hd').
      split; [|split].
      * unfold bounded in Hb |- *. cbn [self trace] in *. rewrite Hs', Hp', Hc', Hd'.
        cbn. rewrite Hn2. lia.
      * unfold numbered in Hn |- *. cbn [self trace] in *. now rewrite Hs'.
      * intros u _. unfold exact in He |- *. cbn [self trace] in *. rewrite Hs'. cbn.
        rewrite Hn2, He, Hnc. lia.
    + (* computer calls: process them, then go round again *)
      apply bool_decide_eq_false in Hcalls.
      assert (present (page (state (self w2))) = true) as Hp2.
      { destruct Hset2 as (_ & _ & _ & _ & -> & _). assumption. }
      apply wp_bind. eapply wp_mono; [apply (for_computer_calls_spec _ _ resp w2 Hp2)|].
      intros o w3 (Hset3 & Hprog3 & Hgrow3 & (new & Hnew & Hlen & Hstep & Hall)
                   & (evs3 & Hext3) & Hout).
      pose proof (same_setup_trans _ _ _ Hset2 Hset3) as Hset.
      assert (iteration_count (state (self w3)) = iteration_count (state (self w)) + 1)
        as Hn3.
      { destruct Hprog3 as (_ & ->). assumption. }
      assert (single_call env -> fits resp -> bounded w -> exact w -> numbered w ->
              bounded w3 /\ numbered w3
              /\ (forall r, o = Ok r -> exact w3)) as Hsingle.
      { intros Hsc Hfit Hb He Hn.
        destruct Hu as (Hs' & Hp' & Hc' & Hd').
        unfold fits in Hfit.
        assert (length (computer_calls_of resp) = 1%nat) as Hone.
        { destruct (computer_calls_of resp); [contradiction | cbn in *; lia]. }
        rewrite Hone in *.
        unfold exact in He. rewrite Hnc in He.
        split; [|split].
        - destruct Hb as (B1 & B2 & B3 & B4). destruct Hgrow3 as (G1 & G2 & G3).
          rewrite Hd' in G1. rewrite Hp' in G2. rewrite Hc' in G3.
          unfold bounded. rewrite Hnew, length_app, Hn3, Hs'. lia.
        - apply (numbered_snoc w w3 new); auto.
          + now rewrite Hnew, Hs'.
          + eapply Forall_impl; [eassumption|]. cbn. intros ob ->.
            rewrite Hn2. lia.
        - intros r Hr. unfold exact. destruct Hprog3 as (-> & _).
          rewrite Hc2, Hnew, length_app, (Hall r Hr), Hn3, Hs'. lia. }
      destruct o as [resp3|e|]; [| | contradiction].
      * assert (present (page (state (self w3))) = true) as Hp3.
        { destruct Hset3 as (_ & _ & _ & _ & -> & _). assumption. }
        destruct Hout as (Ht3 & Hf3).
        eapply wp_mono; [apply (IH resp3 w3 Hp3)|].
        intros o w4 (Hset4 & Hle4 & Hmax4 & (evs4 & Hext4) & _ & Hout4 & Hsingle4).
        cbn zeta in *.
        assert (max_iterations (config (self w3)) = max_iterations (config (self w)))
          as HN.
        { destruct Hset as (_ & -> & _). reflexivity. }
        rewrite HN, Hn3 in *.
        split; [eapply same_setup_trans; eassumption|].
        split; [lia|]. split; [lia|].
        split; [exists (evs2 ++ evs3 ++ evs4);
                now rewrite Hext4, Hext3, Hext2, <- !app_assoc|].
        split; [intros Hnone; contradiction|].
        split.
        { assert (tape env w -> tape env w3) as Htape.
          { intros Ht. apply Ht3. eapply tape_untouched; eassumption. }
          destruct o as [u|e|].
          - destruct Hout4 as (Ht4 & Hd4). split; [auto | assumption].
          - auto.
          - destruct Hout4 as (Ht4 & Hd4). split; [auto | lia]. }
        intros Hsc Hfit Hb He Hn.
        destruct (Hsingle Hsc Hfit Hb He Hn) as (Hb3 & Hnum3 & He3).
        apply Hsingle4; auto.
        eapply He3. reflexivity.
      * cbn. rewrite Hn3. split; [assumption|]. split; [lia|]. split; [lia|].
        split; [exists (evs2 ++ evs3); now rewrite Hext3, Hext2, app_assoc|].
        split; [intros Hnone; contradiction|].
        split.
        { intros Ht. apply Hout. eapply tape_untouched; eassumption. }
        intros Hsc Hfit Hb He Hn.
        destruct (Hsingle Hsc Hfit Hb He Hn) as (Hb3 & Hnum3 & He3).
        split; [assumption | split; [assumption | intros u Hk; discriminate Hk]].
  - apply wp_ret. split; [apply same_setup_refl|]. split; [lia|]. split; [lia|].
    split; [exists []; now rewrite app_nil_r|].
    split; [intros _ Hc Hlt _; destruct (Hexit w Hguard); [congruence | lia]|].
    split; [split; [auto | now apply Hexit]|]. intros _ _ Hb He Hn. auto.
Qed.

End IntegrationLoop.

(** ** [run_task] of [cua_integration.py] as a whole *)

Section IntegrationRun.

Import Integration Loop.

Context (env : Env).

Local Abbreviation Ctl := (World OpenAICUA).

Lemma page_failure_failed e evs :
  page_failure e evs -> Exists (fun ev => failed ev = true) evs.
Proof. intros [op Hin]. apply List.Exists_exists. now exists (EvPage op (Some e)). Qed.

Lemma capture_failure_failed e evs :
  captures evs = [inl e] -> Exists (fun ev => failed ev = true) evs.
Proof.
  induction evs as [|ev evs IH]; [discriminate|].
  destruct ev as [| | |t q [e'|img]|]; cbn; intros H;
    first [ discriminate H
          | now apply Exists_cons_hd
          | apply Exists_cons_tl; now apply IH ].
Qed.


(** The [except] block. *)
Lemma run_task_except_spec e (w : Ctl) :
  run_task_except env e w
  = (Ok (failure_result (self w) e),
     mkWorld (with_state (set_error (Some (str_exn e))) (self w))
             (trace w ++ [failure_log env e])).
Proof. reflexivity. Qed.

(** The navigation to the initial URL. *)
Lemma navigate_calm (initial_url : option string) (w : Ctl) :
  wp (match initial_url with
      | Some url =>
          when (PyStr.truthy url)
            (page_do env (Goto url);;
             send_log ("Navigated to " +:+ url) "🌐" "agent")
      | None => ret tt
      end) w (calm w).
Proof.
  destruct initial_url as [url|]; [|apply ret_calm].
  apply when_calm, calm_bind; [apply page_do_calm | intros; apply send_log_calm].
Qed.

(** The [try] block, entered right after the first screenshot. *)
Lemma run_task_try_spec fuel task img (w0 w : Ctl) evs :
  present (page (state (self w0))) = true ->
  self w = self w0 -> trace w = trace w0 ++ evs ->
  posts evs = [] -> captures evs = [inr img] -> settle_delays evs = 0%nat ->
  wp (try_except
        (run_task_try env fuel
           [UserMessage task ("data:image/jpeg;base64," +:+ env_b64encode env img)])
        (run_task_except env)) w
     (fun o w' => run env fuel w0 o w' /\ immediate fuel w0 o w').
Proof.
  intros Hp Hself Htr Hpe Hce Hse.
  assert (start w0 -> screenshots (state (self w0)) = []
                      /\ completed (state (self w0)) = false
                      /\ iteration_count (state (self w0)) = 0
                      /\ posts (trace w) = [] /\ captures (trace w) = [inr img]
                      /\ settle_delays (trace w) = 0%nat) as Hstart.
  { intros (S1 & S2 & S3 & P & C & S).
    rewrite Htr, posts_app, captures_app, settle_delays_app, P, C, S, Hpe, Hce, Hse.
    repeat split; assumption. }
  apply wp_try_except. unfold run_task_try. apply wp_bind, wp_get.
  rewrite Hself.
  set (rq := {| req_model := _ |}). set (url := _ +:+ "/v1/responses").
  set (headers := headers_of (self w0)).
  assert (forall r e, post_failed env r e ->
            let o := Ok (failure_result (self w0) e) in
            let w' := mkWorld (with_state (set_error (Some (str_exn e))) (self w0))
                 ((trace w ++ [EvPost url headers rq r]) ++ [failure_log env e]) in
            run env fuel w0 o w' /\ immediate fuel w0 o w')
    as Hfailed.
  { intros r e Hf. cbn zeta. split.
    2:{ intros rq' rp' resp' Hst Hhead Hs' Hj' _ _ _. exfalso.
        destruct (Hstart Hst) as (S1 & S2 & S3 & P & C & S).
        cbn [trace] in Hhead. rewrite !posts_app, P in Hhead. cbn in Hhead.
        injection Hhead as <- ->.
        eapply post_failed_not_ok; [eassumption|]. exists rp'. eauto. }
    eapply run_failed with (w1 := mkWorld (self w0) (trace w ++ [EvPost url headers rq r]));
      cbn [self trace]; try reflexivity; try apply same_setup_refl; try lia.
    - exists (evs ++ [EvPost url headers rq r]). now rewrite Htr, app_assoc.
    - intros Hst. destruct (Hstart Hst) as (S1 & S2 & S3 & P & C & S).
      eapply ended_at_request with (tr := trace w); cbn [self trace];
        rewrite ?S1; try reflexivity; try eassumption.
      + rewrite P. constructor.
      + now rewrite P.
      + unfold images. rewrite captures_app, C. reflexivity.
      + unfold images. rewrite captures_app, C. reflexivity.
      + unfold images. rewrite captures_app, C. reflexivity.
      + rewrite settle_delays_app, S. reflexivity.
    - intros Hst _. destruct (Hstart Hst) as (S1 & S2 & S3 & P & C & S).
      unfold bounded, numbered. cbn [self trace].
      rewrite S1, S3, posts_app, captures_app, settle_delays_app, P, C, S. cbn.
      repeat split; lia. }
  apply wp_bind. unfold wp at 1, post. cbn [fst snd self trace].
  destruct (env_post env (trace w) url headers rq) as [e|rp] eqn:Epost.
  { (* the transport raised *)
    unfold wp. rewrite run_task_except_spec. cbn [fst snd self trace].
    rewrite Hself. apply Hfailed. constructor. }
  cbn [fst snd]. apply wp_bind. unfold raise_for_status.
  destruct (is_success rp) eqn:Hsucc.
  2:{ (* the status is not 2xx *)
      unfold wp. cbn [raise fst snd]. rewrite run_task_except_spec.
      cbn [fst snd self trace]. rewrite Hself. apply Hfailed. now constructor. }
  apply wp_ret. apply wp_bind. unfold reply_decode.
  destruct (reply_json rp) as [e|resp] eqn:Hjson.
  { (* the body does not decode *)
    unfold wp. cbn [raise fst snd]. rewrite run_task_except_spec.
    cbn [fst snd self trace]. rewrite Hself. apply Hfailed. now apply decode_error. }
  apply wp_ret. apply wp_bind, wp_modify. cbn [self trace].
  set (w5 := mkWorld _ _).
  assert (same_setup (self w0) (self w5)) as Hset5.
  { subst w5. cbn. rewrite Hself. repeat split. }
  assert (present (page (state (self w5))) = true) as Hp5.
  { destruct Hset5 as (_ & _ & _ & _ & -> & _). assumption. }
  assert (iteration_count (state (self w5)) = iteration_count (state (self w0))) as Hn5.
  { subst w5. cbn. now rewrite Hself. }
  assert (max_iterations (config (self w5)) = max_iterations (config (self w0))) as HN5.
  { destruct Hset5 as (_ & -> & _). reflexivity. }
  assert (start w0 -> tape env w5) as Htape5.
  { intros Hst. destruct (Hstart Hst) as (S1 & S2 & S3 & P & C & S).
    assert (screenshots (state (self w5)) = []) as Hs5.
    { subst w5. cbn. now rewrite Hself. }
    assert (posts (trace w5) = [(rq, inr rp)]) as Hp5'.
    { subst w5. cbn [trace]. rewrite posts_app, P. reflexivity. }
    assert (captures (trace w5) = [inr img]) as Hc5.
    { subst w5. cbn [trace]. rewrite captures_app, C. reflexivity. }
    assert (images (trace w5) = [img]) as Hi5.
    { unfold images. now rewrite Hc5. }
    constructor; rewrite ?Hs5, ?Hp5', ?Hc5, ?Hi5; try reflexivity.
    - constructor; [|constructor]. exists resp, rp. auto.
    - constructor; [|constructor]. reflexivity.
    - subst w5. cbn [trace]. rewrite settle_delays_app, S. reflexivity. }
  assert (start w0 -> single_call env ->
          fits resp /\ bounded w5 /\ exact w5 /\ numbered w5) as Hsingle5.
  { intros Hst Hsc. destruct (Hstart Hst) as (S1 & S2 & S3 & P & C & S).
    split; [eapply Hsc; eassumption|].
    unfold bounded, exact, numbered. subst w5. cbn [self trace].
    rewrite Hself. cbn.
    rewrite S1, S2, S3, posts_app, captures_app, settle_delays_app, P, C, S. cbn.
    repeat split; lia. }
  assert (exists evs5, trace w5 = trace w0 ++ evs5) as (evs5 & Hext5).
  { subst w5. cbn [trace]. rewrite Htr, <- app_assoc. eauto. }
  assert (start w0 -> posts (trace w5) = [(rq, inr rp)]
                      /\ screenshots (state (self w5)) = []
                      /\ completed (state (self w5)) = false
                      /\ settle_delays (trace w5) = 0%nat) as Hstart5.
  { intros Hst. destruct (Hstart Hst) as (S1 & S2 & S3 & P & C & S).
    subst w5. cbn [self trace]. rewrite Hself, posts_app, settle_delays_app, P, S.
    cbn. auto. }
  clearbody w5.
  apply wp_bind.
  eapply wp_mono; [apply (while_loop_spec env headers fuel resp w5 Hp5)|].
  intros o w6 Hpost. cbn zeta in Hpost. rewrite Hn5, HN5 in Hpost.
  destruct Hpost as (Hset6 & Hle6 & Hmax6 & (evs6 & Hext6) & Hnone6 & Hout6 & Hsingle6).
  pose proof (same_setup_trans _ _ _ Hset5 Hset6) as Hset.
  assert (forall tail rq' rp' resp',
    start w0 ->
    head (posts (trace w6 ++ tail)) = Some (rq', inr rp') ->
    reply_json rp' = inr resp' -> computer_calls_of resp' = [] ->
    0 < max_iterations (config (self w0)) -> (0 < fuel)%nat ->
    rq' = rq /\ rp' = rp
    /\ o = Ok tt /\ completed (state (self w6)) = true
    /\ iteration_count (state (self w6)) = 1
    /\ screenshots (state (self w6)) = []
    /\ posts (trace w6) = [(rq, inr rp)]
    /\ settle_delays (trace w6) = 0%nat) as Himm.
  { intros tail rq' rp' resp' Hst Hhead Hj' Hnocall HN Hfuel.
    destruct (Hstart5 Hst) as (P5 & S5 & C5 & D5).
    destruct Hst as (_ & _ & S3 & _).
    rewrite Hext6, !posts_app, P5 in Hhead. cbn in Hhead.
    injection Hhead as <- <-.
    assert (resp' = resp) as -> by congruence.
    destruct Hnone6 as (-> & Hc6 & Hn6 & (U1 & U2 & U3 & U4)); try assumption; [lia|].
    rewrite U1, U2, U4. repeat split; auto. lia. }
  destruct o as [[]|e|].
  - (* the loop was left: the [return] of the [try] block *)
    apply wp_bind, wp_get. apply wp_ret.
    destruct Hout6 as (Ht6 & Hdone6).
    split.
    2:{ intros rq' rp' resp' Hst Hhead Hs' Hj' Hnocall HN Hfuel.
        destruct (Himm [] rq' rp' resp') as (-> & -> & _ & I1 & I2 & I3 & I4 & I5);
          try assumption; [now rewrite app_nil_r|].
        destruct Hset as (_ & _ & _ & _ & _ & _ & Herr).
        repeat split; auto. }
    apply run_returned; auto.
    { exists (evs5 ++ evs6). now rewrite Hext6, Hext5, app_assoc. }
    intros Hst Hsc. destruct (Hsingle5 Hst Hsc) as (F & B & E & Nm).
    destruct (Hsingle6 Hsc F B E Nm) as (B6 & N6 & E6).
    split; [assumption | split; [assumption | now apply (E6 tt)]].
  - (* an exception inside the loop *)
    unfold wp. rewrite run_task_except_spec. cbn [fst snd].
    split.
    2:{ intros rq' rp' resp' Hst Hhead Hs' Hj' Hnocall HN Hfuel. exfalso.
        cbn [trace] in Hhead.
        destruct (Himm _ rq' rp' resp' Hst Hhead Hj' Hnocall HN Hfuel)
          as (_ & _ & Hk & _). discriminate Hk. }
    eapply run_failed with (w1 := w6); try reflexivity; auto.
    { exists (evs5 ++ evs6). now rewrite Hext6, Hext5, app_assoc. }
    intros Hst Hsc. destruct (Hsingle5 Hst Hsc) as (F & B & E & Nm).
    destruct (Hsingle6 Hsc F B E Nm) as (B6 & N6 & E6). now split.
  - destruct Hout6 as (Ht6 & Hfuel6).
    split.
    2:{ intros rq' rp' resp' Hst Hhead Hs' Hj' Hnocall HN Hfuel. exfalso.
        destruct (Himm [] rq' rp' resp') as (_ & _ & Hk & _);
          try assumption; [now rewrite app_nil_r | discriminate Hk]. }
    apply run_out_of_fuel; auto.
    { exists (evs5 ++ evs6). now rewrite Hext6, Hext5, app_assoc. }
    intros Hst Hsc. destruct (Hsingle5 Hst Hsc) as (F & B & E & Nm).
    destruct (Hsingle6 Hsc F B E Nm) as (B6 & N6 & E6). now split.
Qed.

(** [run_task] on an initialized page ends in one of the four ways of
    [run]. *)
Theorem run_task_run fuel task initial_url (w : Ctl) :
  present (page (state (self w))) = true ->
  wp (run_task env fuel task initial_url) w
     (fun o w' => run env fuel w o w' /\ immediate fuel w o w').
Proof.
  intros Hp.
  assert (forall e (w' : Ctl) evs,
    trace w' = trace w ++ evs -> posts evs = [] ->
    immediate fuel w (Raise e) w') as Hraised.
  { intros e w' evs Ht Hpe rq rp resp (_ & _ & _ & P & _) Hhead. exfalso.
    rewrite Ht, posts_app, P, Hpe in Hhead. discriminate Hhead. }
  unfold run_task. apply wp_bind, wp_get. rewrite Hp. cbn [negb].
  apply wp_bind. eapply wp_mono; [apply navigate_calm|].
  intros o w1 (Hne & Hself1 & evs1 & Htr1 & Hq1 & Hf1).
  destruct o as [[]|e|]; [| | congruence].
  2:{ destruct Hq1 as (P1 & C1 & S1).
      split; [|now apply (Hraised e w1 evs1)].
      eapply run_raised with (evs := evs1); try eassumption.
      - rewrite C1. cbn. lia.
      - apply (page_failure_failed e). now apply Hf1. }
  apply wp_bind. eapply wp_mono.
  { apply capture_screenshot_spec. now rewrite Hself1. }
  intros o w2 (Hself2 & evs2 & Htr2 & Hp2 & Hs2 & Hc2).
  destruct Hq1 as (P1 & C1 & S1).
  destruct o as [s|e|]; [| | contradiction].
  2:{ assert (trace w2 = trace w ++ evs1 ++ evs2) as Ht
        by (now rewrite Htr2, Htr1, app_assoc).
      assert (posts (evs1 ++ evs2) = []) as Hpe
        by (now rewrite posts_app, P1, Hp2).
      split; [|now apply (Hraised e w2 (evs1 ++ evs2))].
      eapply run_raised with (evs := evs1 ++ evs2); try assumption.
      - congruence.
      - now rewrite settle_delays_app, S1, Hs2.
      - rewrite captures_app, C1, Hc2. cbn. lia.
      - apply Exists_app. right. eapply capture_failure_failed; eassumption. }
  destruct Hc2 as (img & -> & Hc2).
  apply wp_bind, wp_emit.
  eapply run_task_try_spec with (evs := evs1 ++ evs2 ++ [_]); cbn [self trace];
    try assumption.
  - congruence.
  - rewrite Htr2, Htr1. now rewrite <- !app_assoc.
  - now rewrite !posts_app, P1, Hp2.
  - now rewrite !captures_app, C1, Hc2.
  - now rewrite !settle_delays_app, S1, Hs2.
Qed.

End IntegrationRun.

(** ** The claims about [cua_integration.run_task] *)

Section IntegrationClaims.

Import Integration Loop.

Context (env : Env).

Local Abbreviation Ctl := (World OpenAICUA).

Lemma run_task_cases fuel task initial_url (w : Ctl) o w' :
  present (page (state (self w))) = true ->
  run_task env fuel task initial_url w = (o, w') ->
  run env fuel w o w' /\ immediate fuel w o w'.
Proof. intros Hp E. exact (wp_run _ _ _ _ _ (run_task_run env fuel task initial_url w Hp) E). Qed.

Lemma fresh_start c : fresh c -> start (mkWorld c []).
Proof. intros (_ & _ & S & C & _ & N). repeat split; assumption. Qed.

Lemma fresh_page c : fresh c -> present (page (state (self (mkWorld c [])))) = true.
Proof. now intros (P & _). Qed.



(** C1 (amended).  On a newly initialized controller with
    [max_iterations = N >= 0], the [iterations] field of the returned
    result never exceeds [N], and the loop of the model needs no more than
    [N] iterations.  When moreover every response of the reasoning service
    carries at most one [computer_call] item, the run performs at most [N]
    action/observe/request cycles: at most [N] settle delays, [N] requests
    and [N] screenshots after those that precede the loop, and [N] history
    entries. *)
Theorem C1_cycles_bounded_by_max_iterations c fuel task initial_url o w' :
  fresh c ->
  0 <= max_iterations (config c) ->
  (Z.to_nat (max_iterations (config c)) <= fuel)%nat ->
  run_task env fuel task initial_url (mkWorld c []) = (o, w') ->
  o <> OutOfFuel
  /\ (forall r, o = Ok r -> r_iterations r <= max_iterations (config c))
  /\ (single_call env ->
      Z.of_nat (settle_delays (trace w')) <= max_iterations (config c)
      /\ Z.of_nat (length (posts (trace w'))) <= max_iterations (config c) + 1
      /\ Z.of_nat (length (captures (trace w'))) <= max_iterations (config c) + 1
      /\ forall r, o = Ok r ->
           Z.of_nat (length (r_screenshots r)) <= max_iterations (config c)).
Proof.
  intros Hfresh HN Hfuel Hrun.
  pose proof (fresh_start c Hfresh) as Hst.
  destruct (run_task_cases _ _ _ _ _ _ (fresh_page c Hfresh) Hrun) as (Hr & _).
  destruct Hfresh as (_ & _ & _ & _ & _ & Hn0). cbn [self trace] in *.
  inversion Hr as [e w1 evs Ht Hs Hp Hd Hc Hf
                  | w1 Hext Hset Hle Hmax Hdone Htape Hsingle
                  | e w1 w2 Ht Hext Hs Hset Hle Hmax Hended Hsingle
                  | w1 Hext Hlt Htape Hsingle]; subst; cbn [self trace app] in *.
  - split; [discriminate|]. split; [discriminate|]. intros _.
    rewrite Ht. cbn [app]. rewrite Hp, Hd. cbn.
    repeat split; try lia. discriminate.
  - rewrite Hn0 in *. split; [discriminate|]. split.
    + intros r [= <-]. cbn. lia.
    + intros Hsc. destruct (Hsingle Hst Hsc) as ((B1 & B2 & B3 & B4) & _ & _).
      repeat split; try lia. intros r [= <-]. cbn. lia.
  - rewrite Hn0 in *. split; [discriminate|]. split.
    + intros r [= <-]. cbn. lia.
    + intros Hsc. destruct (Hsingle Hst Hsc) as ((B1 & B2 & B3 & B4) & _).
      rewrite Ht, settle_delays_app, posts_app, captures_app, !length_app. cbn.
      repeat split; try lia. intros r [= <-]. cbn. lia.
  - rewrite Hn0 in Hlt. exfalso. rewrite Z.sub_0_r in Hlt. lia.
Qed.

(** C2 (amended).  On a newly initialized controller, when every response
    carries at most one [computer_call] item: every computer call that is
    processed to its end appends exactly one entry, made of the current
    iteration number, the screenshot taken after the action and the
    action; the history of the returned result holds the screenshots taken
    after the initial one, in the order in which they were taken, numbered
    1, 2, ..; its length never exceeds the number of iterations, it is
    one less than that number when the task completed, and equal to it
    when the loop stopped at the iteration cap. *)
Theorem C2_history_follows_cycles c fuel task initial_url r w' :
  fresh c -> single_call env ->
  run_task env fuel task initial_url (mkWorld c []) = (Ok r, w') ->
  (forall headers cc (w1 w2 : Ctl) resp,
      present (page (state (self w1))) = true ->
      process_computer_call env headers cc w1 = (Ok resp, w2) ->
      exists image,
        screenshots (state (self w2))
        = screenshots (state (self w1))
          ++ [{| step := iteration_count (state (self w1));
                 screenshot := image; action := item_action cc |}])
  /\ map screenshot (r_screenshots r)
     = map (env_b64encode env) (tail (images (trace w')))
  /\ map step (r_screenshots r)
     = map Z.of_nat (seq 1 (length (r_screenshots r)))
  /\ Z.of_nat (length (r_screenshots r)) <= r_iterations r
  /\ (r_completed r = true ->
      Z.of_nat (length (r_screenshots r)) = r_iterations r - 1)
  /\ (r_completed r = false -> r_error r = None ->
      Z.of_nat (length (r_screenshots r)) = r_iterations r).
Proof.
  intros Hfresh Hsc Hrun. split.
  { intros headers cc w1 w2 resp Hp1 E.
    pose proof (wp_run _ _ _ _ _ (process_computer_call_cycle env headers cc w1 Hp1) E)
      as Hc.
    inversion Hc; subst. eexists. eassumption. }
  pose proof (fresh_start c Hfresh) as Hst.
  destruct (run_task_cases _ _ _ _ _ _ (fresh_page c Hfresh) Hrun) as (Hr & _).
  inversion Hr as [
                  | w1 Hext Hset Hle Hmax Hdone Htape Hsingle
                  | e w1 w2 Ht Hext Hs Hset Hle Hmax Hended Hsingle
                  | ]; subst; cbn [self trace app] in *.
  - destruct (Hsingle Hst Hsc) as ((B1 & B2 & B3 & B4) & Hnum & Hex).
    destruct (Htape Hst) as [_ _ _ _ _ Himg _ _].
    unfold exact in Hex. cbn.
    split; [assumption|]. split; [assumption|]. split; [assumption|].
    split; intros Hc; rewrite Hc in Hex; auto.
  - destruct (Hsingle Hst Hsc) as ((B1 & B2 & B3 & B4) & Hnum).
    cbn. split.
    { rewrite Ht. unfold images. rewrite captures_app. cbn. rewrite app_nil_r.
      fold (images (trace w1)).
      destruct (Hended Hst) as [e' Htape Hf | e' tr evs Htr Htape _ Hc _
                               | e' tr url headers rq r' Htr Hf _ _ _ _ Himg _].
      - now destruct Htape.
      - destruct Htape as [_ _ _ _ _ Himg _ _]. cbn [self trace] in Himg.
        rewrite Htr. unfold images. rewrite captures_app, Hc, flat_map_app. cbn.
        now rewrite app_nil_r.
      - assumption. }
    split; [assumption|]. split; [assumption|].
    split; [discriminate|]. intros _ [=].
Qed.

(** C3.  On a newly initialized controller, when the reasoning service
    answers the [k]-th request of the run with a status that is not 2xx,
    [run_task] returns a result with [completed = false], an [error] that
    holds the message of the status error, and a history of length [k-1];
    the failed request is the last interaction of the run but for the log
    entry of the failure, so that nothing is executed after it. *)
Theorem C3_non_2xx_status_is_fatal c fuel task initial_url o w' k rq rp :
  fresh c ->
  run_task env fuel task initial_url (mkWorld c []) = (o, w') ->
  (1 <= k)%nat ->
  posts (trace w') !! (k - 1)%nat = Some (rq, inr rp) ->
  is_success rp = false ->
  exists r,
    o = Ok r
    /\ r_completed r = false
    /\ r_error r = Some (env_status_error env rp)
    /\ length (r_screenshots r) = (k - 1)%nat
    /\ length (posts (trace w')) = k
    /\ exists tr url headers,
         trace w' = tr ++ [EvPost url headers rq (inr rp);
                           failure_log env (Exception (env_status_error env rp))].
Proof.
  intros Hfresh Hrun Hk Hkth Hbad.
  pose proof (fresh_start c Hfresh) as Hst.
  destruct (run_task_cases _ _ _ _ _ _ (fresh_page c Hfresh) Hrun) as (Hr & _).
  assert (forall l : list (Request * (exn + Reply)),
    Forall (fun p => exists resp, post_ok p.2 resp) l ->
    l !! (k - 1)%nat = Some (rq, inr rp) -> False) as Hok.
  { intros l Hall Hl. pose proof (Forall_lookup_1 _ _ _ _ Hall Hl) as (resp & rp' & E & S & _).
    cbn in E. injection E as <-. congruence. }
  inversion Hr as [e w1 evs Ht Hs Hp Hd Hc Hf
                  | w1 Hext Hset Hle Hmax Hdone Htape Hsingle
                  | e w1 w2 Ht Hext Hs Hset Hle Hmax Hended Hsingle
                  | w1 Hext Hlt Htape Hsingle]; subst; cbn [self trace app] in *.
  - exfalso. cbn [trace app] in Ht. rewrite Ht, Hp in Hkth. discriminate Hkth.
  - exfalso. destruct (Htape Hst) as [_ Hall _ _ _ _ _ _]. eauto.
  - assert (posts (trace w') = posts (trace w1)) as Hposts.
    { rewrite Ht, posts_app. cbn. now rewrite app_nil_r. }
    rewrite Hposts in *.
    destruct (Hended Hst) as [e' Htape Hf | e' tr evs Htr Htape Hp _ _
                             | e' tr url headers rq' r' Htr Hf Hall Hlen _ _ _ _].
    + exfalso. destruct Htape as [_ Hall _ _ _ _ _ _]. eauto.
    + exfalso. destruct Htape as [_ Hall _ _ _ _ _ _]. cbn [self trace] in Hall.
      rewrite Htr, posts_app, Hp, app_nil_r in Hkth. eauto.
    + rewrite Htr, posts_app in Hkth |- *. cbn in Hkth |- *.
      destruct (Nat.lt_ge_cases (k - 1) (length (posts tr))) as [Hlt|Hge].
      { exfalso. rewrite lookup_app_l in Hkth by assumption. eauto. }
      rewrite lookup_app_r in Hkth by assumption.
      destruct (k - 1 - length (posts tr))%nat as [|j] eqn:Hj; [|discriminate Hkth].
      cbn in Hkth. injection Hkth as -> ->.
      inversion Hf as [|rp' Hs'|rp' e'' Hs' Hj']; subst; [|congruence].
      eexists. split; [reflexivity|]. cbn.
      split; [reflexivity|]. split; [reflexivity|].
      split; [lia|]. split; [rewrite length_app; cbn; lia|].
      exists tr, url, headers. rewrite Ht, Htr, <- app_assoc. reflexivity.
  - exfalso. destruct (Htape Hst) as [_ Hall _ _ _ _ _ _]. eauto.
Qed.

(** C4 (amended).  On a newly initialized controller with
    [max_iterations >= 1], when the first response of the reasoning service
    carries no [computer_call] item, the loop ends in its first iteration:
    the result has [completed = true], an empty history and no error, no
    action cycle was run, and no further request was sent. *)
Theorem C4_first_response_without_computer_call c fuel task initial_url
    o w' rq rp resp :
  fresh c ->
  1 <= max_iterations (config c) -> (1 <= fuel)%nat ->
  run_task env fuel task initial_url (mkWorld c []) = (o, w') ->
  head (posts (trace w')) = Some (rq, inr rp) ->
  is_success rp = true -> reply_json rp = inr resp ->
  computer_calls_of resp = [] ->
  exists r,
    o = Ok r
    /\ r_completed r = true
    /\ r_screenshots r = []
    /\ r_iterations r = 1
    /\ r_error r = None
    /\ r_result r = "Task completed successfully"
    /\ posts (trace w') = [(rq, inr rp)]
    /\ settle_delays (trace w') = 0%nat.
Proof.
  intros Hfresh HN Hfuel Hrun Hhead Hs Hj Hnone.
  pose proof (fresh_start c Hfresh) as Hst.
  destruct (run_task_cases _ _ _ _ _ _ (fresh_page c Hfresh) Hrun) as (_ & Himm).
  destruct (Himm rq rp resp Hst Hhead Hs Hj Hnone) as (-> & Hc & Hn & Hsh & He & Hp & Hd);
    cbn [self]; [lia | lia |].
  destruct Hfresh as (_ & _ & _ & _ & Herr & _). cbn [self] in He.
  eexists. split; [reflexivity|]. cbn. rewrite Hc, Hn, Hsh, He, Herr. auto 10.
Qed.



End IntegrationClaims.

(** ** The executor of [cua_integration.py], action by action *)

Section IntegrationExecutor.

Import Integration Loop.

Context (env : Env).

Local Abbreviation Ctl := (World OpenAICUA).





(** C10.  [execute_action] reads every parameter of an action with a
    default, so that a missing parameter is never an error: a click goes
    to [(x, y)] with [button], each [0], [0] and ["left"] when absent; a
    [type] action types [text], the empty string when absent; a scroll
    moves the pointer to [(x, y)] and scrolls by [(scrollX, scrollY)],
    each [0] when absent; a keypress without [keys] presses nothing.  The
    action raises only what the page raises. *)
Theorem C10_missing_parameters_take_defaults a (w : Ctl) :
  present (page (state (self w))) = true ->
  (action_type a = Some "click" ->
     let op := MouseClick (default 0 (action_x a)) (default 0 (action_y a))
                          (default "left" (action_button a)) in
     let raised := env_page env (trace w) op in
     (execute_action env a w).1 = outcome_of_call raised
     /\ page_calls (trace (execute_action env a w).2)
        = page_calls (trace w) ++ [(op, raised)])
  /\ (action_type a = Some "type" ->
     let op := KeyboardType (default "" (action_text a)) in
     let raised := env_page env (trace w) op in
     (execute_action env a w).1 = outcome_of_call raised
     /\ page_calls (trace (execute_action env a w).2)
        = page_calls (trace w) ++ [(op, raised)])
  /\ (action_type a = Some "scroll" ->
     let move := MouseMove (default 0 (action_x a)) (default 0 (action_y a)) in
     let scroll :=
       Evaluate ("window.scrollBy(" +:+ PyStr.str_int (default 0 (action_scrollX a))
                 +:+ ", " +:+ PyStr.str_int (default 0 (action_scrollY a)) +:+ ")") in
     let moved := env_page env (trace w) move in
     let scrolled := env_page env (trace w ++ [EvPage move None]) scroll in
     match moved with
     | Some e =>
         (execute_action env a w).1 = Raise e
         /\ page_calls (trace (execute_action env a w).2)
            = page_calls (trace w) ++ [(move, moved)]
     | None =>
         (execute_action env a w).1 = outcome_of_call scrolled
         /\ page_calls (trace (execute_action env a w).2)
            = page_calls (trace w) ++ [(move, None); (scroll, scrolled)]
     end)
  /\ (action_type a = Some "keypress" -> action_keys a = None ->
     (execute_action env a w).1 = Ok tt
     /\ page_calls (trace (execute_action env a w).2) = page_calls (trace w)).
Proof.
  intros Hp.
  assert (execute_action env a w
          = try_except (dispatch_action env a) (fun e =>
                send_log ("Failed to execute " +:+ PyStr.str_opt (action_type a)
                          +:+ " action: " +:+ str_exn e) "❌" "status";;
                raise e) w) as ->.
  { unfold execute_action, bind at 1, get. cbn [self fst snd]. now rewrite Hp. }
  unfold dispatch_action.
  split; [|split; [|split]]; intros Ht; rewrite Ht; decide_types; cbn zeta.
  - unfold try_except, bind, page_do, send_log, emit, raise. cbn [fst snd self trace].
    destruct (env_page env (trace w) _) as [e|]; cbn;
      rewrite ?page_calls_app; cbn; now rewrite ?app_nil_r.
  - unfold try_except, bind, page_do, send_log, emit, raise. cbn [fst snd self trace].
    destruct (env_page env (trace w) _) as [e|]; cbn;
      rewrite ?page_calls_app; cbn; now rewrite ?app_nil_r.
  - unfold try_except, bind, page_do, send_log, emit, raise. cbn [fst snd self trace].
    destruct (env_page env (trace w) _) as [e|]; cbn [fst snd self trace].
    + rewrite ?page_calls_app; cbn. now rewrite ?app_nil_r.
    + destruct (env_page env (trace w ++ _) _) as [e|]; cbn;
        rewrite ?page_calls_app; cbn; now rewrite <- ?app_assoc, ?app_nil_r.
  - intros Hk. rewrite Hk. cbn. now rewrite page_calls_app, app_nil_r.
Qed.

(** After a navigation that succeeds, [run_task] goes on as it does
    without an initial URL. *)
Lemma run_task_after_navigation fuel task url (w : Ctl) :
  present (page (state (self w))) = true ->
  PyStr.truthy url = true ->
  env_page env (trace w) (Goto url) = None ->
  run_task env fuel task (Some url) w
  = run_task env fuel task None
      (mkWorld (self w)
         ((trace w ++ [EvPage (Goto url) None])
          ++ [EvLog ("Navigated to " +:+ url) "🌐" "agent"])).
Proof.
  intros Hp Hu Hnav. unfold run_task.
  unfold bind at 1, get. cbn [fst snd self]. rewrite Hp, Hu. cbn [negb when].
  unfold bind at 1, bind at 1, page_do. cbn [fst snd self trace]. rewrite Hnav.
  unfold send_log, emit at 1. cbn [fst snd self trace].
  symmetry. unfold bind at 1, get. cbn [fst snd self]. rewrite Hp. cbn [negb].
  unfold bind at 1, ret at 1. reflexivity.
Qed.

(** C5 (amended).  With a non-empty [initial_url], [run_task] navigates
    the page there before anything else, so before the first screenshot.
    A navigation that fails is fatal: the exception of the page leaves
    [run_task] at once, with no log entry, no screenshot, no request and no
    result dictionary. *)
Theorem C5_navigation_comes_first_and_its_failure_is_fatal
    fuel task url (w : Ctl) :
  present (page (state (self w))) = true ->
  PyStr.truthy url = true ->
  (exists rest,
      trace (run_task env fuel task (Some url) w).2
      = trace w ++ EvPage (Goto url) (env_page env (trace w) (Goto url)) :: rest)
  /\ (forall e,
      env_page env (trace w) (Goto url) = Some e ->
      run_task env fuel task (Some url) w
      = (Raise e, mkWorld (self w) (trace w ++ [EvPage (Goto url) (Some e)]))).
Proof.
  intros Hp Hu.
  assert (forall e, env_page env (trace w) (Goto url) = Some e ->
    run_task env fuel task (Some url) w
    = (Raise e, mkWorld (self w) (trace w ++ [EvPage (Goto url) (Some e)]))) as Hfail.
  { intros e He. unfold run_task, bind at 1, get. cbn [fst snd self].
    rewrite Hp, Hu. cbn [negb when].
    unfold bind at 1, bind at 1, page_do. cbn [fst snd self trace]. now rewrite He. }
  split; [|exact Hfail].
  destruct (env_page env (trace w) (Goto url)) as [e|] eqn:Enav.
  { rewrite (Hfail e eq_refl). now exists []. }
  rewrite (run_task_after_navigation fuel task url w Hp Hu Enav).
  match goal with |- context [run_task env fuel task None ?w0] =>
    destruct (run_task env fuel task None w0) as [o w'] eqn:E;
    destruct (run_task_cases env _ _ _ w0 _ _ Hp E) as (Hr & _)
  end.
  cbn [snd].
  inversion Hr as [e w1 evs Ht
                  | w1 (evs & Ht)
                  | e w1 w2 Ht (evs & Ht1)
                  | w1 (evs & Ht)]; subst; cbn [self trace] in *;
    rewrite ?Ht, ?Ht1, <- ?app_assoc; cbn; eauto.
Qed.

End IntegrationExecutor.

(** ** The controllers on the scripted scenarios *)

Lemma scripted_single_call replies fallback :
  forallb Script.one_call replies = true ->
  Script.one_call fallback = true ->
  single_call (Script.env replies fallback).
Proof.
  intros Hall Hfb tr url headers rq rp resp E J. cbn in E.
  assert (Script.one_call (inr rp) = true) as H.
  { rewrite <- E.
    destruct (nth_in_or_default (length (posts tr)) replies fallback) as [Hin| ->];
      [|assumption].
    rewrite forallb_forall in Hall. now apply Hall. }
  cbn in H. rewrite J in H. now apply Nat.leb_le.
Qed.

Lemma scripted_fresh n : Loop.fresh (Script.controller (Script.config n)).
Proof. repeat split. Qed.

Section Scenarios.

Import Integration Loop.

(** C1, counterexample.  With [max_iterations = 1] and a first response
    that carries two computer calls, the single iteration runs two
    action/observe/request cycles: two settle delays, two history entries
    and two requests after the initial one. *)
Lemma C1_counterexample :
  let run := run_task Script.two_calls 1 "task" None (Script.world 1) in
  max_iterations (config (self (Script.world 1))) = 1
  /\ settle_delays (trace run.2) = 2%nat
  /\ length (posts (trace run.2)) = 3%nat
  /\ (exists r, run.1 = Ok r /\ r_iterations r = 1
                /\ length (r_screenshots r) = 2%nat)
  /\ ~ (Z.of_nat (settle_delays (trace run.2))
        <= max_iterations (config (self (Script.world 1)))).
Proof.
  cbn zeta. split; [reflexivity|]. split; [vm_compute; reflexivity|].
  split; [vm_compute; reflexivity|]. split.
  - eexists. split; [vm_compute; reflexivity|]. split; reflexivity.
  - vm_compute. intros H. now apply H.
Qed.

Lemma C1_witness :
  let run := run_task Script.waiting 3 "wait" None (Script.world 3) in
  fresh (self (Script.world 3))
  /\ 0 <= 3 /\ (Z.to_nat 3 <= 3)%nat
  /\ run.1 <> OutOfFuel
  /\ (forall r, run.1 = Ok r -> r_iterations r <= 3)
  /\ (single_call Script.waiting ->
      Z.of_nat (settle_delays (trace run.2)) <= 3
      /\ Z.of_nat (length (posts (trace run.2))) <= 3 + 1
      /\ Z.of_nat (length (captures (trace run.2))) <= 3 + 1
      /\ forall r, run.1 = Ok r -> Z.of_nat (length (r_screenshots r)) <= 3).
Proof.
  cbn zeta. split; [apply scripted_fresh|]. split; [lia|]. split; [vm_compute; lia|].
  apply (C1_cycles_bounded_by_max_iterations Script.waiting
           (Script.controller (Script.config 3)) 3 "wait" None).
  - apply scripted_fresh.
  - cbn. lia.
  - vm_compute. lia.
  - apply surjective_pairing.
Defined.

(** C2, counterexample.  In the first scenario of the specification (one
    click, then a message) the run takes two iterations and records one
    history entry. *)
Lemma C2_counterexample :
  exists r w',
    run_task Script.login 30 "click the login button" None (Script.world 30)
    = (Ok r, w')
    /\ r_completed r = true
    /\ length (r_screenshots r) = 1%nat
    /\ r_iterations r = 2
    /\ Z.of_nat (length (r_screenshots r)) <> r_iterations r.
Proof.
  eexists _, _. split; [vm_compute; reflexivity|].
  repeat split. cbn. lia.
Qed.

Lemma C2_witness :
  exists r w',
    fresh (self (Script.world 30))
    /\ single_call Script.login
    /\ run_task Script.login 30 "click the login button" None (Script.world 30)
       = (Ok r, w')
    /\ map screenshot (r_screenshots r)
       = map (env_b64encode Script.login) (tail (images (trace w')))
    /\ map step (r_screenshots r)
       = map Z.of_nat (seq 1 (length (r_screenshots r)))
    /\ Z.of_nat (length (r_screenshots r)) <= r_iterations r
    /\ (r_completed r = true ->
        Z.of_nat (length (r_screenshots r)) = r_iterations r - 1).
Proof.
  assert (single_call Script.login) as Hsc
    by (apply scripted_single_call; reflexivity).
  eexists _, _. split; [apply scripted_fresh|]. split; [exact Hsc|].
  assert (forall r w',
    run_task Script.login 30 "click the login button" None (Script.world 30)
    = (Ok r, w') ->
    map screenshot (r_screenshots r)
       = map (env_b64encode Script.login) (tail (images (trace w')))
    /\ map step (r_screenshots r)
       = map Z.of_nat (seq 1 (length (r_screenshots r)))
    /\ Z.of_nat (length (r_screenshots r)) <= r_iterations r
    /\ (r_completed r = true ->
        Z.of_nat (length (r_screenshots r)) = r_iterations r - 1)) as H.
  { intros r w' E.
    destruct (C2_history_follows_cycles Script.login _ _ _ _ r w'
                (scripted_fresh 30) Hsc E) as (_ & H1 & H2 & H3 & H4 & _).
    auto. }
  split; [vm_compute; reflexivity|]. apply H. vm_compute. reflexivity.
Defined.

Lemma C3_witness :
  exists o w' rq rp,
    fresh (self (Script.world 30))
    /\ run_task Script.broken 30 "click the login button" None (Script.world 30)
       = (o, w')
    /\ (1 <= 2)%nat
    /\ posts (trace w') !! (2 - 1)%nat = Some (rq, inr rp)
    /\ is_success rp = false
    /\ exists r,
         o = Ok r /\ r_completed r = false
         /\ r_error r = Some (env_status_error Script.broken rp)
         /\ length (r_screenshots r) = (2 - 1)%nat
         /\ length (posts (trace w')) = 2%nat
         /\ exists tr url headers,
              trace w'
              = tr ++ [EvPost url headers rq (inr rp);
                       failure_log Script.broken
                         (Exception (env_status_error Script.broken rp))].
Proof.
  eexists _, _, _, _. split; [apply scripted_fresh|].
  split; [vm_compute; reflexivity|]. split; [lia|].
  split; [vm_compute; reflexivity|]. split; [reflexivity|].
  eapply (C3_non_2xx_status_is_fatal Script.broken
            (Script.controller (Script.config 30)) 30
            "click the login button" None) with (k := 2%nat);
    [apply scripted_fresh | vm_compute; reflexivity | lia
    | vm_compute; reflexivity | reflexivity].
Defined.

(** C4, counterexample.  With [max_iterations = 0] the loop is never
    entered: the first response carries no computer call, and the result
    has [completed = false]. *)
Lemma C4_counterexample :
  exists r w' rq rp resp,
    run_task Script.done_at_once 5 "task" None (Script.world 0) = (Ok r, w')
    /\ head (posts (trace w')) = Some (rq, inr rp)
    /\ is_success rp = true /\ reply_json rp = inr resp
    /\ computer_calls_of resp = []
    /\ r_completed r = false
    /\ r_result r = "Task stopped after 0 iterations".
Proof.
  eexists _, _, _, _, _. split; [vm_compute; reflexivity|].
  split; [vm_compute; reflexivity|]. repeat split.
Qed.

Lemma C4_witness :
  exists o w' rq rp resp,
    fresh (self (Script.world 30))
    /\ 1 <= 30 /\ (1 <= 5)%nat
    /\ run_task Script.done_at_once 5 "task" None (Script.world 30) = (o, w')
    /\ head (posts (trace w')) = Some (rq, inr rp)
    /\ is_success rp = true /\ reply_json rp = inr resp
    /\ computer_calls_of resp = []
    /\ exists r,
         o = Ok r /\ r_completed r = true /\ r_screenshots r = []
         /\ r_iterations r = 1 /\ r_error r = None
         /\ r_result r = "Task completed successfully"
         /\ posts (trace w') = [(rq, inr rp)]
         /\ settle_delays (trace w') = 0%nat.
Proof.
  eexists _, _, _, _, _. split; [apply scripted_fresh|].
  split; [lia|]. split; [lia|].
  split; [vm_compute; reflexivity|]. split; [vm_compute; reflexivity|].
  split; [reflexivity|]. split; [reflexivity|]. split; [reflexivity|].
  eapply (C4_first_response_without_computer_call Script.done_at_once
            (Script.controller (Script.config 30)) 5 "task" None);
    [apply scripted_fresh | cbn; lia | lia | vm_compute; reflexivity
    | vm_compute; reflexivity | reflexivity | reflexivity | reflexivity].
Defined.

(** C5, counterexample.  When the navigation to the initial URL fails,
    [run_task] raises the exception of the page: it returns no result,
    writes no log entry, takes no screenshot and sends no request. *)
Lemma C5_counterexample :
  run_task Script.unreachable 30 "log in at http://a.test" (Some "http://a.test")
    (Script.world 30)
  = (Raise (Exception "net::ERR_NAME_NOT_RESOLVED"),
     mkWorld (self (Script.world 30))
       [EvPage (Goto "http://a.test")
               (Some (Exception "net::ERR_NAME_NOT_RESOLVED"))]).
Proof. vm_compute. reflexivity. Qed.

Lemma C5_witness :
  present (page (state (self (Script.world 30)))) = true
  /\ PyStr.truthy "http://a.test" = true
  /\ (exists rest,
        trace (run_task Script.login 30 "log in" (Some "http://a.test")
                 (Script.world 30)).2
        = trace (Script.world 30)
          ++ EvPage (Goto "http://a.test")
               (env_page Script.login (trace (Script.world 30)) (Goto "http://a.test"))
             :: rest).
Proof.
  split; [reflexivity|]. split; [reflexivity|].
  apply (C5_navigation_comes_first_and_its_failure_is_fatal Script.login 30
           "log in" "http://a.test" (Script.world 30)); reflexivity.
Defined.

(** C6, at a response whose computer call carries a pending safety check.
    [run_task] of [cua_integration.py] writes the check to the log and
    executes the action, but no request that it sends acknowledges the
    check; [run_task] of [openai_cua.py] sends the check back as
    acknowledged in its next request, and writes no log entry for it. *)
Theorem C6_safety_checks_are_logged_or_passed_back_not_both :
  (let tr := trace (run_task Script.cautious 30 "click the login button" None
                      (Script.world 30)).2 in
   In "Safety check: Sensitive domain" (log_messages tr)
   /\ In (MouseClick 100 200 "left", None) (page_calls tr)
   /\ map (fun p => acknowledged p.1) (posts tr) = [None; None])
  /\ (let tr := trace (Standalone.run_openai_cua_task Script.cautious 30
                         "click the login button" "key"
                         (mkWorld (Standalone.init "") [])).2 in
      map (fun p => acknowledged p.1) (posts tr) = [None; Some [Script.sensitive]]
      /\ In (MouseClick 100 200 "left", None) (page_calls tr)
      /\ log_messages tr
         = ["OpenAI CUA browser initialized";
            "Starting OpenAI CUA task: click the login button";
            "Step 1: click(click)"; "Clicked at (100, 200)"; "Logged in";
            "OpenAI CUA task completed"]).
Proof.
  split; cbn zeta.
  - split; [vm_compute; tauto|]. split; [vm_compute; tauto|].
    vm_compute. reflexivity.
  - split; [vm_compute; reflexivity|]. split; [vm_compute; tauto|].
    vm_compute. reflexivity.
Qed.




Lemma C10_witness :
  present (page (state (self (Script.world 30)))) = true
  /\ (action_type (Script.action_of "click") = Some "click" ->
      (execute_action Script.login (Script.action_of "click") (Script.world 30)).1
      = Ok tt
      /\ page_calls
           (trace (execute_action Script.login (Script.action_of "click")
                     (Script.world 30)).2)
         = [(MouseClick 0 0 "left", None)]).
Proof.
  split; [reflexivity|].
  apply (C10_missing_parameters_take_defaults Script.login
           (Script.action_of "click") (Script.world 30)). reflexivity.
Defined.

End Scenarios.

(** ** [openai_cua.py] *)

Section StandaloneFacts.

Import Standalone.

Context (env : Env).

Local Abbreviation Ctl := (World OpenAICUA).

(** X10.  [handle_computer_action] reads the parameters of an action with the
    same defaults as [execute_action] of [cua_integration.py]; its scroll
    offsets are the keys [scroll_x] and [scroll_y]. *)
Lemma handle_computer_action_defaults a (w : Ctl) :
  present (page (self w)) = true ->
  (action_type a = Some "click" ->
     let op := MouseClick (default 0 (action_x a)) (default 0 (action_y a))
                          (default "left" (action_button a)) in
     let raised := env_page env (trace w) op in
     (handle_computer_action env a w).1 = outcome_of_call raised
     /\ page_calls (trace (handle_computer_action env a w).2)
        = page_calls (trace w) ++ [(op, raised)])
  /\ (action_type a = Some "type" ->
     let op := KeyboardType (default "" (action_text a)) in
     let raised := env_page env (trace w) op in
     (handle_computer_action env a w).1 = outcome_of_call raised
     /\ page_calls (trace (handle_computer_action env a w).2)
        = page_calls (trace w) ++ [(op, raised)])
  /\ (action_type a = Some "scroll" ->
     let move := MouseMove (default 0 (action_x a)) (default 0 (action_y a)) in
     let scroll :=
       Evaluate ("window.scrollBy(" +:+ PyStr.str_int (default 0 (action_scroll_x a))
                 +:+ ", " +:+ PyStr.str_int (default 0 (action_scroll_y a)) +:+ ")") in
     let moved := env_page env (trace w) move in
     let scrolled := env_page env (trace w ++ [EvPage move None]) scroll in
     match moved with
     | Some e =>
         (handle_computer_action env a w).1 = Raise e
         /\ page_calls (trace (handle_computer_action env a w).2)
            = page_calls (trace w) ++ [(move, moved)]
     | None =>
         (handle_computer_action env a w).1 = outcome_of_call scrolled
         /\ page_calls (trace (handle_computer_action env a w).2)
            = page_calls (trace w) ++ [(move, None); (scroll, scrolled)]
     end)
  /\ (action_type a = Some "keypress" -> action_keys a = None ->
     (handle_computer_action env a w).1 = Ok tt
     /\ page_calls (trace (handle_computer_action env a w).2) = page_calls (trace w)).
Proof.
  intros Hp. unfold handle_computer_action.
  split; [|split; [|split]]; intros Ht; rewrite Ht; decide_types; cbn zeta.
  - unfold click, self_page, bind, get, page_do, send_log, emit, ret.
    cbn [fst snd self trace]. rewrite Hp. cbn [fst snd self trace].
    destruct (env_page env (trace w) _) as [e|]; cbn;
      rewrite ?page_calls_app; cbn; now rewrite ?app_nil_r.
  - unfold type_text, self_page, bind, get, page_do, send_log, emit, ret.
    cbn [fst snd self trace]. rewrite Hp. cbn [fst snd self trace].
    destruct (env_page env (trace w) _) as [e|]; cbn;
      rewrite ?page_calls_app; cbn; now rewrite ?app_nil_r.
  - unfold scroll, self_page, bind, get, page_do, send_log, emit, ret.
    cbn [fst snd self trace]. rewrite Hp. cbn [fst snd self trace].
    destruct (env_page env (trace w) _) as [e|]; cbn [fst snd self trace].
    + rewrite ?page_calls_app; cbn. now rewrite ?app_nil_r.
    + destruct (env_page env (trace w ++ _) _) as [e|]; cbn;
        rewrite ?page_calls_app; cbn; now rewrite <- ?app_assoc, ?app_nil_r.
  - intros Hk. rewrite Hk. cbn. now rewrite page_calls_app, app_nil_r.
Qed.

(** A reply whose status is not 200 ends [run_task] of [openai_cua.py]
    with a dictionary that holds the error message only. *)
Lemma while_true_status_error fuel headers rq items n (w : Ctl) rp :
  env_post env (trace w) (openai_api_base (self w)) headers rq = inr rp ->
  reply_status_code rp <> 200 ->
  let error_msg := "API error: " +:+ PyStr.str_int (reply_status_code rp)
                   +:+ " - " +:+ reply_text rp in
  while_true env (S fuel) headers rq items n w
  = (Ok (inl {| r_result := None; r_screenshots := None;
                r_error := Some error_msg |}),
     mkWorld (self w)
       ((trace w ++ [EvPost (openai_api_base (self w)) headers rq (inr rp)])
        ++ [EvLog error_msg "❌" "status"])).
Proof.
  intros Hpost Hstatus. cbn [while_true].
  unfold bind at 1, get. cbn [fst snd self]. unfold bind at 1, post.
  cbn [fst snd self trace]. rewrite Hpost.
  apply Z.eqb_neq in Hstatus. rewrite Hstatus. cbn [negb]. reflexivity.
Qed.

(** A first reply without a computer call ends the loop of [run_task] of
    [openai_cua.py] at once: nothing is executed or recorded. *)
Lemma while_true_no_computer_call fuel headers rq items n (w : Ctl) rp resp :
  env_post env (trace w) (openai_api_base (self w)) headers rq = inr rp ->
  reply_status_code rp = 200 ->
  reply_json rp = inr resp ->
  computer_calls_of resp = [] ->
  exists w',
    while_true env (S fuel) headers rq items n w
    = (Ok (inr (items ++ default [] (response_output resp))), w')
    /\ self w' = self w
    /\ posts (trace w') = posts (trace w) ++ [(rq, inr rp)]
    /\ captures (trace w') = captures (trace w)
    /\ page_calls (trace w') = page_calls (trace w).
Proof.
  intros Hpost Hstatus Hjson Hnone. cbn [while_true].
  unfold bind at 1, get. cbn [fst snd self]. unfold bind at 1, post.
  cbn [fst snd self trace]. rewrite Hpost, Hstatus. cbn [Z.eqb negb Pos.eqb].
  unfold bind at 1, reply_decode. rewrite Hjson. cbn [ret fst snd].
  fold (computer_calls_of resp). rewrite Hnone.
  cbn [bool_decide]. rewrite bool_decide_eq_true_2 by reflexivity.
  assert (forall l (w0 : Ctl), exists w1,
    for_each l log_final_message w0 = (Ok tt, w1)
    /\ self w1 = self w0
    /\ posts (trace w1) = posts (trace w0)
    /\ captures (trace w1) = captures (trace w0)
    /\ page_calls (trace w1) = page_calls (trace w0)) as Hlogs.
  { induction l as [|item l IH]; intros w0; cbn [for_each].
    - exists w0. repeat split.
    - unfold bind at 1.
      assert (exists w1, log_final_message item w0 = (Ok tt, w1)
                /\ self w1 = self w0
                /\ posts (trace w1) = posts (trace w0)
                /\ captures (trace w1) = captures (trace w0)
                /\ page_calls (trace w1) = page_calls (trace w0))
        as (w1 & -> & S1 & P1 & C1 & G1).
      { unfold log_final_message, when.
        destruct (type_is (item_type item) "message"); [|exists w0; repeat split].
        destruct (default [] (item_content item)) as [|first rest];
          [exists w0; repeat split|].
        destruct (type_is (part_type first) "text"); [|exists w0; repeat split].
        eexists. split; [reflexivity|]. cbn.
        rewrite posts_app, captures_app, page_calls_app. cbn.
        now rewrite !app_nil_r. }
      destruct (IH w1) as (w2 & -> & S2 & P2 & C2 & G2).
      exists w2. repeat split; congruence. }
  unfold bind at 1.
  match goal with |- context [for_each ?l _ ?w0] =>
    destruct (Hlogs l w0) as (w1 & -> & S1 & P1 & C1 & G1)
  end.
  exists w1. cbn [ret]. split; [reflexivity|]. cbn [self trace] in *.
  rewrite S1, P1, C1, G1, posts_app, captures_app, page_calls_app. cbn.
  now rewrite !app_nil_r.
Qed.

End StandaloneFacts.

(** [run_openai_cua_task] whose navigation fails: the failure is logged and
    returned as the error of a result without observations; the task is not
    run, so that nothing is captured and nothing is requested. *)
Example run_openai_cua_task_navigation_failure :
  let run := Standalone.run_openai_cua_task Script.unreachable 30
               "VISIT: http://a.test GOAL: log in" "key"
               (mkWorld (Standalone.init "") []) in
  run.1 = Ok {| Standalone.r_result := None;
                Standalone.r_screenshots := Some [];
                Standalone.r_error :=
                  Some ("Error in OpenAI CUA: net::ERR_NAME_NOT_RESOLVED"
                        +:+ newline +:+ "Traceback") |}
  /\ In (Goto "http://a.test", Some (Exception "net::ERR_NAME_NOT_RESOLVED"))
        (page_calls (trace run.2))
  /\ captures (trace run.2) = []
  /\ posts (trace run.2) = [].
Proof. cbn zeta. repeat split; vm_compute; tauto. Qed.

(** [run_task] of [openai_cua.py] has no iteration cap: against a service
    that always asks for an action, forty rounds of the model are forty
    cycles, and the loop has not ended. *)
Example standalone_run_task_has_no_cap :
  let run := Standalone.run_task Script.waiting 40 "wait"
               (mkWorld (Standalone.set_page (Some Standalone.ThePage)
                           (Standalone.init "key")) []) in
  run.1 = OutOfFuel
  /\ length (Standalone.screenshots (self run.2)) = 40%nat.
Proof. cbn zeta. split; vm_compute; reflexivity. Qed.

(** ** Computations that stop at the first failure *)

Lemma clean_nil : clean [].
Proof. reflexivity. Qed.

Lemma clean_app evs1 evs2 : clean evs1 -> clean evs2 -> clean (evs1 ++ evs2).
Proof. unfold clean. intros H1 H2. now rewrite existsb_app, H1, H2. Qed.

Lemma clean_page op : clean [EvPage op None].
Proof. reflexivity. Qed.

Section Halting.

Context (env : Env) {O : Type}.

Lemma halting_ret {A} (a : A) (w : World O) : wp (ret a) w (halting w).
Proof.
  split; [reflexivity|]. exists []. split; [now rewrite app_nil_r | apply clean_nil].
Qed.

Lemma halting_emit ev (w : World O) :
  clean [ev] -> wp (emit ev) w (halting w).
Proof. intros Hc. split; [reflexivity|]. now exists [ev]. Qed.

Lemma halting_page_do op (w : World O) : wp (page_do env op) w (halting w).
Proof.
  unfold wp, page_do. cbn [fst snd]. split; [reflexivity|].
  destruct (env_page env (trace w) op) as [e|].
  - exists [], op. split; [reflexivity | apply clean_nil].
  - exists [EvPage op None]. split; [reflexivity | apply clean_page].
Qed.

Lemma halting_bind {A B} (m : M O A) (k : A -> M O B) (w : World O) :
  wp m w (halting w) -> (forall a w1, wp (k a) w1 (halting w1)) ->
  wp (bind m k) w (halting w).
Proof.
  intros Hm Hk. apply wp_bind. unfold wp in Hm |- *.
  destruct (m w) as [[a|e|] w1]; cbn [fst snd] in *; try assumption.
  destruct Hm as (Hs1 & evs1 & Ht1 & Hc1).
  specialize (Hk a w1). unfold wp in Hk.
  destruct (k a w1) as [[b|e|] w2]; cbn [fst snd] in *;
    destruct Hk as (Hs2 & Hk); (split; [congruence|]).
  - destruct Hk as (evs2 & Ht2 & Hc2). exists (evs1 ++ evs2).
    split; [now rewrite Ht2, Ht1, app_assoc | now apply clean_app].
  - destruct Hk as (evs2 & op & Ht2 & Hc2). exists (evs1 ++ evs2), op.
    split; [now rewrite Ht2, Ht1, !app_assoc | now apply clean_app].
  - assumption.
Qed.

Lemma halting_for_each {A} (l : list A) (body : A -> M O unit) :
  (forall x w, wp (body x) w (halting w)) ->
  forall w, wp (for_each l body) w (halting w).
Proof.
  intros Hb. induction l as [|x l IH]; intros w; cbn [for_each].
  - apply halting_ret.
  - apply halting_bind; [apply Hb | intros _ w1; apply IH].
Qed.

End Halting.

Section IntegrationExecutorFacts.

Import Integration Loop.

Context (env : Env).

Local Abbreviation Ctl := (World OpenAICUA).

Lemma press_key_key_name key :
  press_key env key = page_do (O:=OpenAICUA) env (KeyboardPress (key_name key)).
Proof. unfold press_key, key_name. repeat case_match; reflexivity. Qed.

Lemma dispatch_action_halting a (w : Ctl) : wp (dispatch_action env a) w (halting w).
Proof.
  unfold dispatch_action.
  repeat case_match;
    repeat first
      [ apply halting_bind; [|intros ? ?]
      | apply halting_page_do
      | apply halting_emit; reflexivity
      | apply halting_for_each; intros ? ?; rewrite press_key_key_name ].
Qed.

(** X2.  [execute_action] stops at the first call to the page that fails: no
    call is made after it, the failure is written to the log once, as
    "Failed to execute <type> action: <message>", and the same exception
    is raised again.  Without a page it raises before any call.  It never
    assigns an attribute of the controller. *)
Theorem execute_action_stops_at_the_first_failure a (w : Ctl) :
  wp (execute_action env a) w (fun o w' =>
    self w' = self w
    /\ match o with
       | Ok _ => exists evs, trace w' = trace w ++ evs /\ clean evs
       | Raise e =>
           if present (page (state (self w)))
           then exists evs op,
                  trace w' = trace w ++ evs
                             ++ [EvPage op (Some e); action_failure_log a e]
                  /\ clean evs
           else e = Exception "Browser page not initialized" /\ trace w' = trace w
       | OutOfFuel => False
       end).
Proof.
  unfold wp. destruct (execute_action env a w) as [o w'] eqn:E. cbn [fst snd].
  unfold execute_action, bind at 1, get in E. cbn [fst snd] in E.
  destruct (present (page (state (self w)))) eqn:Hp; cbn [negb] in E.
  2:{ injection E as <- <-. split; [reflexivity|]. now split. }
  unfold try_except in E.
  pose proof (dispatch_action_halting a w) as H. unfold wp in H.
  destruct (dispatch_action env a w) as [[[]|e|] w1]; cbn [fst snd] in H;
    destruct H as (Hs & H).
  - injection E as <- <-. now split.
  - destruct H as (evs & op & Ht & Hc).
    unfold bind at 1, send_log, emit in E. cbn [fst snd self trace raise] in E.
    injection E as <- <-. cbn [self trace]. split; [assumption|].
    exists evs, op. split; [|assumption].
    rewrite Ht, <- !app_assoc. reflexivity.
  - contradiction.
Qed.

(** X3.  A [keypress] action presses the entries of [keys] in their order,
    each under the name that [key_name] gives it, and stops at the first
    press that fails; when none fails, all of them are pressed and the
    log lists the entries as they were given. *)
Theorem keypress_presses_the_keys_in_order a (w : Ctl) o w' :
  present (page (state (self w))) = true ->
  action_type a = Some "keypress" ->
  execute_action env a w = (o, w') ->
  let keys := default [] (action_keys a) in
  exists calls,
    page_calls (trace w') = page_calls (trace w) ++ calls
    /\ map fst calls = map (fun key => KeyboardPress (key_name key))
                           (take (length calls) keys)
    /\ (forall u, o = Ok u ->
        length calls = length keys
        /\ Forall (fun call => call.2 = None) calls
        /\ exists tr, trace w' = tr ++ [EvLog ("Pressed keys: " +:+ PyStr.join ", " keys)
                                             "⌨️" "agent"])
    /\ (forall e, o = Raise e -> last (map snd calls) = Some (Some e)).
Proof.
  intros Hp Ht E keys.
  assert (forall l (w0 : Ctl) o1 w1,
    for_each l (press_key env) w0 = (o1, w1) ->
    exists calls,
      self w1 = self w0
      /\ (exists evs, trace w1 = trace w0 ++ evs /\ page_calls evs = calls)
      /\ map fst calls = map (fun key => KeyboardPress (key_name key))
                             (take (length calls) l)
      /\ match o1 with
         | Ok _ => length calls = length l /\ Forall (fun call => call.2 = None) calls
         | Raise e =>
             last calls = Some (KeyboardPress
               (key_name (default "" (l !! (length calls - 1)%nat))), Some e)
         | OutOfFuel => False
         end) as Hloop.
  { induction l as [|key l IH]; intros w0 o1 w1 El; cbn [for_each] in El.
    - injection El as <- <-. exists []. split; [reflexivity|].
      split; [exists []; now rewrite app_nil_r|]. split; [reflexivity|]. now split.
    - rewrite press_key_key_name in El. unfold bind at 1, page_do at 1 in El.
      cbn [fst snd] in El.
      destruct (env_page env (trace w0) (KeyboardPress (key_name key))) as [e|] eqn:Ek.
      + injection El as <- <-.
        exists [(KeyboardPress (key_name key), Some e)].
        split; [reflexivity|]. split; [eexists; split; reflexivity|].
        split; reflexivity.
      + destruct (IH _ _ _ El) as (calls & Hs & (evs & Hevs & Hcalls) & Hm & Ho).
        exists ((KeyboardPress (key_name key), None) :: calls).
        split; [exact Hs|]. split.
        { exists (EvPage (KeyboardPress (key_name key)) None :: evs).
          split; [rewrite Hevs; cbn [trace]; now rewrite <- app_assoc|].
          rewrite <- Hcalls. reflexivity. }
        split; [cbn; now rewrite Hm|].
        destruct o1 as [[]|e|]; [| |assumption].
        * destruct Ho as (Hl & Hall). split; [cbn; now rewrite Hl|]. now constructor.
        * destruct calls as [|c calls]; [discriminate Ho|].
          cbn [length Nat.sub] in Ho |- *. rewrite Nat.sub_0_r in Ho.
          rewrite last_cons_cons. exact Ho. }
  unfold execute_action, bind at 1, get in E. cbn [fst snd] in E. rewrite Hp in E.
  cbn [negb] in E. unfold try_except, dispatch_action in E. rewrite Ht in E.
  revert E. decide_types. cbn iota. fold keys. intros E.
  unfold bind at 1 in E.
  destruct (for_each keys (press_key env) w) as [o1 w1] eqn:El.
  destruct (Hloop keys w o1 w1 El) as (calls & Hs & (evs & Hevs & Hcalls) & Hm & Ho).
  destruct o1 as [[]|e|]; [| |contradiction].
  - unfold send_log, emit in E. cbn [fst snd] in E. injection E as <- <-.
    exists calls. cbn [trace]. rewrite Hevs, !page_calls_app, Hcalls. cbn.
    rewrite app_nil_r. split; [reflexivity|]. split; [assumption|].
    split; [|discriminate]. intros _ _. destruct Ho as (Hl & Hall).
    split; [assumption|]. split; [assumption|]. eexists. reflexivity.
  - unfold bind at 1, send_log, emit in E. cbn [fst snd self trace raise] in E.
    injection E as <- <-. exists calls. cbn [trace].
    rewrite Hevs, !page_calls_app, Hcalls. cbn. rewrite app_nil_r.
    split; [reflexivity|]. split; [assumption|]. split; [discriminate|].
    intros e' [= <-]. change (map snd calls) with (snd <$> calls).
    now rewrite fmap_last, Ho.
Qed.

(** X1.  A controller that was constructed and handed a page is in the state
    in which [run_task] expects it, also when the CDP session could not
    be created: [initialize_browser] stores the page before it asks for
    the session, logs the failure and raises it again, and [run_task]
    never reads the session. *)
Theorem initialized_controller_is_fresh key cfg call_id url p tr :
  wp (initialize_browser env p) (mkWorld (init key cfg call_id url) tr) (fun o w1 =>
    fresh (self w1)
    /\ config (self w1) = default CUAConfig_default cfg
    /\ match o with
       | Ok _ =>
           cdp_session (state (self w1)) = Some TheCDPSession
           /\ trace w1 = tr ++ [EvPage NewCdpSession None;
                                EvLog "CDP session initialized for CUA" "🔧" "status"]
       | Raise e =>
           cdp_session (state (self w1)) = None
           /\ trace w1 = tr ++ [EvPage NewCdpSession (Some e);
                                EvLog ("Failed to initialize CDP session: " +:+ str_exn e)
                                      "❌" "status"]
       | OutOfFuel => False
       end).
Proof.
  unfold initialize_browser. apply wp_bind, wp_modify. apply wp_try_except.
  apply wp_bind. unfold wp at 1, page_do. cbn [fst snd self trace].
  destruct (env_page env tr NewCdpSession) as [e|].
  - apply wp_bind. unfold send_log. apply wp_emit. unfold wp, raise.
    cbn. rewrite <- ?app_assoc. repeat split.
  - apply wp_bind, wp_modify. unfold send_log. apply wp_emit.
    cbn. rewrite <- ?app_assoc. repeat split.
Qed.

End IntegrationExecutorFacts.

(** ** More on [cua_integration.run_task] *)

Section IntegrationRunFacts.

Import Integration Loop.

Context (env : Env).

Local Abbreviation Ctl := (World OpenAICUA).

Lemma run_task_without_page fuel task initial_url (w : Ctl) :
  present (page (state (self w))) = false ->
  run_task env fuel task initial_url w
  = (Raise (Exception "Browser not initialized. Call initialize_browser first."), w).
Proof. intros Hp. unfold run_task, bind, get. cbn. now rewrite Hp. Qed.

Lemma run_task_shape fuel task initial_url (w : Ctl) o w' :
  present (page (state (self w))) = true ->
  run_task env fuel task initial_url w = (o, w') ->
  run env fuel w o w'.
Proof.
  intros Hp E.
  exact (proj1 (wp_run _ _ _ _ _ (run_task_run env fuel task initial_url w Hp) E)).
Qed.

(** X4.  [run_task] assigns the progress attributes of [self.state] only: a
    run that ends leaves the key, the configuration, the tool call id, the
    backend URL, the page and the CDP session of the controller as they
    were; the iteration counter never decreases, and the trace is
    extended, never rewritten. *)
Theorem run_task_keeps_the_setup fuel task initial_url (w : Ctl) :
  wp (run_task env fuel task initial_url) w (fun o w' =>
    o <> OutOfFuel ->
    api_key (self w') = api_key (self w)
    /\ config (self w') = config (self w)
    /\ tool_call_id (self w') = tool_call_id (self w)
    /\ backend_url (self w') = backend_url (self w)
    /\ page (state (self w')) = page (state (self w))
    /\ cdp_session (state (self w')) = cdp_session (state (self w))
    /\ iteration_count (state (self w)) <= iteration_count (state (self w'))
    /\ exists evs, trace w' = trace w ++ evs).
Proof.
  unfold wp. destruct (run_task env fuel task initial_url w) as [o w'] eqn:E.
  cbn [fst snd]. intros Hfin.
  destruct (present (page (state (self w)))) eqn:Hp.
  2:{ rewrite run_task_without_page in E by assumption. injection E as <- <-.
      repeat split; try lia. exists []. now rewrite app_nil_r. }
  pose proof (run_task_shape _ _ _ _ _ _ Hp E) as Hr.
  inversion Hr as [e w1 evs Ht Hs Hposts Hd Hc Hf
                  | w1 Hext Hset Hle Hmax Hdone Htape Hsingle
                  | e w1 w2 Ht Hext Hs Hset Hle Hmax Hended Hsingle
                  | w1 Hext Hlt Htape Hsingle]; subst.
  - rewrite Hs. repeat split; try lia. now exists evs.
  - destruct Hset as (H1 & H2 & H3 & H4 & H5 & H6 & _). repeat split; assumption.
  - destruct Hset as (H1 & H2 & H3 & H4 & H5 & H6 & _). rewrite Hs. cbn.
    repeat split; try assumption.
    destruct Hext as (evs & Hevs). exists (evs ++ [failure_log env e]).
    now rewrite Ht, Hevs, app_assoc.
  - now contradiction Hfin.
Qed.



(** What a result of a run on a new controller shows of the requests
    that were sent. *)
Lemma requests_of_a_result c fuel task initial_url r w' :
  fresh c ->
  run_task env fuel task initial_url (mkWorld c []) = (Ok r, w') ->
  length (posts (trace w')) = S (length (r_screenshots r)).
Proof.
  intros Hfresh E.
  assert (start (mkWorld c [])) as Hst.
  { destruct Hfresh as (_ & _ & S & C & _ & N). repeat split; assumption. }
  assert (present (page (state (self (mkWorld c [])))) = true) as Hp
    by now destruct Hfresh.
  pose proof (run_task_shape _ _ _ _ _ _ Hp E) as Hr.
  inversion Hr as [
                  | w1 Hext Hset Hle Hmax Hdone Htape Hsingle
                  | e w1 w2 Ht Hext Hs Hset Hle Hmax Hended Hsingle
                  | ]; subst; cbn [r_screenshots returned_result failure_result].
  - now destruct (Htape Hst).
  - rewrite Ht, posts_app. cbn. rewrite app_nil_r.
    destruct (Hended Hst) as [e' Htape Hf | e' tr evs Htr Htape Hp' _ _
                             | e' tr url headers rq r' Htr Hf Hall Hlen _ _ _ _].
    + now destruct Htape.
    + destruct Htape as [Hposts _ _ _ _ _ _ _]. cbn [self trace] in Hposts.
      now rewrite Htr, posts_app, Hp', app_nil_r.
    + rewrite Htr, posts_app, length_app. cbn. lia.
Qed.

End IntegrationRunFacts.

Section IntegrationRunFacts2.

Import Integration Loop.

Context (env : Env).

Local Abbreviation Ctl := (World OpenAICUA).

(** X6.  On a new controller, every result of [run_task] has one history entry
    per follow-up request, whether the task completed, stopped at the cap
    or failed: the number of requests sent is the length of the history
    plus one.  When the result has no error, every request was answered
    by a 2xx reply that decodes, and the follow-up requests carry, in
    order, the screenshots of the history as JPEG data URLs. *)
Theorem history_has_one_entry_per_follow_up_request
    c fuel task initial_url r w' :
  fresh c ->
  run_task env fuel task initial_url (mkWorld c []) = (Ok r, w') ->
  length (posts (trace w')) = S (length (r_screenshots r))
  /\ (r_error r = None ->
      Forall (fun p => exists resp, post_ok p.2 resp) (posts (trace w'))
      /\ map carried_image (tail (map fst (posts (trace w'))))
         = map (fun o => Some (data_url (screenshot o))) (r_screenshots r)).
Proof.
  intros Hfresh E.
  split; [exact (requests_of_a_result env c fuel task initial_url r w' Hfresh E)|].
  assert (start (mkWorld c [])) as Hst.
  { destruct Hfresh as (_ & _ & S & C & _ & N). repeat split; assumption. }
  assert (present (page (state (self (mkWorld c [])))) = true) as Hp
    by now destruct Hfresh.
  pose proof (run_task_shape env _ _ _ _ _ _ Hp E) as Hr.
  inversion Hr as [
                  | w1 Hext Hset Hle Hmax Hdone Htape Hsingle
                  | e w1 w2 Ht Hext Hs Hset Hle Hmax Hended Hsingle
                  | ]; subst; cbn [r_screenshots r_error returned_result failure_result].
  - intros _. destruct (Htape Hst) as [_ Hall _ _ _ _ Hcar _]. now split.
  - discriminate.
Qed.



End IntegrationRunFacts2.

Section IntegrationReuse.

Import Integration Loop.

Context (env : Env).

Local Abbreviation Ctl := (World OpenAICUA).



End IntegrationReuse.

(** ** Computations that send no request *)

Section Offline.

Context (env : Env) {O : Type}.

Lemma offline_refl {A} (a : A) (w : World O) : offline w (Ok a) w.
Proof.
  split; [discriminate|]. split; [reflexivity|]. exists []. now rewrite app_nil_r.
Qed.

Lemma offline_trans {A B} (w w1 w2 : World O) (a : A) (o : outcome B) :
  offline w (Ok a) w1 -> offline w1 o w2 -> offline w o w2.
Proof.
  intros (_ & S1 & evs1 & T1 & P1) (Hne & S2 & evs2 & T2 & P2).
  split; [assumption|]. split; [congruence|]. exists (evs1 ++ evs2).
  split; [now rewrite T2, T1, app_assoc | now rewrite posts_app, P1, P2].
Qed.

Lemma offline_ret {A} (a : A) (w : World O) : wp (ret a) w (offline w).
Proof. apply offline_refl. Qed.

Lemma offline_raise {A} e (w : World O) : wp (raise (A:=A) e) w (offline w).
Proof.
  split; [discriminate|]. split; [reflexivity|]. exists []. now rewrite app_nil_r.
Qed.

Lemma offline_emit ev (w : World O) :
  posts [ev] = [] -> wp (emit ev) w (offline w).
Proof. intros Hp. split; [discriminate|]. split; [reflexivity|]. now exists [ev]. Qed.

Lemma offline_page_do op (w : World O) : wp (page_do env op) w (offline w).
Proof.
  unfold wp, page_do. cbn [fst snd].
  split; [destruct (env_page env (trace w) op); discriminate|].
  split; [reflexivity|]. eexists. split; reflexivity.
Qed.

Lemma offline_page_screenshot type quality (w : World O) :
  wp (page_screenshot env type quality) w (offline w).
Proof.
  unfold wp, page_screenshot. cbn [fst snd].
  split; [destruct (env_screenshot env (trace w) type quality); discriminate|].
  split; [reflexivity|]. eexists. split; reflexivity.
Qed.

Lemma offline_bind {A B} (m : M O A) (k : A -> M O B) (w : World O) :
  wp m w (offline w) -> (forall a w1, wp (k a) w1 (offline w1)) ->
  wp (bind m k) w (offline w).
Proof.
  intros Hm Hk. apply wp_bind. unfold wp in Hm |- *.
  destruct (m w) as [[a|e|] w1]; cbn [fst snd] in *.
  - eapply offline_trans; [exact Hm | apply Hk].
  - destruct Hm as (_ & Hm). split; [discriminate | exact Hm].
  - now destruct Hm.
Qed.

Lemma offline_for_each {A} (l : list A) (body : A -> M O unit) :
  (forall x w, wp (body x) w (offline w)) ->
  forall w, wp (for_each l body) w (offline w).
Proof.
  intros Hb. induction l as [|x l IH]; intros w; cbn [for_each].
  - apply offline_ret.
  - apply offline_bind; [apply Hb | intros _ w1; apply IH].
Qed.

(** Running [m], which sends no request, and then [k], from a world [w]
    that a computation without a request reached from [w0]. *)
Lemma offline_step {A B} (m : M O A) (k : A -> M O B) (w0 w : World O)
    (Q : outcome B -> World O -> Prop) :
  offline w0 (Ok tt) w ->
  wp m w (offline w) ->
  (forall e w1, offline w0 (Raise (A:=unit) e) w1 -> Q (Raise e) w1) ->
  (forall a w1, offline w0 (Ok tt) w1 -> wp (k a) w1 Q) ->
  wp (bind m k) w Q.
Proof.
  intros Hacc Hm Hraise Hk. apply wp_bind. unfold wp in Hm |- *.
  destruct (m w) as [[a|e|] w1]; cbn [fst snd] in *.
  - apply Hk. destruct Hm as (_ & Hm). eapply offline_trans; [exact Hacc|].
    split; [discriminate | exact Hm].
  - apply Hraise. destruct Hm as (_ & Hm). eapply offline_trans; [exact Hacc|].
    split; [discriminate | exact Hm].
  - now destruct Hm.
Qed.

End Offline.

(** ** The executor of [openai_cua.py] *)

Section StandaloneSteps.

Import Standalone StandaloneLoop.

Context (env : Env).

Local Abbreviation Ctl := (World OpenAICUA).

Lemma self_page_offline attribute (w : Ctl) :
  wp (self_page attribute) w (offline w).
Proof.
  unfold self_page. apply wp_bind, wp_get.
  destruct (present (page (self w))); [apply offline_ret | apply offline_raise].
Qed.

Lemma handle_computer_action_offline a (w : Ctl) :
  wp (handle_computer_action env a) w (offline w).
Proof.
  unfold handle_computer_action, click, type_text, scroll, keypress, wait, move,
    double_click, drag, send_log, sleep.
  repeat case_match;
    repeat first
      [ apply self_page_offline
      | apply offline_bind; [|intros ? ?]
      | apply offline_page_do
      | apply offline_emit; reflexivity
      | apply offline_ret
      | apply offline_for_each; intros ? ? ].
Qed.

Lemma take_screenshot_offline (w : Ctl) :
  wp (take_screenshot env) w (offline w).
Proof.
  unfold take_screenshot.
  apply offline_bind; [apply self_page_offline | intros _ w1].
  apply offline_bind; [apply offline_page_screenshot | intros b w2].
  apply offline_ret.
Qed.

Lemma get_current_url_offline (w : Ctl) :
  wp (get_current_url env) w (offline w).
Proof.
  unfold get_current_url.
  apply offline_bind; [apply self_page_offline | intros _ w1].
  unfold wp, page_url. cbn [fst snd]. apply offline_refl.
Qed.

Lemma kept_refl c : kept c c.
Proof. repeat split. Qed.

Lemma kept_trans c1 c2 c3 : kept c1 c2 -> kept c2 c3 -> kept c1 c3.
Proof.
  intros (A1 & A2 & A3 & A4 & A5) (B1 & B2 & B3 & B4 & B5).
  repeat split; congruence.
Qed.

(** The body of the [for] loop over the computer calls. *)
Lemma process_computer_call_spec resp n cc (w : Ctl) :
  wp (process_computer_call env resp n cc) w (fun o w' =>
    kept (self w) (self w')
    /\ (exists evs, trace w' = trace w ++ evs /\ posts evs = [])
    /\ match o with
       | Ok (rq, n') =>
           n' = n + 1
           /\ exists ob,
                screenshots (self w') = screenshots (self w) ++ [ob]
                /\ step ob = n + 1 /\ answers rq resp cc ob
       | Raise e =>
           exists new,
             screenshots (self w') = screenshots (self w) ++ new
             /\ (length new <= 1)%nat /\ numbered_after n new
       | OutOfFuel => False
       end).
Proof.
  assert (forall e (w1 : Ctl), offline w (Raise (A:=unit) e) w1 ->
    kept (self w) (self w1)
    /\ (exists evs, trace w1 = trace w ++ evs /\ posts evs = [])
    /\ exists new,
         screenshots (self w1) = screenshots (self w) ++ new
         /\ (length new <= 1)%nat /\ numbered_after n new) as Hraise.
  { intros e w1 (_ & Hs & Hevs). rewrite Hs. split; [apply kept_refl|].
    split; [assumption|]. exists []. rewrite app_nil_r. repeat split. cbn. lia. }
  unfold process_computer_call.
  eapply offline_step with (w0 := w);
    [apply (offline_refl tt) | apply offline_emit; reflexivity | exact Hraise |].
  intros _ w1 H1.
  eapply offline_step with (w0 := w);
    [exact H1 | apply handle_computer_action_offline | exact Hraise |].
  intros _ w2 H2.
  eapply offline_step with (w0 := w);
    [exact H2 | apply take_screenshot_offline | exact Hraise |].
  intros image w3 H3.
  eapply offline_step with (w0 := w);
    [exact H3 | apply get_current_url_offline | exact Hraise |].
  intros page_url_now w4 H4.
  eapply offline_step with (w0 := w);
    [exact H4 | unfold wp, loop_time; cbn [fst snd]; apply offline_refl | exact Hraise |].
  intros now w5 (_ & Hs5 & evs5 & Ht5 & Hp5).
  apply wp_bind, wp_modify. set (w6 := mkWorld _ _).
  set (ob := {| step := n + 1; url := page_url_now; screenshot := image;
                timestamp := now |}).
  assert (kept (self w) (self w6)) as Hk6 by (subst w6; cbn; rewrite Hs5; repeat split).
  assert (screenshots (self w6) = screenshots (self w) ++ [ob]) as Hsh6
    by (subst w6; cbn; now rewrite Hs5).
  assert (offline w6 (Ok tt) w6) as Hacc6 by apply offline_refl.
  assert (trace w6 = trace w ++ evs5) as Ht6 by (subst w6; exact Ht5).
  clearbody w6.
  destruct (response_id resp) as [id|] eqn:Hid.
  2:{ unfold wp, raise. cbn [fst snd]. split; [assumption|]. split; [eauto|].
      exists [ob]. split; [assumption|]. split; [cbn; lia|].
      unfold numbered_after. cbn. f_equal. }
  eapply offline_step with (w0 := w6);
    [exact Hacc6 | apply get_current_url_offline | |].
  { intros e w7 (_ & Hs7 & evs7 & Ht7 & Hp7). rewrite Hs7.
    split; [assumption|]. split.
    { exists (evs5 ++ evs7). split; [now rewrite Ht7, Ht6, app_assoc|].
      now rewrite posts_app, Hp5, Hp7. }
    exists [ob]. split; [assumption|]. split; [cbn; lia|].
    unfold numbered_after. cbn. f_equal. }
  intros current_url w7 (_ & Hs7 & evs7 & Ht7 & Hp7). apply wp_ret. rewrite Hs7.
  split; [assumption|]. split.
  { exists (evs5 ++ evs7). split; [now rewrite Ht7, Ht6, app_assoc|].
    now rewrite posts_app, Hp5, Hp7. }
  split; [reflexivity|]. exists ob. split; [assumption|]. split; [reflexivity|].
  split; [cbn; now rewrite Hid|]. exists current_url. reflexivity.
Qed.

End StandaloneSteps.

(** ** The loop of [openai_cua.run_task] *)

Section StandaloneRun.

Import Standalone StandaloneLoop.

Context (env : Env).

Local Abbreviation Ctl := (World OpenAICUA).

Lemma numbered_after_nil n : numbered_after n [].
Proof. reflexivity. Qed.

Lemma numbered_after_app n new1 new2 :
  numbered_after n new1 ->
  numbered_after (n + Z.of_nat (length new1)) new2 ->
  numbered_after n (new1 ++ new2).
Proof.
  unfold numbered_after. intros H1 H2.
  rewrite map_app, length_app, seq_app, map_app, H1, H2. f_equal.
  replace (1 + length new1)%nat with (length new1 + 1)%nat by lia.
  rewrite <- (fmap_add_seq (length new1) 1 (length new2)).
  change (map ?f (?g <$> ?l)) with (map f (map g l)). rewrite map_map.
  apply map_ext. intros i. lia.
Qed.

Lemma numbered_after_one n ob : step ob = n + 1 -> numbered_after n [ob].
Proof. unfold numbered_after. cbn. now intros ->. Qed.

(** The [for] loop over the computer calls of a response. *)
Lemma standalone_for_computer_calls_spec resp calls : forall rq0 n (w : Ctl),
  wp (for_computer_calls env resp calls rq0 n) w (fun o w' =>
    kept (self w) (self w')
    /\ (exists evs, trace w' = trace w ++ evs /\ posts evs = [])
    /\ exists new,
         screenshots (self w') = screenshots (self w) ++ new
         /\ numbered_after n new /\ (length new <= length calls)%nat
         /\ match o with
            | Ok (rq, n') =>
                n' = n + Z.of_nat (length calls)
                /\ length new = length calls
                /\ (calls = [] -> rq = rq0)
                /\ (forall cc, last calls = Some cc ->
                    exists ob, last new = Some ob /\ answers rq resp cc ob)
            | Raise _ => True
            | OutOfFuel => False
            end).
Proof.
  induction calls as [|cc calls IH]; intros rq0 n w; cbn [for_computer_calls].
  - apply wp_ret. split; [apply kept_refl|]. split.
    { exists []. now rewrite app_nil_r. }
    exists []. rewrite app_nil_r. split; [reflexivity|].
    split; [apply numbered_after_nil|]. split; [reflexivity|].
    split; [cbn; lia|]. split; [reflexivity|]. split; [reflexivity|]. discriminate.
  - apply wp_bind. eapply wp_mono; [apply process_computer_call_spec|].
    intros o w1 (Hk1 & (evs1 & Ht1 & Hp1) & Ho).
    destruct o as [[rq1 n1]|e|]; [| |contradiction].
    2:{ destruct Ho as (new & Hsh & Hlen & Hnum).
        split; [assumption|]. split; [eauto|]. exists new.
        split; [assumption|]. split; [assumption|]. split; [cbn; lia | exact I]. }
    destruct Ho as (-> & ob & Hsh1 & Hstep & Hans). cbn [fst snd].
    eapply wp_mono; [apply IH|].
    intros o w2 (Hk2 & (evs2 & Ht2 & Hp2) & new & Hsh2 & Hnum2 & Hlen2 & Ho).
    split; [eapply kept_trans; eassumption|]. split.
    { exists (evs1 ++ evs2). split; [now rewrite Ht2, Ht1, app_assoc|].
      now rewrite posts_app, Hp1, Hp2. }
    exists (ob :: new). split; [now rewrite Hsh2, Hsh1, <- app_assoc|].
    split.
    { apply (numbered_after_app n [ob] new); [now apply numbered_after_one|].
      cbn. exact Hnum2. }
    split; [cbn; lia|].
    destruct o as [[rq2 n2]|e|]; [|exact I|contradiction].
    destruct Ho as (-> & Hlen & Hnil & Hlast).
    split; [cbn [length]; lia|]. split; [cbn; now rewrite Hlen|].
    split; [discriminate|]. intros cc' Hcc'.
    destruct calls as [|cc2 calls].
    + cbn in Hcc'. injection Hcc' as <-. destruct new; [|discriminate Hlen].
      exists ob. split; [reflexivity|]. now rewrite (Hnil eq_refl).
    + rewrite last_cons_cons in Hcc'. destruct (Hlast cc' Hcc') as (ob' & Hl & Ha).
      exists ob'. split; [|assumption]. destruct new; [discriminate Hl|].
      now rewrite last_cons_cons.
Qed.

(** What [while True] leaves behind, however it ends. *)
Lemma while_true_spec headers : forall fuel rq items n (w : Ctl),
  wp (while_true env fuel headers rq items n) w (fun o w' =>
    kept (self w) (self w')
    /\ (exists evs, trace w' = trace w ++ evs)
    /\ (exists new,
          screenshots (self w') = screenshots (self w) ++ new
          /\ numbered_after n new)
    /\ forall early, o = Ok (inl early) ->
         r_result early = None /\ r_screenshots early = None
         /\ exists rp, r_error early
                       = Some ("API error: " +:+ PyStr.str_int (reply_status_code rp)
                               +:+ " - " +:+ reply_text rp)
                    /\ reply_status_code rp <> 200).
Proof.
  assert (forall (w w1 : Ctl) evs n,
    self w1 = self w -> trace w1 = trace w ++ evs ->
    kept (self w) (self w1)
    /\ (exists evs, trace w1 = trace w ++ evs)
    /\ (exists new,
          screenshots (self w1) = screenshots (self w) ++ new
          /\ numbered_after n new)) as Hsame.
  { intros w w1 evs n Hs Ht. rewrite Hs. split; [apply kept_refl|]. split; [eauto|].
    exists []. rewrite app_nil_r. split; [reflexivity | apply numbered_after_nil]. }
  induction fuel as [|fuel IH]; intros rq items n w; cbn [while_true].
  { unfold wp, out_of_fuel. cbn [fst snd].
    destruct (Hsame w w [] n eq_refl) as (H1 & H2 & H3); [now rewrite app_nil_r|].
    (split; [assumption|]; split; [assumption|]; split; [assumption|]; discriminate). }
  apply wp_bind, wp_get. apply wp_bind. unfold wp at 1, post. cbn [fst snd self trace].
  destruct (env_post env (trace w) (openai_api_base (self w)) headers rq) as [e|rp];
    cbv beta iota.
  { destruct (Hsame w (mkWorld (self w) (trace w ++
               [EvPost (openai_api_base (self w)) headers rq (inl e)])) _ n
               eq_refl eq_refl) as (H1 & H2 & H3).
    (split; [assumption|]; split; [assumption|]; split; [assumption|]; discriminate). }
  set (w1 := mkWorld (self w) (trace w ++
               [EvPost (openai_api_base (self w)) headers rq (inr rp)])).
  assert (self w1 = self w) as Hs1 by reflexivity.
  assert (trace w1 = trace w ++ [EvPost (openai_api_base (self w)) headers rq (inr rp)])
    as Ht1 by reflexivity.
  clearbody w1.
  destruct (reply_status_code rp =? 200) eqn:Hstatus; cbn [negb].
  2:{ apply wp_bind, wp_emit. apply wp_ret.
      destruct (Hsame w (mkWorld (self w1) (trace w1 ++
                  [EvLog ("API error: " +:+ PyStr.str_int (reply_status_code rp)
                          +:+ " - " +:+ reply_text rp) "❌" "status"])) _ n Hs1
                  ltac:(cbn [trace]; rewrite Ht1, <- app_assoc; reflexivity))
        as (H1 & H2 & H3).
      split; [assumption|]. split; [assumption|]. split; [assumption|].
      intros early [= <-]. cbn. split; [reflexivity|]. split; [reflexivity|].
      exists rp. split; [reflexivity|]. now apply Z.eqb_neq. }
  apply wp_bind. unfold reply_decode.
  destruct (reply_json rp) as [e|response_data].
  { unfold wp, raise. cbn [fst snd].
    destruct (Hsame w w1 _ n Hs1 Ht1) as (H1 & H2 & H3).
    (split; [assumption|]; split; [assumption|]; split; [assumption|]; discriminate). }
  apply wp_ret.
  destruct (bool_decide _).
  { apply wp_bind.
    assert (forall l (w0 : Ctl), wp (for_each l log_final_message) w0 (offline w0))
      as Hlogs.
    { intros l w0. apply offline_for_each. intros item w2.
      unfold log_final_message, when, send_log.
      repeat case_match; first [apply offline_ret | apply offline_emit; reflexivity]. }
    eapply wp_mono; [apply Hlogs|].
    intros o w2 (Hne & Hs2 & evs2 & Ht2 & _).
    assert (self w2 = self w) as Hs by congruence.
    assert (trace w2 = trace w ++ (_ ++ evs2)) as Ht
      by (rewrite Ht2, Ht1, <- app_assoc; reflexivity).
    destruct (Hsame w w2 _ n Hs Ht) as (H1 & H2 & H3).
    destruct o as [[]|e|]; [apply wp_ret| |];
      (split; [assumption|]; split; [assumption|]; split; [assumption|]; discriminate). }
  apply wp_bind. eapply wp_mono; [apply standalone_for_computer_calls_spec|].
  intros o w2 (Hk2 & (evs2 & Ht2 & _) & new2 & Hsh2 & Hnum2 & Hlen2 & Ho).
  rewrite Hs1 in Hk2, Hsh2.
  assert (trace w2 = trace w ++ (_ ++ evs2)) as Ht
    by (rewrite Ht2, Ht1, <- app_assoc; reflexivity).
  destruct o as [[rq2 n2]|e|]; [| |contradiction].
  2:{ split; [assumption|]. split; [eauto|]. split; [eauto|]. discriminate. }
  destruct Ho as (-> & Hlen & _). cbn [fst snd].
  eapply wp_mono; [apply IH|].
  intros o w3 (Hk3 & (evs3 & Ht3) & (new3 & Hsh3 & Hnum3) & Hearly).
  split; [eapply kept_trans; eassumption|]. split.
  { eexists. rewrite Ht3, Ht, <- app_assoc. reflexivity. }
  split; [|exact Hearly].
  exists (new2 ++ new3). split; [now rewrite Hsh3, Hsh2, <- app_assoc|].
  apply numbered_after_app; [assumption|]. now rewrite Hlen.
Qed.

(** What [run_task] leaves behind, however it ends. *)
Lemma run_task_spec fuel task (w : Ctl) :
  wp (run_task env fuel task) w (fun o w' =>
    kept (self w) (self w')
    /\ (exists evs, trace w' = trace w ++ evs)
    /\ (exists new,
          screenshots (self w') = screenshots (self w) ++ new
          /\ numbered_after 0 new)
    /\ forall r, o = Ok r ->
         match r_error r with
         | None =>
             r_screenshots r = Some (screenshots (self w'))
             /\ exists items,
                  r_result r = Some (PyStr.join newline (final_output items))
         | Some message =>
             r_screenshots r = None /\ r_result r = None
             /\ exists rp,
                  message = "API error: " +:+ PyStr.str_int (reply_status_code rp)
                            +:+ " - " +:+ reply_text rp
                  /\ reply_status_code rp <> 200
         end).
Proof.
  assert (forall (w1 : Ctl) A (o : outcome A),
    offline w o w1 ->
    kept (self w) (self w1)
    /\ (exists evs, trace w1 = trace w ++ evs)
    /\ (exists new,
          screenshots (self w1) = screenshots (self w) ++ new
          /\ numbered_after 0 new)) as Hsame.
  { intros w1 A o (_ & Hs & evs & Ht & _). rewrite Hs. split; [apply kept_refl|].
    split; [eauto|]. exists []. rewrite app_nil_r.
    split; [reflexivity | apply numbered_after_nil]. }
  unfold run_task.
  eapply offline_step with (w0 := w);
    [apply (offline_refl tt) | apply offline_emit; reflexivity | |].
  { intros e w1 H. destruct (Hsame _ _ _ H) as (H1 & H2 & H3).
    (split; [assumption|]; split; [assumption|]; split; [assumption|]; discriminate). }
  intros _ w1 H1.
  eapply offline_step with (w0 := w); [exact H1 | apply take_screenshot_offline | |].
  { intros e w2 H. destruct (Hsame _ _ _ H) as (H2 & H3 & H4).
    (split; [assumption|]; split; [assumption|]; split; [assumption|]; discriminate). }
  intros image w2 H2. apply wp_bind, wp_get. apply wp_bind.
  eapply wp_mono; [apply while_true_spec|].
  intros o w3 (Hk3 & (evs3 & Ht3) & (new & Hsh3 & Hnum3) & Hearly).
  destruct H2 as (_ & Hs2 & evs2 & Ht2 & _). rewrite Hs2 in Hk3, Hsh3.
  assert (exists evs, trace w3 = trace w ++ evs) as Hext
    by (eexists; rewrite Ht3, Ht2, <- app_assoc; reflexivity).
  destruct o as [[early|items]|e|].
  - apply wp_ret. split; [assumption|]. split; [assumption|]. split; [eauto|].
    intros r [= <-]. destruct (Hearly early eq_refl) as (R1 & R2 & rp & R3 & Hne).
    rewrite R3. split; [assumption|]. split; [assumption|]. now exists rp.
  - apply wp_bind, wp_emit. apply wp_bind, wp_get. apply wp_ret. cbn [self trace].
    split; [assumption|]. split.
    { destruct Hext as (evs & Hevs). eexists. rewrite Hevs, <- app_assoc. reflexivity. }
    split; [eauto|]. intros r [= <-]. cbn. split; [reflexivity|]. now exists items.
  - split; [assumption|]. split; [assumption|]. split; [eauto|]. discriminate.
  - split; [assumption|]. split; [assumption|]. split; [eauto|]. discriminate.
Qed.

End StandaloneRun.

(** ** Sequences of calls to the page *)

Section PageSequences.

Context (env : Env) {O : Type}.

Lemma for_each_map {A B} (f : A -> B) (body : B -> M O unit) (l : list A) :
  forall w, for_each (map f l) body w = for_each l (fun x => body (f x)) w.
Proof.
  induction l as [|x l IH]; intros w; cbn [map for_each]; [reflexivity|].
  unfold bind. destruct (body (f x) w) as [[u|e|] w1]; [apply IH | reflexivity..].
Qed.

Lemma for_each_app {A} (body : A -> M O unit) (l1 l2 : list A) :
  forall w, for_each (l1 ++ l2) body w
            = (for_each l1 body;; for_each l2 body) w.
Proof.
  induction l1 as [|x l1 IH]; intros w; cbn [app for_each]; [reflexivity|].
  unfold bind. destruct (body x w) as [[u|e|] w1]; [|reflexivity..].
  rewrite IH. reflexivity.
Qed.

(** Calls made one after the other stop at the first one that fails: the
    calls before it returned, the calls after it are not made. *)
Lemma page_sequence ops : forall w : World O,
  wp (for_each ops (page_do env)) w (fun o w' =>
    self w' = self w
    /\ match o with
       | Ok _ => trace w' = trace w ++ map (fun op => EvPage op None) ops
       | Raise e =>
           exists done op rest,
             ops = done ++ op :: rest
             /\ trace w' = trace w ++ map (fun op => EvPage op None) done
                           ++ [EvPage op (Some e)]
       | OutOfFuel => False
       end).
Proof.
  induction ops as [|op ops IH]; intros w; cbn [for_each].
  - apply wp_ret. split; [reflexivity|]. cbn. now rewrite app_nil_r.
  - apply wp_bind. unfold wp at 1, page_do. cbn [fst snd].
    destruct (env_page env (trace w) op) as [e|] eqn:E.
    + split; [reflexivity|]. exists [], op, ops. split; reflexivity.
    + eapply wp_mono; [apply IH|]. cbn [self trace].
      intros o w' (Hs & Ho). split; [assumption|].
      destruct o as [[]|e|]; [| |assumption].
      * rewrite Ho, <- app_assoc. reflexivity.
      * destruct Ho as (done & op' & rest & -> & Ht).
        exists (op :: done), op', rest. split; [reflexivity|].
        rewrite Ht, <- app_assoc. reflexivity.
Qed.

End PageSequences.

(** ** More on [openai_cua.py] *)

Section StandaloneFacts2.

Import Standalone StandaloneLoop.

Context (env : Env).

Local Abbreviation Ctl := (World OpenAICUA).

Lemma drag_is_a_sequence path (w : Ctl) :
  present (page (self w)) = true ->
  drag env path w = for_each (drag_ops path) (page_do env) w.
Proof.
  intros Hp. destruct path as [|first rest]; [reflexivity|].
  cbn [drag drag_ops for_each]. unfold bind at 1, self_page, bind at 1, get.
  cbn [fst snd]. rewrite Hp. cbn [ret fst snd].
  unfold bind. destruct (page_do env _ w) as [[u|e|] w1]; [|reflexivity..].
  destruct (page_do env MouseDown w1) as [[u'|e|] w2]; [|reflexivity..].
  rewrite for_each_app. unfold bind. rewrite for_each_map.
  destruct (for_each rest _ w2) as [[u''|e|] w3]; [|reflexivity..].
  cbn [for_each]. unfold bind. destruct (page_do env MouseUp w3) as [[[]|e|] w4];
    reflexivity.
Qed.

(** X11.  A drag moves the pointer to the first point of the path, presses the
    button, moves through the other points in their order and releases the
    button; an empty path is no call at all.  The calls stop at the first
    one that fails: after a failure on the way the button is not
    released. *)
Theorem drag_holds_the_button_along_the_path path (w : Ctl) :
  present (page (self w)) = true ->
  wp (drag env path) w (fun o w' =>
    self w' = self w
    /\ match o with
       | Ok _ =>
           trace w' = trace w ++ map (fun op => EvPage op None) (drag_ops path)
       | Raise e =>
           exists done op rest,
             drag_ops path = done ++ op :: rest
             /\ trace w' = trace w ++ map (fun op => EvPage op None) done
                           ++ [EvPage op (Some e)]
       | OutOfFuel => False
       end).
Proof.
  intros Hp. unfold wp. rewrite (drag_is_a_sequence path w Hp).
  apply (page_sequence env (drag_ops path) w).
Qed.

(** X13.  The history of [run_task] is numbered 1, 2, .. in the order of the
    actions, whatever the number of computer calls in a response; the
    run leaves the key, the endpoint and the browser handles alone.  The
    dictionary it returns holds either the whole history and the final
    text, or, after a status other than 200, the error alone. *)
Theorem standalone_history_is_numbered fuel task (w : Ctl) :
  wp (run_task env fuel task) w (fun o w' =>
    kept (self w) (self w')
    /\ exists new,
         screenshots (self w') = screenshots (self w) ++ new
         /\ map step new = map Z.of_nat (seq 1 (length new))
         /\ forall r, o = Ok r ->
              match r_error r with
              | None =>
                  r_screenshots r = Some (screenshots (self w) ++ new)
                  /\ exists items,
                       r_result r = Some (PyStr.join newline (final_output items))
              | Some message =>
                  r_screenshots r = None /\ r_result r = None
                  /\ exists rp,
                       message = "API error: " +:+ PyStr.str_int (reply_status_code rp)
                                 +:+ " - " +:+ reply_text rp
                       /\ reply_status_code rp <> 200
              end).
Proof.
  eapply wp_mono; [apply run_task_spec|].
  intros o w' (Hk & _ & (new & Hsh & Hnum) & Hr).
  split; [assumption|]. exists new. split; [assumption|]. split.
  { rewrite Hnum. apply map_ext. intros i. lia. }
  intros r Ho. specialize (Hr r Ho). destruct (r_error r); [assumption|].
  now rewrite <- Hsh.
Qed.

(** X12.  Within one response, every computer call is executed and recorded in
    its turn, and no request is sent in between: the request prepared
    for the next round answers the last computer call only, with its
    call id, its pending safety checks as acknowledged, and the screenshot
    taken after it. *)
Theorem only_the_last_computer_call_is_answered resp calls rq0 n (w : Ctl) :
  wp (for_computer_calls env resp calls rq0 n) w (fun o w' =>
    posts (trace w') = posts (trace w)
    /\ forall rq n', o = Ok (rq, n') ->
         n' = n + Z.of_nat (length calls)
         /\ (calls = [] -> rq = rq0)
         /\ exists new,
              screenshots (self w') = screenshots (self w) ++ new
              /\ length new = length calls
              /\ map step new
                 = map (fun i => n + Z.of_nat i) (seq 1 (length calls))
              /\ forall cc, last calls = Some cc ->
                   exists ob, last new = Some ob /\ answers rq resp cc ob).
Proof.
  eapply wp_mono; [apply standalone_for_computer_calls_spec|].
  intros o w' (_ & (evs & Ht & Hp) & new & Hsh & Hnum & _ & Ho).
  split; [now rewrite Ht, posts_app, Hp, app_nil_r|].
  intros rq n' ->. destruct Ho as (-> & Hlen & Hnil & Hlast).
  split; [reflexivity|]. split; [assumption|]. exists new.
  split; [assumption|]. split; [assumption|]. split; [|assumption].
  unfold numbered_after in Hnum. now rewrite Hnum, Hlen.
Qed.




End StandaloneFacts2.

(** ** [browser_utils_cua.py] *)

Section BrowserUtilsFacts.

Import BrowserUtils.

Example should_log_network_request_samples :
  let request url type :=
    {| request_url := url; request_method := "GET"; request_resource_type := type;
       request_is_navigation := false; request_post_data := None; request_id := 1 |} in
  should_log_network_request (request "https://a.test/api/items" "xhr") = true
  /\ should_log_network_request (request "https://a.test/api/items.json" "fetch") = true
  /\ should_log_network_request (request "https://a.test/api/items" "document") = false
  /\ should_log_network_request (request "https://a.test/app.js" "xhr") = false
  /\ should_log_network_request (request "https://a.test/app.css?v=3" "fetch") = false
  /\ should_log_network_request
       (request "https://a.test/node_modules/x/data" "xhr") = false.
Proof. repeat split. Qed.

Example extract_initial_url_samples :
  extract_initial_url "Go to https://example.com/login and sign in"
  = Some "https://example.com/login"
  /\ extract_initial_url "Open http://a.test." = Some "http://a.test."
  /\ extract_initial_url "Open HTTP://A.TEST" = None
  /\ extract_initial_url "http:// is not enough" = None
  /\ extract_initial_url "Log in and check the profile page" = None.
Proof. repeat split. Qed.

Lemma append_empty b : "" +:+ b = b.
Proof. reflexivity. Qed.

Lemma append_cons c a b : String c a +:+ b = String c (a +:+ b).
Proof. reflexivity. Qed.


Lemma prefix_empty s : String.prefix "" s = true.
Proof. now destruct s. Qed.

Lemma prefix_cons c a d s :
  String.prefix (String c a) (String d s)
  = if ascii_dec c d then String.prefix a s else false.
Proof. reflexivity. Qed.

Lemma prefix_append a b : String.prefix a (a +:+ b) = true.
Proof.
  induction a as [|c a IH]; [apply prefix_empty|].
  rewrite append_cons, prefix_cons.
  destruct (ascii_dec c c); [assumption | contradiction].
Qed.

Lemma contains_here needle hay :
  String.prefix needle hay = true -> PyStr.contains needle hay = true.
Proof. intros H. destruct hay; cbn [PyStr.contains]; now rewrite H. Qed.

Lemma contains_append needle pre post :
  PyStr.contains needle (pre +:+ needle +:+ post) = true.
Proof.
  induction pre as [|c pre IH].
  - rewrite append_empty. apply contains_here, prefix_append.
  - rewrite append_cons. cbn [PyStr.contains]. rewrite IH. apply orb_true_r.
Qed.

Lemma length_append a b :
  String.length (a +:+ b) = (String.length a + String.length b)%nat.
Proof.
  induction a as [|c a IH]; [reflexivity|].
  rewrite append_cons. cbn [String.length]. now rewrite IH.
Qed.

Lemma substring_whole s m :
  (String.length s <= m)%nat -> substring 0 m s = s.
Proof.
  revert m. induction s as [|c s IH]; intros [|m] H; cbn in *; try reflexivity; try lia.
  f_equal. apply IH. lia.
Qed.

Lemma substring_append a b m :
  (String.length b <= m)%nat -> substring (String.length a) m (a +:+ b) = b.
Proof.
  intros H. induction a as [|c a IH].
  - rewrite append_empty. now apply substring_whole.
  - rewrite append_cons. cbn [String.length substring]. exact IH.
Qed.

Lemma endswith_append suffix pre : endswith suffix (pre +:+ suffix) = true.
Proof.
  unfold endswith. rewrite length_append.
  replace (String.length pre + String.length suffix - String.length suffix)%nat
    with (String.length pre) by lia.
  rewrite substring_append by lia. rewrite String.eqb_refl.
  rewrite andb_true_r. apply Nat.leb_le. lia.
Qed.

(** X15.  [should_log_network_request] lets only XHR and fetch requests
    through, and among them none whose URL goes through a [node_modules]
    directory, ends with one of the static file extensions, or carries
    such an extension right before a question mark (anywhere in the URL,
    so also inside the query string). *)
Theorem only_api_requests_are_logged request :
  (should_log_network_request request = true ->
   request_resource_type request = "xhr" \/ request_resource_type request = "fetch")
  /\ (forall pre post,
      request_url request = pre +:+ "/node_modules/" +:+ post ->
      should_log_network_request request = false)
  /\ (forall ext pre,
      In ext extensions_to_filter ->
      request_url request = pre +:+ ext ->
      should_log_network_request request = false)
  /\ (forall ext pre post,
      In ext extensions_to_filter ->
      request_url request = pre +:+ (ext +:+ "?") +:+ post ->
      should_log_network_request request = false).
Proof.
  unfold should_log_network_request. split; [|split; [|split]].
  - destruct (PyStr.contains "/node_modules/" _); [discriminate|].
    destruct (String.eqb_spec (request_resource_type request) "xhr") as [->|_];
      [now left|].
    destruct (String.eqb_spec (request_resource_type request) "fetch") as [->|_];
      [now right | discriminate].
  - intros pre post ->. now rewrite contains_append.
  - intros ext pre Hin ->. repeat case_match; try reflexivity. exfalso.
    assert (existsb (fun ext0 => endswith ext0 (pre +:+ ext)
                                 || PyStr.contains (ext0 +:+ "?") (pre +:+ ext))
              extensions_to_filter = true) as Hex.
    { apply existsb_exists. exists ext. split; [assumption|].
      now rewrite endswith_append. }
    congruence.
  - intros ext pre post Hin ->. repeat case_match; try reflexivity. exfalso.
    assert (existsb (fun ext0 => endswith ext0 (pre +:+ (ext +:+ "?") +:+ post)
                                 || PyStr.contains (ext0 +:+ "?")
                                      (pre +:+ (ext +:+ "?") +:+ post))
              extensions_to_filter = true) as Hex.
    { apply existsb_exists. exists ext. split; [assumption|].
      rewrite contains_append. apply orb_true_r. }
    congruence.
Qed.

(** *** The URL that [run_browser_task] takes from the task *)





End BrowserUtilsFacts.

(** *** The log handlers *)

Section HandlerFacts.

Import BrowserUtils.

Context (env : Env) (net : Net).

Local Abbreviation Ctl := (World Storage).

Lemma deque_append_map {A B} (f : A -> B) n d x :
  map f (deque_append n d x) = deque_append n (map f d) (f x).
Proof.
  unfold deque_append. change (map f) with (fmap (M:=list) f).
  now rewrite fmap_drop, fmap_app, !length_app, length_fmap.
Qed.

Lemma deque_append_latest {A} n (all : list A) x :
  deque_append n (drop (length all - n) all) x
  = drop (length (all ++ [x]) - n) (all ++ [x]).
Proof.
  unfold deque_append.
  rewrite <- (drop_app_le all [x]) by lia.
  rewrite drop_drop. f_equal.
  rewrite length_drop, !length_app. cbn [length]. lia.
Qed.

(** The step of [_handle_console_message] on the storage. *)
Lemma handle_console_message_step message (w : Ctl) :
  exists now log,
    handle_console_message env message w
    = (Ok tt,
       mkWorld (set_console
                  (deque_append MAX_LOG_ENTRIES (console_log_storage (self w))
                     {| console_type := message_type message;
                        console_text := message_text message;
                        console_location := message_location message;
                        console_timestamp := now |}) (self w))
               (trace w ++ [EvLog log (match message_failure message with
                                       | Some _ => "❌"
                                       | None => "🖥️"
                                       end) "console"])).
Proof.
  unfold handle_console_message, bind, loop_time, modify, send_log, emit.
  cbn [fst snd self trace]. destruct (message_failure message); eauto.
Qed.

(** X17.  [console_log_storage] holds the latest [MAX_LOG_ENTRIES] console
    messages, oldest first: after any number of messages, it is the end
    of the sequence of what it held before followed by the messages in
    their order of arrival.  Every message writes one entry to the log,
    and the stored requests are not touched. *)
Theorem console_storage_holds_the_latest_messages messages (w : Ctl) :
  wp (for_each messages (handle_console_message env)) w (fun o w' =>
    o = Ok tt
    /\ network_request_storage (self w') = network_request_storage (self w)
    /\ length (log_messages (trace w'))
       = (length (log_messages (trace w)) + length messages)%nat
    /\ ((length (console_log_storage (self w)) <= MAX_LOG_ENTRIES)%nat ->
        let all := map console_text (console_log_storage (self w))
                   ++ map message_text messages in
        map console_text (console_log_storage (self w'))
        = drop (length all - MAX_LOG_ENTRIES) all
        /\ (length (console_log_storage (self w')) <= MAX_LOG_ENTRIES)%nat)).
Proof.
  assert (forall messages (w : Ctl),
    wp (for_each messages (handle_console_message env)) w (fun o w' =>
      o = Ok tt
      /\ network_request_storage (self w') = network_request_storage (self w)
      /\ length (log_messages (trace w'))
         = (length (log_messages (trace w)) + length messages)%nat
      /\ forall all0,
           map console_text (console_log_storage (self w))
           = drop (length all0 - MAX_LOG_ENTRIES) all0 ->
           map console_text (console_log_storage (self w'))
           = drop (length (all0 ++ map message_text messages) - MAX_LOG_ENTRIES)
                  (all0 ++ map message_text messages))) as Hgen.
  { clear messages w. induction messages as [|message messages IH]; intros w;
      cbn [for_each].
    - apply wp_ret. cbn [map length]. rewrite Nat.add_0_r.
      split; [reflexivity|]. split; [reflexivity|]. split; [reflexivity|].
      intros all0 Hinv. now rewrite app_nil_r.
    - apply wp_bind. unfold wp at 1.
      destruct (handle_console_message_step message w) as (now & log & ->).
      cbn [fst snd]. eapply wp_mono; [apply IH|].
      cbn [self trace set_console network_request_storage console_log_storage].
      intros o w' (-> & Hn & Hl & Hc). split; [reflexivity|]. split; [assumption|].
      split.
      { rewrite Hl, log_messages_app, length_app. cbn. lia. }
      intros all0 Hinv. rewrite (Hc (all0 ++ [message_text message])).
      { now rewrite <- app_assoc. }
      rewrite deque_append_map, Hinv. cbn [console_text].
      apply deque_append_latest. }
  eapply wp_mono; [apply Hgen|].
  intros o w' (-> & Hn & Hl & Hc). split; [reflexivity|]. split; [assumption|].
  split; [assumption|]. intros Hb. cbn zeta.
  assert (map console_text (console_log_storage (self w'))
          = drop (length (map console_text (console_log_storage (self w))
                          ++ map message_text messages) - MAX_LOG_ENTRIES)
                 (map console_text (console_log_storage (self w))
                  ++ map message_text messages)) as Htexts.
  { apply Hc. rewrite length_map.
    replace (length (console_log_storage (self w)) - MAX_LOG_ENTRIES)%nat with 0%nat
      by lia.
    reflexivity. }
  split; [assumption|].
  apply (f_equal (@length _)) in Htexts. rewrite length_map, length_drop in Htexts. lia.
Qed.

Lemma attach_response_spec req_id data storage :
  match attach_response req_id data storage with
  | (storage', None) =>
      storage' = storage /\ Forall (fun req => pending req_id req = false) storage
  | (storage', Some updated) =>
      exists before req after,
        storage = before ++ req :: after
        /\ storage' = before ++ set_response data req :: after
        /\ updated = set_response data req
        /\ pending req_id req = true
        /\ Forall (fun req => pending req_id req = false) before
  end.
Proof.
  induction storage as [|req rest IH]; cbn [attach_response].
  - split; [reflexivity | constructor].
  - destruct (pending req_id req) eqn:Hp.
    + exists [], req, rest. repeat split; try assumption. constructor.
    + destruct (attach_response req_id data rest) as [rest' [updated|]].
      * destruct IH as (before & req0 & after & -> & -> & -> & Hp0 & Hall).
        exists (req :: before), req0, after. repeat split; try assumption.
        now constructor.
      * destruct IH as (-> & Hall). split; [reflexivity | now constructor].
Qed.


(** X18.  A response is attached to the first stored entry of its request that
    has no response yet, and to no other: the storage keeps its length,
    every other entry is as it was, so that a response already attached
    is never overwritten.  Without such an entry (the request was not
    logged, it was dropped from the storage, or it was answered before)
    nothing is stored and nothing is logged. *)
Theorem a_response_goes_to_the_first_pending_entry response (w : Ctl) :
  wp (handle_response env net response) w (fun o w' =>
    let req_id := request_id (response_request response) in
    let storage := network_request_storage (self w) in
    let storage' := network_request_storage (self w') in
    o = Ok tt
    /\ console_log_storage (self w') = console_log_storage (self w)
    /\ length storage' = length storage
    /\ ((storage' = storage /\ trace w' = trace w
         /\ (should_log_network_request (response_request response) = false
             \/ Forall (fun req => pending req_id req = false) storage))
        \/ exists before req after data,
             storage = before ++ req :: after
             /\ storage' = before ++ set_response data req :: after
             /\ pending req_id req = true
             /\ Forall (fun req => pending req_id req = false) before
             /\ response_status data = net_status response
             /\ should_log_network_request (response_request response) = true
             /\ trace w'
                = trace w ++ [EvLog ("NET RESP [" +:+ PyStr.str_int (net_status response)
                                     +:+ "]: " +:+ entry_url req) "⬅️" "network"])).
Proof.
  unfold handle_response.
  destruct (should_log_network_request (response_request response)) eqn:Hlog;
    cbn [negb].
  2:{ apply wp_ret. cbn zeta. repeat split. left. auto. }
  cbv zeta. apply wp_bind. unfold wp at 1, loop_time. cbn [fst snd].
  apply wp_bind, wp_get.
  set (data := {| response_status := _ |}).
  pose proof (attach_response_spec (request_id (response_request response)) data
                (network_request_storage (self w))) as Hspec.
  destruct (attach_response _ data _) as [storage' [updated|]].
  - destruct Hspec as (before & req & after & Hst & -> & -> & Hp & Hall).
    apply wp_bind, wp_modify. unfold send_log. apply wp_emit.
    cbn [self trace set_network network_request_storage console_log_storage
         set_response entry_url].
    rewrite Hst, !length_app. cbn [length].
    split; [reflexivity|]. split; [reflexivity|]. split; [reflexivity|].
    right. exists before, req, after, data. repeat split; assumption.
  - destruct Hspec as (-> & Hall). apply wp_bind, wp_modify. apply wp_ret.
    cbn [self trace set_network network_request_storage console_log_storage].
    repeat split. left. auto.
Qed.


End HandlerFacts.

(** ** The further properties on scripted scenarios *)

Section MoreScenarios.

Import Integration Loop.

Lemma initialized_controller_is_fresh_witness :
  fresh (self (initialize_browser Script.login ThePage
                 (mkWorld (init "key" None (Some "call") "https://backend.test") [])).2).
Proof.
  exact (proj1 (initialized_controller_is_fresh Script.login "key" None (Some "call")
                  "https://backend.test" ThePage [])).
Defined.

Lemma history_has_one_entry_per_follow_up_request_witness :
  exists r w',
    fresh (self (Script.world 30))
    /\ run_task Script.login 30 "click the login button" None (Script.world 30)
       = (Ok r, w')
    /\ length (posts (trace w')) = S (length (r_screenshots r)).
Proof.
  eexists _, _. split; [apply scripted_fresh|]. split; [vm_compute; reflexivity|].
  eapply (history_has_one_entry_per_follow_up_request Script.login
            (Script.controller (Script.config 30)) 30 "click the login button" None);
    [apply scripted_fresh | vm_compute; reflexivity].
Defined.




Lemma keypress_presses_the_keys_in_order_witness :
  let a := Scenario.select_all in
  exists o w',
    present (page (state (self (Script.world 30)))) = true
    /\ action_type a = Some "keypress"
    /\ execute_action Script.login a (Script.world 30) = (o, w')
    /\ page_calls (trace w')
       = [(KeyboardPress "Control", None); (KeyboardPress "Enter", None)].
Proof.
  cbn zeta. eexists _, _. split; [reflexivity|]. split; [reflexivity|].
  split; [vm_compute; reflexivity|].
  match goal with |- page_calls (trace ?w') = _ =>
    destruct (keypress_presses_the_keys_in_order Script.login
                Scenario.select_all
                (Script.world 30) (Ok tt) w' eq_refl eq_refl)
      as (calls & Hcalls & _)
  end; [vm_compute; reflexivity|].
  vm_compute. reflexivity.
Defined.

End MoreScenarios.

Section MoreStandaloneScenarios.

Import Standalone StandaloneLoop.

Lemma handle_computer_action_defaults_witness :
  let w := Scenario.entered in
  present (page (self w)) = true
  /\ (action_type (Script.action_of "click") = Some "click" ->
      let op := MouseClick (default 0 (action_x (Script.action_of "click")))
                           (default 0 (action_y (Script.action_of "click")))
                           (default "left" (action_button (Script.action_of "click"))) in
      let raised := env_page Script.login (trace w) op in
      (handle_computer_action Script.login (Script.action_of "click") w).1
      = outcome_of_call raised
      /\ page_calls
           (trace (handle_computer_action Script.login (Script.action_of "click") w).2)
         = page_calls (trace w) ++ [(op, raised)]).
Proof.
  cbn zeta. split; [reflexivity|].
  apply (handle_computer_action_defaults Script.login (Script.action_of "click")
           Scenario.entered). reflexivity.
Defined.

Lemma drag_holds_the_button_along_the_path_witness :
  let w := Scenario.entered in
  let path := [{| point_x := 1; point_y := 2 |}; {| point_x := 30; point_y := 40 |}] in
  present (page (self w)) = true
  /\ wp (drag Script.login path) w (fun o w' =>
       self w' = self w
       /\ match o with
          | Ok _ =>
              trace w' = trace w ++ map (fun op => EvPage op None) (drag_ops path)
          | Raise e =>
              exists done op rest,
                drag_ops path = done ++ op :: rest
                /\ trace w' = trace w ++ map (fun op => EvPage op None) done
                              ++ [EvPage op (Some e)]
          | OutOfFuel => False
          end).
Proof.
  cbn zeta. split; [reflexivity|].
  apply (drag_holds_the_button_along_the_path Script.login). reflexivity.
Defined.

End MoreStandaloneScenarios.

Section MoreBrowserScenarios.

Import BrowserUtils.



End MoreBrowserScenarios.
